(** * The Sparkify data-lake ETL ([etl.py]) over a model of Spark data frames

    [etl.py] reads two families of JSON records (the song catalog and the
    activity log), shapes them with PySpark data-frame operations and writes
    five parquet tables.  The development has three layers:

    - the Python standard-library calls of the script ([os.path.join],
      [int], [str], [datetime.fromtimestamp]);
    - the PySpark operations it uses ([select], [filter], [withColumn],
      [dropDuplicates], [alias], [join], the date functions, the parquet
      writer), over frames that carry a schema and positional rows;
    - the script itself: [process_song_data], [process_log_data], [main],
      written with the same local names and in the same order.

    The theorems at the end are about the third layer. *)

From Stdlib Require Import ZArith QArith Lia Ascii.
From stdpp Require Import base option list strings gmap pretty.

Local Open Scope Z_scope.

(* ===================================================================== *)
(** * Python *)
(* ===================================================================== *)

Module Py.

(** [os.path.join(a, b)] on a POSIX system: an absolute [b] discards [a];
    otherwise a separator is inserted unless [a] is empty or already ends
    with one. *)
Definition ends_with_slash (a : string) : bool :=
  match last (String.list_ascii_of_string a) with
  | Some c => bool_decide (c = "/"%char)
  | None => false
  end.

Definition starts_with_slash (b : string) : bool :=
  match b with
  | String c _ => bool_decide (c = "/"%char)
  | EmptyString => false
  end.

Definition os_path_join (a b : string) : string :=
  if starts_with_slash b then b
  else if bool_decide (a = "") || ends_with_slash a then a +:+ b
  else a +:+ "/" +:+ b.

(** Rounding to the nearest integer, ties to even. *)
Definition round_half_even (q : Q) : Z :=
  let n := Qnum q in
  let d := Zpos (Qden q) in
  let fl := n / d in
  let r := n mod d in
  if 2 * r <? d then fl
  else if d <? 2 * r then fl + 1
  else if Z.even fl then fl else fl + 1.

(** Python floats are binary64.  A float is kept as the rational it
    denotes, and an operation returns the float nearest to its exact result,
    ties to even: the result is scaled by a power of two so that it has 53
    significant bits, and rounded there.  [floor_log2 n d] is the exponent
    of [n / d], the largest [e] with [2^e <= n / d].  Exponents outside the
    range of binary64 (below -1022, above 1023) do not occur for the
    quotients and products of the script, whose arguments come from 64-bit
    integers, and are not modelled. *)
Definition floor_log2 (n d : Z) : Z :=
  let e := Z.log2 n - Z.log2 d in
  if d * 2 ^ Z.max 0 e <=? n * 2 ^ Z.max 0 (- e) then e else e - 1.

Definition binary64 (q : Q) : Q :=
  let n := Z.abs (Qnum q) in
  let d := Zpos (Qden q) in
  if n =? 0 then 0%Q
  else
    let e := floor_log2 n d in
    let up := 2 ^ Z.max 0 (52 - e) in
    let down := 2 ^ Z.max 0 (e - 52) in
    let m := round_half_even (Qmake (n * up) (Z.to_pos (d * down))) in
    Qmake (Z.sgn (Qnum q) * m * down) (Z.to_pos up).

(** [x / y] on integers: the float nearest to the quotient. *)
Definition true_div (x y : Z) : Q := binary64 (inject_Z x / inject_Z y).

(** [int(q)] truncates toward zero. *)
Definition int_of_float (q : Q) : Z := Z.quot (Qnum q) (Zpos (Qden q)).

(** [str(n)] for an integer. *)
Definition str_int (n : Z) : string := pretty n.

(** ** The proleptic Gregorian calendar *)

Definition is_leap (y : Z) : bool :=
  (y mod 4 =? 0) && (negb (y mod 100 =? 0) || (y mod 400 =? 0)).

Definition days_in_month (y m : Z) : Z :=
  if m =? 2 then (if is_leap y then 29 else 28)
  else if (m =? 4) || (m =? 6) || (m =? 9) || (m =? 11) then 30
  else 31.

(** Day number (days since 1970-01-01) of a civil date, and back.  Years
    are counted from March inside 400-year eras of 146097 days. *)
Definition days_from_civil (y m d : Z) : Z :=
  let y' := if m <=? 2 then y - 1 else y in
  let era := y' / 400 in
  let yoe := y' - era * 400 in
  let mp := if 2 <? m then m - 3 else m + 9 in
  let doy := (153 * mp + 2) / 5 + d - 1 in
  let doe := yoe * 365 + yoe / 4 - yoe / 100 + doy in
  era * 146097 + doe - 719468.

Definition civil_from_days (z : Z) : Z * Z * Z :=
  let z' := z + 719468 in
  let era := z' / 146097 in
  let doe := z' - era * 146097 in
  let yoe := (doe - doe / 1460 + doe / 36524 - doe / 146096) / 365 in
  let doy := doe - (365 * yoe + yoe / 4 - yoe / 100) in
  let mp := (5 * doy + 2) / 153 in
  let d := doy - (153 * mp + 2) / 5 + 1 in
  let m := if mp <? 10 then mp + 3 else mp - 9 in
  let y := yoe + era * 400 in
  (if m <=? 2 then y + 1 else y, m, d).

(** ** [datetime] *)

Record datetime := mk_datetime {
  dt_year : Z; dt_month : Z; dt_day : Z;
  dt_hour : Z; dt_minute : Z; dt_second : Z;
  dt_microsecond : Z
}.

(** The seconds and microseconds of a float timestamp, as
    [datetime.fromtimestamp] takes them: the float is split into its whole
    and fractional parts ([modf]), the fraction is multiplied by [1e6] (a
    float product) and rounded half to even, and a microsecond count that
    left [0 .. 999999] is carried into the seconds. *)
Definition to_timeval (t : Q) : Z * Z :=
  let int_part := Z.quot (Qnum t) (Zpos (Qden t)) in
  let frac := Qmake (Z.rem (Qnum t) (Zpos (Qden t))) (Qden t) in
  let us := round_half_even (binary64 (frac * inject_Z 1000000)) in
  if 1000000 <=? us then (int_part + 1, us - 1000000)
  else if us <? 0 then (int_part - 1, us + 1000000)
  else (int_part, us).

(** [datetime.fromtimestamp(t)]: the local wall-clock time of the POSIX
    timestamp [t], to the microsecond.  The local zone is the process
    environment; it enters as [zone], the offset from UTC in seconds that is
    in force at a given instant (the offset of a zone with daylight saving
    time changes with the instant).  A year outside [1..9999] raises
    [ValueError].  (CPython also reads the clock of the day before, to tell
    the two passes of a repeated hour apart, and so raises on the first day
    of the year 1 as well; the reading here does not.) *)
Definition fromtimestamp (zone : Z -> Z) (t : Q) : option datetime :=
  let '(secs, us) := to_timeval t in
  let local := secs + zone secs in
  let days := local / 86400 in
  let sod := local mod 86400 in
  let '(y, m, d) := civil_from_days days in
  if (1 <=? y) && (y <=? 9999)
  then Some {| dt_year := y; dt_month := m; dt_day := d;
               dt_hour := sod / 3600; dt_minute := sod mod 3600 / 60;
               dt_second := sod mod 60; dt_microsecond := us |}
  else None.

(** Decimal digits, zero padded to a fixed width ([%02d], [%04d], [%06d]). *)
Definition digit (n : Z) : ascii := ascii_of_nat (48 + Z.to_nat (n mod 10)).

Fixpoint zero_padded (width : nat) (n : Z) (acc : string) : string :=
  match width with
  | O => acc
  | S w => zero_padded w (n / 10) (String (digit n) acc)
  end.

(** [str(dt)] is [dt.isoformat(sep=' ')]: the fraction is printed only
    when the microsecond field is not zero. *)
Definition str_datetime (dt : datetime) : string :=
  zero_padded 4 (dt_year dt)
    (String "-" (zero_padded 2 (dt_month dt)
    (String "-" (zero_padded 2 (dt_day dt)
    (String " " (zero_padded 2 (dt_hour dt)
    (String ":" (zero_padded 2 (dt_minute dt)
    (String ":" (zero_padded 2 (dt_second dt)
    (if dt_microsecond dt =? 0 then ""
     else String "." (zero_padded 6 (dt_microsecond dt) "")))))))))))).

End Py.

(* ===================================================================== *)
(** * Spark SQL *)
(* ===================================================================== *)

Module Spark.

(** ** Types, values, schemas *)

(** The SQL types of the columns of this pipeline, and the two types the
    date functions cast their string argument to. *)
Inductive DataType :=
  StringType | LongType | IntegerType | DoubleType | BooleanType
| TimestampType | DateType.

(** A binary64 number, carried by its bit pattern: the pipeline copies
    latitudes, longitudes and durations and never computes with them. *)
Record double := Binary64 { bits : Z }.

Inductive value :=
| VNull
| VStr (s : string)
| VLong (n : Z)
| VInt (n : Z)
| VDouble (d : double)
| VBool (b : bool).

#[export] Instance DataType_eq_dec : EqDecision DataType.
Proof. solve_decision. Defined.
#[export] Instance double_eq_dec : EqDecision double.
Proof. solve_decision. Defined.
#[export] Instance value_eq_dec : EqDecision value.
Proof. solve_decision. Defined.

(** A column of a frame: its name, the alias of the frame it came from (set
    by [DataFrame.alias], used by qualified references such as
    ["log_df.artist"]) and its type. *)
Record Field := mk_field {
  qualifier : option string;
  name : string;
  dataType : DataType
}.

#[export] Instance Field_eq_dec : EqDecision Field.
Proof. solve_decision. Defined.

Abbreviation Row := (list value).

Record DataFrame := mk_frame {
  schema : list Field;
  rows : list Row
}.

Definition columns (df : DataFrame) : list string := name <$> schema df.

Definition cell (i : nat) (r : Row) : value := default VNull (r !! i).

(** Name resolution: a reference names a column either by its bare name or
    as [alias.name]; it must match exactly one column of the schema. *)
Definition refers_to (n : string) (f : Field) : bool :=
  bool_decide (n = name f)
  || match qualifier f with
     | Some q => bool_decide (n = q +:+ "." +:+ name f)
     | None => false
     end.

Fixpoint positions (n : string) (sch : list Field) (i : nat) : list nat :=
  match sch with
  | [] => []
  | f :: sch' =>
      if refers_to n f then i :: positions n sch' (S i)
      else positions n sch' (S i)
  end.

Definition resolve (sch : list Field) (n : string) : option nat :=
  match positions n sch 0 with
  | [i] => Some i
  | _ => None
  end.

(** ** Strings as dates and timestamps

    [hour] casts a string argument to a timestamp, the other date functions
    cast it to a date; a string that does not parse becomes null.  The
    casts are modelled on the zero-padded forms [yyyy-mm-dd] and
    [yyyy-mm-dd hh:mm:ss[.f]] with up to six fraction digits, which is what
    Python's [str] of a [datetime] prints. *)

Definition digit_val (c : ascii) : option Z :=
  let n := Z.of_nat (nat_of_ascii c) in
  if (48 <=? n) && (n <=? 57) then Some (n - 48) else None.

Fixpoint digits_val (cs : list ascii) (acc : Z) : option Z :=
  match cs with
  | [] => Some acc
  | c :: cs' => d ← digit_val c; digits_val cs' (10 * acc + d)
  end.

Definition number (cs : list ascii) : option Z := digits_val cs 0.

Definition valid_date (y m d : Z) : bool :=
  (1 <=? m) && (m <=? 12) && (1 <=? d) && (d <=? Py.days_in_month y m).

Definition valid_time (h mi s : Z) : bool :=
  (h <? 24) && (mi <? 60) && (s <? 60).

(** The date is the first ten characters; what follows a blank or a [T] is
    ignored by the cast to a date. *)
Definition string_to_date (s : string) : option (Z * Z * Z) :=
  match String.list_ascii_of_string s with
  | y1 :: y2 :: y3 :: y4 :: sep1 :: m1 :: m2 :: sep2 :: d1 :: d2 :: rest =>
      y ← number [y1; y2; y3; y4];
      m ← number [m1; m2];
      d ← number [d1; d2];
      if bool_decide (sep1 = "-"%char) && bool_decide (sep2 = "-"%char)
         && match rest with
            | [] => true
            | c :: _ => bool_decide (c = " "%char) || bool_decide (c = "T"%char)
            end
         && valid_date y m d
      then Some (y, m, d) else None
  | _ => None
  end.

Definition fraction_micros (cs : list ascii) : option Z :=
  match cs with
  | [] => Some 0
  | dot :: ds =>
      if bool_decide (dot = "."%char)
         && (1 <=? length ds)%nat && (length ds <=? 6)%nat
      then n ← number ds; Some (n * 10 ^ Z.of_nat (6 - length ds))
      else None
  end.

Definition string_to_timestamp (s : string) : option Py.datetime :=
  match String.list_ascii_of_string s with
  | y1 :: y2 :: y3 :: y4 :: sep1 :: m1 :: m2 :: sep2 :: d1 :: d2 :: sep3
      :: h1 :: h2 :: sep4 :: mi1 :: mi2 :: sep5 :: s1 :: s2 :: rest =>
      y ← number [y1; y2; y3; y4];
      m ← number [m1; m2];
      d ← number [d1; d2];
      h ← number [h1; h2];
      mi ← number [mi1; mi2];
      sec ← number [s1; s2];
      us ← fraction_micros rest;
      if bool_decide (sep1 = "-"%char) && bool_decide (sep2 = "-"%char)
         && (bool_decide (sep3 = " "%char) || bool_decide (sep3 = "T"%char))
         && bool_decide (sep4 = ":"%char) && bool_decide (sep5 = ":"%char)
         && valid_date y m d && valid_time h mi sec
      then Some (Py.mk_datetime y m d h mi sec us) else None
  | _ => None
  end.

(** Sunday is day 1 and Saturday day 7; 1970-01-01 was a Thursday. *)
Definition day_of_week (y m d : Z) : Z :=
  (Py.days_from_civil y m d + 4) mod 7 + 1.

(** ISO 8601 week number: the week of a date is the week of the Thursday of
    its Monday-to-Sunday week, counted inside that Thursday's year. *)
Definition week_of_year (y m d : Z) : Z :=
  let days := Py.days_from_civil y m d in
  let monday_based := (days + 3) mod 7 in
  let thursday := days - monday_based + 3 in
  let '(ty, _, _) := Py.civil_from_days thursday in
  (thursday - Py.days_from_civil ty 1 1) / 7 + 1.

Definition on_date (f : Z -> Z -> Z -> Z) (v : value) : value :=
  match v with
  | VStr s =>
      match string_to_date s with
      | Some (y, m, d) => VInt (f y m d)
      | None => VNull
      end
  | _ => VNull
  end.

Definition on_timestamp (f : Py.datetime -> Z) (v : value) : value :=
  match v with
  | VStr s =>
      match string_to_timestamp s with
      | Some t => VInt (f t)
      | None => VNull
      end
  | _ => VNull
  end.

(** ** Column expressions

    The part of [pyspark.sql.Column] and [pyspark.sql.functions] that the
    script uses.  [a == b] is SQL equality; a Python string on its right is
    a literal. *)

Inductive Column :=
| col (n : string)
| lit (s : string)
| EqualTo (a b : Column)
| PythonUDF (f : value -> option value) (a : Column)
| hour (c : Column)
| dayofmonth (c : Column)
| weekofyear (c : Column)
| month (c : Column)
| year (c : Column)
| dayofweek (c : Column)
| monotonically_increasing_id (partition : nat -> nat)
| Alias (c : Column) (n : string).

(** [udf(f)] wraps a Python function; the wrapper is applied to a column.
    Without a declared return type the result column is a string column. *)
Definition udf (f : value -> option value) : Column -> Column := PythonUDF f.

Notation "a == b" := (EqualTo a b) (at level 70, no associativity).

(** [monotonically_increasing_id()] puts the index of the partition in
    which a row is computed in the upper 31 bits of the id and the position
    of the row inside that partition in the lower 33 bits; the sum is a
    64-bit integer and wraps around.  How a frame is
    cut into partitions is decided by the physical plan: it enters as
    [partition], the partition of the row at a given position of the
    frame. *)
Definition record_number (partition : nat -> nat) (i : nat) : nat :=
  length (base.filter (fun j => partition j = partition i) (seq 0 i)).

Definition to_long (z : Z) : Z := (z + 2 ^ 63) mod 2 ^ 64 - 2 ^ 63.

Definition row_id (partition : nat -> nat) (i : nat) : Z :=
  to_long (Z.of_nat (partition i) * 2 ^ 33
           + Z.of_nat (record_number partition i)).

(** SQL equality is null when either side is null. *)
Definition sql_eq (x y : value) : value :=
  match x, y with
  | VNull, _ | _, VNull => VNull
  | _, _ => VBool (bool_decide (x = y))
  end.

(** An analysed expression: the column it produces and its value on the row
    at a given position of the frame.  Analysis fails ([None]) on a
    reference that does not resolve or on ill-typed arguments; evaluation
    fails when a Python function raises. *)
Abbreviation Eval := (nat -> Row -> option value).

Definition castable_to_date (t : DataType) : bool :=
  bool_decide (t = StringType) || bool_decide (t = DateType)
  || bool_decide (t = TimestampType).

Definition call (fn : string) (arg : Field) (f : value -> value)
    (ev : Eval) : option (Field * Eval) :=
  if castable_to_date (dataType arg)
  then Some (mk_field None (fn +:+ "(" +:+ name arg +:+ ")") IntegerType,
             fun i r => f <$> ev i r)
  else None.

Fixpoint analyze (sch : list Field) (c : Column) : option (Field * Eval) :=
  match c with
  | col n =>
      i ← resolve sch n;
      f ← sch !! i;
      Some (f, fun _ r => Some (cell i r))
  | lit s => Some (mk_field None s StringType, fun _ _ => Some (VStr s))
  | EqualTo a b =>
      '(fa, ea) ← analyze sch a;
      '(fb, eb) ← analyze sch b;
      if decide (dataType fa = dataType fb)
      then Some (mk_field None ("(" +:+ name fa +:+ " = " +:+ name fb +:+ ")")
                          BooleanType,
                 fun i r => x ← ea i r; y ← eb i r; Some (sql_eq x y))
      else None
  | PythonUDF f a =>
      '(fa, ea) ← analyze sch a;
      Some (mk_field None ("<lambda>(" +:+ name fa +:+ ")") StringType,
            fun i r => x ← ea i r; f x)
  | hour a =>
      '(fa, ea) ← analyze sch a;
      call "hour" fa (on_timestamp Py.dt_hour) ea
  | dayofmonth a =>
      '(fa, ea) ← analyze sch a;
      call "dayofmonth" fa (on_date (fun _ _ d => d)) ea
  | weekofyear a =>
      '(fa, ea) ← analyze sch a;
      call "weekofyear" fa (on_date week_of_year) ea
  | month a =>
      '(fa, ea) ← analyze sch a;
      call "month" fa (on_date (fun _ m _ => m)) ea
  | year a =>
      '(fa, ea) ← analyze sch a;
      call "year" fa (on_date (fun y _ _ => y)) ea
  | dayofweek a =>
      '(fa, ea) ← analyze sch a;
      call "dayofweek" fa (on_date day_of_week) ea
  | monotonically_increasing_id partition =>
      Some (mk_field None "monotonically_increasing_id()" LongType,
            fun i _ => Some (VLong (row_id partition i)))
  | Alias a n =>
      '(fa, ea) ← analyze sch a;
      Some (mk_field None n (dataType fa), ea)
  end.

(** ** Data frames

    A frame is a schema and a list of rows.  Operations are evaluated when
    they are applied; Spark defers them to the first write that needs them,
    which changes nothing below because between the definition of a frame
    that can fail and the first write that needs it the script writes
    nothing. *)

Module DF.

Fixpoint eval_rows (evs : list Eval) (i : nat) (l : list Row)
    : option (list Row) :=
  match l with
  | [] => Some []
  | r :: l' =>
      r' ← mapM (fun ev : Eval => ev i r) evs;
      rest ← eval_rows evs (S i) l';
      Some (r' :: rest)
  end.

(** [df.select(c1, ..., cn)], also written [df[c1, ..., cn]]. *)
Definition select (cs : list Column) (df : DataFrame) : option DataFrame :=
  es ← mapM (analyze (schema df)) cs;
  rs ← eval_rows (snd <$> es) 0 (rows df);
  Some (mk_frame (fst <$> es) rs).

Fixpoint keep_rows (ev : Row -> option value) (l : list Row)
    : option (list Row) :=
  match l with
  | [] => Some []
  | r :: l' =>
      v ← ev r;
      rest ← keep_rows ev l';
      Some (if decide (v = VBool true) then r :: rest else rest)
  end.

(** [df.filter(cond)] keeps the rows on which [cond] is true; a null
    condition drops the row. *)
Definition filter (cond : Column) (df : DataFrame) : option DataFrame :=
  '(f, ev) ← analyze (schema df) cond;
  if decide (dataType f = BooleanType)
  then rs ← keep_rows (ev 0%nat) (rows df); Some (mk_frame (schema df) rs)
  else None.

(** [df.withColumn(n, c)] replaces the columns named [n], or appends the
    column when there is none. *)
Definition has_column (n : string) (sch : list Field) : bool :=
  bool_decide (n ∈ name <$> sch).

Definition put_column (n : string) (f : Field) (sch : list Field)
    : list Field :=
  if has_column n sch
  then (fun g => if decide (name g = n) then f else g) <$> sch
  else sch ++ [f].

Definition put_cell (n : string) (sch : list Field) (v : value) (r : Row)
    : Row :=
  if has_column n sch
  then zip_with (fun g x => if decide (name g = n) then v else x) sch r
  else r ++ [v].

Fixpoint extend_rows (n : string) (sch : list Field) (ev : Eval) (i : nat)
    (l : list Row) : option (list Row) :=
  match l with
  | [] => Some []
  | r :: l' =>
      v ← ev i r;
      rest ← extend_rows n sch ev (S i) l';
      Some (put_cell n sch v r :: rest)
  end.

Definition withColumn (n : string) (c : Column) (df : DataFrame)
    : option DataFrame :=
  '(f, ev) ← analyze (schema df) c;
  rs ← extend_rows n (schema df) ev 0 (rows df);
  Some (mk_frame (put_column n (mk_field None n (dataType f)) (schema df)) rs).

(** [df.dropDuplicates()]: one row of each group of equal rows (nulls are
    equal to nulls here). *)
Definition dropDuplicates (df : DataFrame) : DataFrame :=
  mk_frame (schema df) (remove_dups (rows df)).

(** [df.alias(a)] *)
Definition alias (a : string) (df : DataFrame) : DataFrame :=
  mk_frame ((fun f => mk_field (Some a) (name f) (dataType f)) <$> schema df)
           (rows df).

(** The rows of a join come out in the order of the physical plan.  With
    the matches counted left row by left row, [order n] lists the positions
    of the [n] matches in the order in which the plan emits them; a list
    that is not an arrangement of [0 .. n-1] is ignored. *)
Definition arranges (n : nat) (o : list nat) : bool :=
  bool_decide (NoDup o) && bool_decide (length o = n)
  && forallb (fun i => bool_decide (i < n)%nat) o.

Definition reorder {A} (order : nat -> list nat) (l : list A) : list A :=
  let o := order (length l) in
  if arranges (length l) o then omap (fun i => l !! i) o else l.

(** [left.join(right, on, how)] for the join types ['inner'] and ['left']
    (the other types are not modelled and are refused). *)
Inductive JoinType := Inner | LeftOuter.

Definition join_type (how : string) : option JoinType :=
  if decide (how = "inner") then Some Inner
  else if bool_decide (how = "left") || bool_decide (how = "left_outer")
          || bool_decide (how = "leftouter")
  then Some LeftOuter
  else None.

Fixpoint matches (ev : Row -> option value) (l : Row) (rs : list Row)
    : option (list Row) :=
  match rs with
  | [] => Some []
  | r :: rs' =>
      v ← ev (l ++ r);
      rest ← matches ev l rs';
      Some (if decide (v = VBool true) then (l ++ r) :: rest else rest)
  end.

Fixpoint join_rows (jt : JoinType) (ev : Row -> option value)
    (width : nat) (ls rs : list Row) : option (list Row) :=
  match ls with
  | [] => Some []
  | l :: ls' =>
      ms ← matches ev l rs;
      rest ← join_rows jt ev width ls' rs;
      Some (match jt, ms with
            | LeftOuter, [] => (l ++ replicate width VNull) :: rest
            | _, _ => ms ++ rest
            end)
  end.

Definition join (order : nat -> list nat) (right : DataFrame) (on : Column)
    (how : string) (left : DataFrame) : option DataFrame :=
  jt ← join_type how;
  let sch := schema left ++ schema right in
  '(f, ev) ← analyze sch on;
  if decide (dataType f = BooleanType)
  then rs ← join_rows jt (ev 0%nat) (length (schema right))
                      (rows left) (rows right);
       Some (mk_frame sch (reorder order rs))
  else None.

End DF.

(** ** The session: parquet files and temporary views

    What a run leaves behind.  A parquet data set is stored under its path
    with the columns it is partitioned by, in order: the files of a
    partitioned data set live in nested directories [c1=v1/c2=v2/...], one
    per combination of values of the partition columns.  The world holds
    the data set found at each path as the script spells it; it says nothing
    of directories inside a data set or of other spellings of a path. *)

Record Parquet := mk_parquet {
  partition_columns : list string;
  contents : DataFrame
}.

Record World := mk_world {
  files : gmap string Parquet;
  views : gmap string DataFrame
}.

(** A step of the job: it may fail (the job aborts, what was written
    stays) and it may change the world. *)
Definition M (A : Type) : Type := World -> option A * World.

#[export] Instance M_ret : MRet M := fun A x w => (Some x, w).
#[export] Instance M_bind : MBind M := fun A B f m w =>
  match m w with
  | (Some x, w') => f x w'
  | (None, w') => (None, w')
  end.

Definition lift {A} (o : option A) : M A := fun w => (o, w).

(** Method chaining on a frame that may have failed to build:
    [df |> DF.select cs |> DF.filter c] is [df.select(cs).filter(c)]. *)
Notation "df |> f" := (mbind (M := option) f df)
  (at level 59, left associativity).

Inductive SaveMode := Overwrite | Append | Ignore | ErrorIfExists.

Definition save_mode (mode : string) : option SaveMode :=
  if decide (mode = "overwrite") then Some Overwrite
  else if decide (mode = "append") then Some Append
  else if decide (mode = "ignore") then Some Ignore
  else if bool_decide (mode = "error") || bool_decide (mode = "errorifexists")
          || bool_decide (mode = "default")
  then Some ErrorIfExists
  else None.

(** The writer refuses duplicate column names, partition columns that are
    not columns of the frame, and partitioning by every column. *)
Definition writable (partitionBy : list string) (df : DataFrame) : bool :=
  bool_decide (NoDup (columns df))
  && bool_decide (NoDup partitionBy)
  && forallb (fun c => bool_decide (c ∈ columns df)) partitionBy
  && (length partitionBy <? length (columns df) )%nat.

(** [df.write.partitionBy(c1, ..., cn).parquet(path, mode)]; without
    [partitionBy] the list of partition columns is empty. *)
Definition write_parquet (partitionBy : list string) (path mode : string)
    (df : DataFrame) : M unit := fun w =>
  match save_mode mode with
  | Some m =>
      if writable partitionBy df then
        let fresh := mk_parquet partitionBy df in
        match m, files w !! path with
        | Overwrite, _ | _, None =>
            (Some (), mk_world (<[path := fresh]> (files w)) (views w))
        | Append, Some old =>
            if decide (partition_columns old = partitionBy
                       ∧ schema (contents old) = schema df)
            then (Some (),
                  mk_world (<[path := mk_parquet partitionBy
                                (mk_frame (schema df)
                                   (rows (contents old) ++ rows df))]>
                              (files w))
                           (views w))
            else (None, w)
        | Ignore, Some _ => (Some (), w)
        | ErrorIfExists, Some _ => (None, w)
        end
      else (None, w)
  | None => (None, w)
  end.

(** [df.createOrReplaceTempView(name)] *)
Definition createOrReplaceTempView (n : string) (df : DataFrame) : M unit :=
  fun w => (Some (), mk_world (files w) (<[n := df]> (views w))).

(** The directory of a row inside a partitioned data set, as the list of
    its [column = value] levels, and the rows a reader gets when it asks
    for one directory. *)
Definition partition_of (p : Parquet) (r : Row) : list (string * value) :=
  (fun c => (c, match resolve (schema (contents p)) c with
                | Some i => cell i r
                | None => VNull
                end)) <$> partition_columns p.

Definition scan_partition (p : Parquet) (dir : list (string * value))
    : list Row :=
  List.filter (fun r => bool_decide (partition_of p r = dir))
              (rows (contents p)).

End Spark.

(* ===================================================================== *)
(** * The input *)
(* ===================================================================== *)

Module Json.

(** Modelled from the spec: the record types of the two JSON sources (the
    data files are not part of the repository).  A catalog record describes
    one song; [year] is 0 when unknown. *)
Record CatalogRecord := mk_song {
  song_id : string;
  title : string;
  artist_id : string;
  artist_name : string;
  artist_location : option string;
  artist_latitude : option Spark.double;
  artist_longitude : option Spark.double;
  year : Z;
  duration : Spark.double
}.

(** Modelled from the spec: an activity record is one event of the
    application log; [ts] is in milliseconds since the epoch, [song] and
    [artist] are null on events that are not song plays. *)
Record ActivityRecord := mk_event {
  ts : Z;
  userId : string;
  firstName : string;
  lastName : string;
  gender : string;
  level : string;
  page : string;
  song : option string;
  artist : option string;
  sessionId : Z;
  location : string;
  userAgent : string
}.

End Json.

Import Json.
Import Spark.

(** The JSON reader infers one column per field, in alphabetical order,
    integers as longs; every column is nullable, and a column that is null
    in every record is inferred as a string column. *)
Definition nullable {A} (f : A -> value) (o : option A) : value :=
  from_option f VNull o.

Definition inferred {A} (t : DataType) (observed : list (option A))
    : DataType :=
  if forallb (fun o => bool_decide (o = None)) observed then StringType
  else t.

Definition song_schema (cs : list CatalogRecord) : list Field :=
  [ mk_field None "artist_id" StringType;
    mk_field None "artist_latitude"
             (inferred DoubleType (artist_latitude <$> cs));
    mk_field None "artist_location" StringType;
    mk_field None "artist_longitude"
             (inferred DoubleType (artist_longitude <$> cs));
    mk_field None "artist_name" StringType;
    mk_field None "duration" DoubleType;
    mk_field None "song_id" StringType;
    mk_field None "title" StringType;
    mk_field None "year" LongType ].

Definition song_row (c : CatalogRecord) : Row :=
  [ VStr (artist_id c);
    nullable VDouble (artist_latitude c);
    nullable VStr (artist_location c);
    nullable VDouble (artist_longitude c);
    VStr (artist_name c);
    VDouble (duration c);
    VStr (song_id c);
    VStr (title c);
    VLong (Json.year c) ].

Definition log_schema : list Field :=
  [ mk_field None "artist" StringType;
    mk_field None "firstName" StringType;
    mk_field None "gender" StringType;
    mk_field None "lastName" StringType;
    mk_field None "level" StringType;
    mk_field None "location" StringType;
    mk_field None "page" StringType;
    mk_field None "sessionId" LongType;
    mk_field None "song" StringType;
    mk_field None "ts" LongType;
    mk_field None "userAgent" StringType;
    mk_field None "userId" StringType ].

Definition log_row (e : ActivityRecord) : Row :=
  [ nullable VStr (artist e);
    VStr (firstName e);
    VStr (gender e);
    VStr (lastName e);
    VStr (level e);
    VStr (location e);
    VStr (page e);
    VLong (sessionId e);
    nullable VStr (song e);
    VLong (ts e);
    VStr (userAgent e);
    VStr (userId e) ].

(** The session the script gets from [create_spark_session], with what it
    can see of its environment: the time zone of the machine (the offset
    from UTC, in seconds, in force at a given instant), the records stored
    under the two file patterns of the input bucket, and the two choices of
    the physical plan that show in the fact table: the partition in which
    the row at a given position is computed and the order in which the rows
    of the join come out. *)
Record SparkSession := mk_session {
  utcoffset : Z -> Z;
  bucket : string;
  song_json : list CatalogRecord;
  log_json : list ActivityRecord;
  partition : nat -> nat;
  join_order : nat -> list nat
}.

(** [spark.read.json(path)].  A pattern that matches no record fails: there
    is no file, or nothing to infer the columns from. *)
Definition song_frame (cs : list CatalogRecord) : DataFrame :=
  mk_frame (song_schema cs) (song_row <$> cs).

Definition log_frame (es : list ActivityRecord) : DataFrame :=
  mk_frame log_schema (log_row <$> es).

Definition read_json (spark : SparkSession) (path : string)
    : option DataFrame :=
  if decide (path = Py.os_path_join (bucket spark) "song_data/*/*/*/*.json")
  then
    match song_json spark with
    | [] => None
    | cs => Some (song_frame cs)
    end
  else if decide (path = Py.os_path_join (bucket spark) "log_data/*.json")
  then
    match log_json spark with
    | [] => None
    | es => Some (log_frame es)
    end
  else None.

(* ===================================================================== *)
(** * The script *)
(* ===================================================================== *)

(** [int(x)] for the value of a long column; on a null Python raises. *)
Definition py_int (x : value) : option Z :=
  match x with
  | VLong n => Some n
  | _ => None
  end.

(** [lambda x: str(int(int(x)/1000))] *)
Definition get_timestamp_lambda (x : value) : option value :=
  n ← py_int x;
  Some (VStr (Py.str_int (Py.int_of_float (Py.true_div n 1000)))).

Definition get_timestamp : Column -> Column := udf get_timestamp_lambda.

(** [lambda x: str(datetime.fromtimestamp(int(x) / 1000))] *)
Definition get_datetime_lambda (spark : SparkSession) (x : value)
    : option value :=
  n ← py_int x;
  dt ← Py.fromtimestamp (utcoffset spark) (Py.true_div n 1000);
  Some (VStr (Py.str_datetime dt)).

Definition get_datetime (spark : SparkSession) : Column -> Column :=
  udf (get_datetime_lambda spark).

Definition songs_table (df : DataFrame) : option DataFrame :=
  DF.select [col "song_id"; col "title"; col "artist_id"; col "year";
             col "duration"] df.

Definition artists_table (df : DataFrame) : option DataFrame :=
  DF.select [col "artist_id"; col "artist_name"; col "artist_location";
             col "artist_latitude"; col "artist_longitude"] df.

Definition process_song_data (spark : SparkSession)
    (input_data output_data : string) : M unit :=
  let song_data := Py.os_path_join input_data "song_data/*/*/*/*.json" in
  df ← lift (read_json spark song_data);
  songs_table ← lift (songs_table df);
  write_parquet ["year"; "artist_id"]
    (Py.os_path_join output_data "songs.parquet") "overwrite" songs_table;;
  artists_table ← lift (artists_table df);
  write_parquet []
    (Py.os_path_join output_data "artists.parquet") "overwrite" artists_table.

(** The frame [actions_df] as first bound (filter and projection) and as
    rebound after the two [withColumn] calls. *)
Definition actions_df (df : DataFrame) : option DataFrame :=
  DF.filter (col "page" == lit "NextSong") df
  |> DF.select [col "ts"; col "userId"; col "level"; col "song";
                col "artist"; col "sessionId"; col "location";
                col "userAgent"].

Definition users_table (df : DataFrame) : option DataFrame :=
  DF.dropDuplicates
    <$> DF.select [col "userId"; col "firstName"; col "lastName";
                   col "gender"; col "level"] df.

Definition actions_df_timed (spark : SparkSession) (actions_df : DataFrame)
    : option DataFrame :=
  DF.withColumn "timestamp" (get_timestamp (col "ts")) actions_df
  |> DF.withColumn "datetime" (get_datetime spark (col "ts")).

Definition time_table (actions_df : DataFrame) : option DataFrame :=
  DF.dropDuplicates
    <$> (DF.select [col "datetime"] actions_df
         |> DF.withColumn "start_time" (col "datetime")
         |> DF.withColumn "hour" (hour (col "datetime"))
         |> DF.withColumn "day" (dayofmonth (col "datetime"))
         |> DF.withColumn "week" (weekofyear (col "datetime"))
         |> DF.withColumn "month" (month (col "datetime"))
         |> DF.withColumn "year" (year (col "datetime"))
         |> DF.withColumn "weekday" (dayofweek (col "datetime"))).

Definition joined_df (spark : SparkSession) (actions_df song_df : DataFrame)
    : option DataFrame :=
  let actions_df := DF.alias "log_df" actions_df in
  let song_df := DF.alias "song_df" song_df in
  DF.join (join_order spark) song_df
          (col "log_df.artist" == col "song_df.artist_name") "inner"
          actions_df.

Definition songplays_table (spark : SparkSession) (joined_df : DataFrame)
    : option DataFrame :=
  DF.select
    [ Alias (col "log_df.datetime") "start_time";
      Alias (col "log_df.userId") "user_id";
      Alias (col "log_df.level") "level";
      Alias (col "song_df.song_id") "song_id";
      Alias (col "song_df.artist_id") "artist_id";
      Alias (col "log_df.sessionId") "session_id";
      Alias (col "log_df.location") "location";
      Alias (col "log_df.userAgent") "user_agent";
      Alias (year (col "log_df.datetime")) "year";
      Alias (month (col "log_df.datetime")) "month" ] joined_df
  |> DF.withColumn "songplay_id"
                   (monotonically_increasing_id (partition spark)).

Definition process_log_data (spark : SparkSession)
    (input_data output_data : string) : M unit :=
  let log_data := Py.os_path_join input_data "log_data/*.json" in
  df ← lift (read_json spark log_data);
  actions ← lift (actions_df df);
  users_table ← lift (users_table df);
  createOrReplaceTempView "users" users_table;;
  write_parquet []
    (Py.os_path_join output_data "users/users.parquet") "overwrite"
    users_table;;
  actions ← lift (actions_df_timed spark actions);
  time_table ← lift (time_table actions);
  write_parquet ["year"; "month"]
    (Py.os_path_join output_data "time/time.parquet") "overwrite"
    time_table;;
  let song_data := Py.os_path_join input_data "song_data/*/*/*/*.json" in
  song_df ← lift (read_json spark song_data);
  joined_df ← lift (joined_df spark actions song_df);
  songplays_table ← lift (songplays_table spark joined_df);
  createOrReplaceTempView "songplays" songplays_table;;
  let time_table := DF.alias "timetable" time_table in
  write_parquet ["year"; "month"]
    (Py.os_path_join output_data "songplays/songplays.parquet") "overwrite"
    songplays_table.

Definition main (spark : SparkSession) : M unit :=
  let input_data := "s3a://udacity-dend/" in
  let output_data := "./output_data/" in
  process_song_data spark input_data output_data;;
  process_log_data spark input_data output_data.

(* ===================================================================== *)
(** * The five tables as functions of the input records *)
(* ===================================================================== *)

(** The tables of the star schema, obtained by running the frames of the
    script on the frames the reader builds from the records. *)
Definition SongsDim (cs : list CatalogRecord) : option DataFrame :=
  songs_table (song_frame cs).

Definition ArtistsDim (cs : list CatalogRecord) : option DataFrame :=
  artists_table (song_frame cs).

Definition UsersDim (es : list ActivityRecord) : option DataFrame :=
  users_table (log_frame es).

Definition Actions (spark : SparkSession) (es : list ActivityRecord)
    : option DataFrame :=
  actions_df (log_frame es) |> actions_df_timed spark.

Definition TimeDim (spark : SparkSession) (es : list ActivityRecord)
    : option DataFrame :=
  Actions spark es |> time_table.

Definition SongPlayFact (spark : SparkSession) (es : list ActivityRecord)
    (cs : list CatalogRecord) : option DataFrame :=
  Actions spark es
  |> (fun actions => joined_df spark actions (song_frame cs))
  |> songplays_table spark.

(** What the script computes, row by row, written directly on the records.
    These descriptions are compared with the frames of the script in the
    lemmas of the next part. *)

Definition is_song_play (e : ActivityRecord) : Prop := page e = "NextSong".

#[export] Instance is_song_play_dec e : Decision (is_song_play e).
Proof. unfold is_song_play. apply _. Defined.

Definition songs_schema : list Field :=
  [ mk_field None "song_id" StringType;
    mk_field None "title" StringType;
    mk_field None "artist_id" StringType;
    mk_field None "year" LongType;
    mk_field None "duration" DoubleType ].

Definition songs_row (c : CatalogRecord) : Row :=
  [ VStr (song_id c); VStr (title c); VStr (artist_id c);
    VLong (Json.year c); VDouble (duration c) ].

Definition artists_schema (cs : list CatalogRecord) : list Field :=
  [ mk_field None "artist_id" StringType;
    mk_field None "artist_name" StringType;
    mk_field None "artist_location" StringType;
    mk_field None "artist_latitude"
             (inferred DoubleType (artist_latitude <$> cs));
    mk_field None "artist_longitude"
             (inferred DoubleType (artist_longitude <$> cs)) ].

Definition artists_row (c : CatalogRecord) : Row :=
  [ VStr (artist_id c); VStr (artist_name c);
    nullable VStr (artist_location c);
    nullable VDouble (artist_latitude c);
    nullable VDouble (artist_longitude c) ].

Definition users_schema : list Field :=
  [ mk_field None "userId" StringType;
    mk_field None "firstName" StringType;
    mk_field None "lastName" StringType;
    mk_field None "gender" StringType;
    mk_field None "level" StringType ].

Definition users_row (e : ActivityRecord) : Row :=
  [ VStr (userId e); VStr (firstName e); VStr (lastName e);
    VStr (gender e); VStr (level e) ].

Definition actions_schema : list Field :=
  [ mk_field None "ts" LongType;
    mk_field None "userId" StringType;
    mk_field None "level" StringType;
    mk_field None "song" StringType;
    mk_field None "artist" StringType;
    mk_field None "sessionId" LongType;
    mk_field None "location" StringType;
    mk_field None "userAgent" StringType;
    mk_field None "timestamp" StringType;
    mk_field None "datetime" StringType ].

Definition events_row (e : ActivityRecord) : Row :=
  [ VLong (ts e); VStr (userId e); VStr (level e); nullable VStr (song e);
    nullable VStr (artist e); VLong (sessionId e); VStr (location e);
    VStr (userAgent e) ].

(** The two derived columns of an event.  An event is [datable] when
    [datetime.fromtimestamp] accepts its time; [datetime_of] is the string
    of the [datetime] column of a datable event (on another event the
    function of the script raises, and the job stops at the first write that
    needs the column). *)
Definition timestamp_of (e : ActivityRecord) : string :=
  Py.str_int (Py.int_of_float (Py.true_div (ts e) 1000)).

Definition datable (spark : SparkSession) (e : ActivityRecord) : Prop :=
  is_Some (Py.fromtimestamp (utcoffset spark) (Py.true_div (ts e) 1000)).

#[export] Instance datable_dec spark e : Decision (datable spark e).
Proof. unfold datable. apply _. Defined.

Definition datetime_of (spark : SparkSession) (e : ActivityRecord) : string :=
  from_option Py.str_datetime ""
    (Py.fromtimestamp (utcoffset spark) (Py.true_div (ts e) 1000)).

Definition actions_row (spark : SparkSession) (e : ActivityRecord) : Row :=
  events_row e ++ [VStr (timestamp_of e); VStr (datetime_of spark e)].

Definition time_schema : list Field :=
  [ mk_field None "datetime" StringType;
    mk_field None "start_time" StringType;
    mk_field None "hour" IntegerType;
    mk_field None "day" IntegerType;
    mk_field None "week" IntegerType;
    mk_field None "month" IntegerType;
    mk_field None "year" IntegerType;
    mk_field None "weekday" IntegerType ].

Definition time_row (s : string) : Row :=
  [ VStr s; VStr s;
    on_timestamp Py.dt_hour (VStr s);
    on_date (fun _ _ d => d) (VStr s);
    on_date week_of_year (VStr s);
    on_date (fun _ m _ => m) (VStr s);
    on_date (fun y _ _ => y) (VStr s);
    on_date day_of_week (VStr s) ].

Definition songplays_schema : list Field :=
  [ mk_field None "start_time" StringType;
    mk_field None "user_id" StringType;
    mk_field None "level" StringType;
    mk_field None "song_id" StringType;
    mk_field None "artist_id" StringType;
    mk_field None "session_id" LongType;
    mk_field None "location" StringType;
    mk_field None "user_agent" StringType;
    mk_field None "year" IntegerType;
    mk_field None "month" IntegerType;
    mk_field None "songplay_id" LongType ].

Definition songplays_row (spark : SparkSession) (i : nat)
    (p : ActivityRecord * CatalogRecord) : Row :=
  let '(e, c) := p in
  [ VStr (datetime_of spark e); VStr (userId e); VStr (level e);
    VStr (song_id c); VStr (artist_id c); VLong (sessionId e);
    VStr (location e); VStr (userAgent e);
    on_date (fun y _ _ => y) (VStr (datetime_of spark e));
    on_date (fun _ m _ => m) (VStr (datetime_of spark e));
    VLong (row_id (partition spark) i) ].

(** The inner join on the artist name: every song play paired with every
    catalog record of an artist of exactly that name, plays in log order and
    records in catalog order. *)
Definition same_artist (e : ActivityRecord) (c : CatalogRecord) : Prop :=
  artist e = Some (artist_name c).

#[export] Instance same_artist_dec e c : Decision (same_artist e c).
Proof. unfold same_artist. apply _. Defined.

Definition plays (es : list ActivityRecord) (cs : list CatalogRecord)
    : list (ActivityRecord * CatalogRecord) :=
  e ← base.filter is_song_play es;
  (fun c => (e, c)) <$> base.filter (same_artist e) cs.

(** The pairs in the order in which the join of the session emits them. *)
Definition plays_of (spark : SparkSession) (es : list ActivityRecord)
    (cs : list CatalogRecord) : list (ActivityRecord * CatalogRecord) :=
  DF.reorder (join_order spark) (plays es cs).

(** ** Calendar time of an event

    The wall-clock reading of a whole number of seconds since the epoch in
    the zone of the session, with a given microsecond field. *)
Definition wall_clock (tz secs us : Z) : Py.datetime :=
  let local := secs + tz in
  let days := local / 86400 in
  let sod := local mod 86400 in
  let '(y, m, d) := Py.civil_from_days days in
  Py.mk_datetime y m d (sod / 3600) (sod mod 3600 / 60) (sod mod 60) us.

(** The wall clock of an event: the reading at its whole second, in the
    offset in force at that second, with its milliseconds as fraction. *)
Definition event_clock (spark : SparkSession) (e : ActivityRecord)
    : Py.datetime :=
  wall_clock (utcoffset spark (ts e / 1000)) (ts e / 1000)
             (ts e mod 1000 * 1000).

(** The local time of an event in milliseconds: its instant moved by the
    offset in force at its whole second. *)
Definition local_millis (spark : SparkSession) (e : ActivityRecord) : Z :=
  ts e + 1000 * utcoffset spark (ts e / 1000).

(** A [datetime] whose fields are in range for a four-digit year: these
    are the values [str] prints in the form the casts of Spark read back. *)
Definition printable (dt : Py.datetime) : Prop :=
  0 <= Py.dt_year dt <= 9999
  /\ valid_date (Py.dt_year dt) (Py.dt_month dt) (Py.dt_day dt) = true
  /\ 0 <= Py.dt_hour dt /\ 0 <= Py.dt_minute dt /\ 0 <= Py.dt_second dt
  /\ valid_time (Py.dt_hour dt) (Py.dt_minute dt) (Py.dt_second dt) = true
  /\ 0 <= Py.dt_microsecond dt < 1000000.

(** The events of the window: non-negative millisecond counts below
    [2^32] seconds, at an instant where the zone is less than a day away
    from UTC.  On these the float [int(x) / 1000] is close enough to the
    exact quotient for [int] and [datetime.fromtimestamp] to return what
    they return on the exact value, and the year is between 1969 and
    2106. *)
Definition in_window (spark : SparkSession) (e : ActivityRecord) : Prop :=
  0 <= ts e < 4294967296000
  /\ -86400 < utcoffset spark (ts e / 1000) < 86400.

(** A log all of whose song plays are in the window. *)
Definition window (spark : SparkSession) (es : list ActivityRecord) : Prop :=
  forall e, e ∈ es -> page e = "NextSong" -> in_window spark e.

#[export] Instance in_window_dec spark e : Decision (in_window spark e).
Proof. unfold in_window. apply _. Defined.

(** ** What a run writes

    The input root of [main]. *)
Definition input_data : string := "s3a://udacity-dend/".

(** The five data sets [main] leaves under [./output_data/], laid over
    the files [fs] that were there. *)
Definition written (spark : SparkSession) (fs : gmap string Parquet)
    : gmap string Parquet :=
  let cs := song_json spark in
  let es := log_json spark in
  <["./output_data/songplays/songplays.parquet" :=
      mk_parquet ["year"; "month"]
        (mk_frame songplays_schema
                  (imap (songplays_row spark) (plays_of spark es cs)))]>
  (<["./output_data/time/time.parquet" :=
      mk_parquet ["year"; "month"]
        (mk_frame time_schema
           (remove_dups (time_row <$> (datetime_of spark
                                         <$> base.filter is_song_play es))))]>
  (<["./output_data/users/users.parquet" :=
      mk_parquet [] (mk_frame users_schema (remove_dups (users_row <$> es)))]>
  (<["./output_data/artists.parquet" :=
      mk_parquet [] (mk_frame (artists_schema cs) (artists_row <$> cs))]>
  (<["./output_data/songs.parquet" :=
      mk_parquet ["year"; "artist_id"]
        (mk_frame songs_schema (songs_row <$> cs))]> fs)))).

(** ** Reading a table

    The value a row holds in the column of a given name. *)
Definition field_of (sch : list Field) (n : string) (r : Row) : value :=
  match resolve sch n with
  | Some i => cell i r
  | None => VNull
  end.

#[export] Instance VStr_inj : Inj (=) (=) VStr.
Proof. by intros ? ? [=]. Qed.

(** ** Sample records

    A small catalog and log, used to run the definitions. *)
Module Sample.
Definition one_more_time : CatalogRecord :=
  mk_song "SOABCDE12AB0180123" "One More Time" "ARDAFT1187B9A4E8F"
          "Daft Punk" (Some "Paris, France") None None 2000
          (Binary64 4644745389415596032).
Definition around_the_world : CatalogRecord :=
  mk_song "SOFGHIJ12AB0184567" "Around the World" "ARDAFT1187B9A4E8F"
          "Daft Punk" (Some "Paris, France") None None 1997
          (Binary64 4646540180947370803).
Definition lower_case : CatalogRecord :=
  mk_song "SOKLMNO12AB0189012" "Veridis Quo" "ARTRIB1187B9A4E90"
          "daft punk" None None None 0 (Binary64 4645209175862697984).
Definition play : ActivityRecord :=
  mk_event 1541990258796 "26" "Ryan" "Smith" "M" "free" "NextSong"
           (Some "Harder Better Faster Stronger") (Some "Daft Punk") 583
           "San Jose-Sunnyvale-Santa Clara, CA" "Mozilla/5.0".
Definition home : ActivityRecord :=
  mk_event 1541990217796 "8" "Kaylee" "Summers" "F" "paid" "Home"
           None None 139 "Phoenix-Mesa-Scottsdale, AZ" "Mozilla/5.0".
Definition on_the_second : ActivityRecord :=
  mk_event 1541990258000 "26" "Ryan" "Smith" "M" "free" "NextSong"
           (Some "Digital Love") (Some "Daft Punk") 583
           "San Jose-Sunnyvale-Santa Clara, CA" "Mozilla/5.0".
Definition catalog : list CatalogRecord :=
  [one_more_time; around_the_world; lower_case].
Definition log : list ActivityRecord := [play; home; play].
Definition session (offset : Z) (cs : list CatalogRecord)
    (es : list ActivityRecord) : SparkSession :=
  mk_session (fun _ => offset) "s3a://udacity-dend/" cs es
             (fun _ => 0%nat) (fun n => seq 0 n).
Definition utc : SparkSession := session 0 catalog log.
(** A zone that sets its clocks back by an hour at 06:00 UTC on 4 November
    2018 (America/New_York), and two plays, half an hour before the change
    and half an hour after it. *)
Definition before_the_change : ActivityRecord :=
  mk_event 1541309400000 "26" "Ryan" "Smith" "M" "free" "NextSong"
           (Some "Digital Love") (Some "Daft Punk") 583
           "New York-Newark-Jersey City, NY-NJ-PA" "Mozilla/5.0".
Definition after_the_change : ActivityRecord :=
  mk_event 1541313000000 "26" "Ryan" "Smith" "M" "free" "NextSong"
           (Some "One More Time") (Some "Daft Punk") 583
           "New York-Newark-Jersey City, NY-NJ-PA" "Mozilla/5.0".
Definition autumn_night : list ActivityRecord :=
  [before_the_change; after_the_change].
Definition new_york : SparkSession :=
  mk_session (fun secs => if secs <? 1541311200 then -14400 else -18000)
             "s3a://udacity-dend/" catalog autumn_night
             (fun _ => 0%nat) (fun n => seq 0 n).
End Sample.

(** A fact row carries an event and a catalog record when it has the
    session id of the one and the song id and artist id of the other. *)
Definition carries (e : ActivityRecord) (c : CatalogRecord) (r : Row) : Prop :=
  field_of songplays_schema "session_id" r = VLong (sessionId e)
  /\ field_of songplays_schema "song_id" r = VStr (song_id c)
  /\ field_of songplays_schema "artist_id" r = VStr (artist_id c).

#[export] Instance carries_dec e c r : Decision (carries e c r).
Proof. unfold carries. apply _. Defined.

(** The event [e] with another song title. *)
Definition with_song (s : option string) (e : ActivityRecord)
    : ActivityRecord :=
  mk_event (ts e) (userId e) (firstName e) (lastName e) (gender e) (level e)
           (page e) s (artist e) (sessionId e) (location e) (userAgent e).

(** ** The calendar value of the whole second

    The value the specification gives to the [datetime] column:
    [epoch_to_local_calendar(floor(ts_ms / 1000))], the local wall-clock
    time of the whole second the event falls in. *)
Definition whole_second_datetime_of (spark : SparkSession)
    (e : ActivityRecord) : string :=
  from_option Py.str_datetime ""
    (Py.fromtimestamp (utcoffset spark) (inject_Z (ts e / 1000))).

(** ** Destinations

    The five paths [main] writes to. *)
Definition destinations : list string :=
  [ "./output_data/songs.parquet"; "./output_data/artists.parquet";
    "./output_data/users/users.parquet"; "./output_data/time/time.parquet";
    "./output_data/songplays/songplays.parquet" ].

(** The four destinations of the dimension tables. *)
Definition dimension_destinations : list string :=
  [ "./output_data/songs.parquet"; "./output_data/artists.parquet";
    "./output_data/users/users.parquet"; "./output_data/time/time.parquet" ].

(** The same job on the same input and in the same zone, on a cluster that
    splits the rows into partitions by [p] and emits the rows of a join in
    the order [o]. *)
Definition rerun (spark : SparkSession) (p : nat -> nat)
    (o : nat -> list nat) : SparkSession :=
  mk_session (utcoffset spark) (bucket spark) (song_json spark)
             (log_json spark) p o.

(** A fact row without its surrogate key, the last of its eleven columns. *)
Definition without_songplay_id (r : Row) : Row := take 10 r.

(** A world without files, and one where an earlier job left a data set
    with one row and another layout at the destination of the songs. *)
Definition empty_world : World := mk_world ∅ ∅.

Definition stale_world : World :=
  mk_world
    {[ "./output_data/songs.parquet" :=
         mk_parquet ["title"]
           (mk_frame [mk_field None "song_id" StringType;
                      mk_field None "title" StringType]
                     [[VStr "SOSTALE12AB0180000"; VStr "Old"]]) ]}
    ∅.

(** A song play whose artist is unknown. *)
Definition play_without_artist : ActivityRecord :=
  mk_event 1541990258796 "26" "Ryan" "Smith" "M" "free" "NextSong"
           (Some "Untitled") None 583
           "San Jose-Sunnyvale-Santa Clara, CA" "Mozilla/5.0".

(* ===================================================================== *)
(** * Frame operations on rows built from records

    Each operation of [DF], applied to a frame whose rows are [g <$> l] for
    a list of records [l], is a [map], a [filter] or a product on [l],
    provided the analysed expressions evaluate on every such row. *)
(* ===================================================================== *)

Section FrameOps.
Context {A : Type}.

Lemma eval_rows_imap (evs : list Eval) (g : A -> Row) (h : nat -> A -> Row) l :
  forall i,
  (forall k x, mapM (fun ev : Eval => ev k (g x)) evs = Some (h k x)) ->
  DF.eval_rows evs i (g <$> l) = Some (imap (fun k => h (i + k)%nat) l).
Proof.
  induction l as [|x l IH]; intros i H; [done|].
  cbn. rewrite H. cbn. rewrite (IH (S i) H). cbn.
  rewrite Nat.add_0_r. do 2 f_equal.
  apply imap_ext. intros k y _. cbn. f_equal. lia.
Qed.

Lemma eval_rows_fmap (evs : list Eval) (g h : A -> Row) l i :
  (forall k x, mapM (fun ev : Eval => ev k (g x)) evs = Some (h x)) ->
  DF.eval_rows evs i (g <$> l) = Some (h <$> l).
Proof.
  intros H. rewrite (eval_rows_imap evs g (fun _ => h)); [|done].
  f_equal. apply (imap_const h).
Qed.

Lemma select_fmap cs sch es (g h : A -> Row) l :
  mapM (analyze sch) cs = Some es ->
  (forall k x, mapM (fun ev : Eval => ev k (g x)) es.*2 = Some (h x)) ->
  DF.select cs (mk_frame sch (g <$> l)) = Some (mk_frame es.*1 (h <$> l)).
Proof.
  intros Hs Hr. unfold DF.select. cbn. rewrite Hs. cbn.
  by rewrite (eval_rows_fmap _ g h).
Qed.

Lemma keep_rows_fmap (ev : Row -> option value) (g : A -> Row)
    (P : A -> Prop) `{!forall x, Decision (P x)} l :
  (forall x, exists v, ev (g x) = Some v /\ (v = VBool true <-> P x)) ->
  DF.keep_rows ev (g <$> l) = Some (g <$> base.filter P l).
Proof.
  intros Hev. induction l as [|x l IH]; [done|].
  rewrite filter_cons, fmap_cons. cbn [DF.keep_rows].
  destruct (Hev x) as (v & -> & Hv). rewrite IH. cbn [mbind option_bind].
  destruct (decide (v = VBool true)) as [Ht|Hf].
  - rewrite decide_True by (by apply Hv). done.
  - rewrite decide_False by (by rewrite <- Hv). done.
Qed.

Lemma filter_fmap cond sch f ev (g : A -> Row)
    (P : A -> Prop) `{!forall x, Decision (P x)} l :
  analyze sch cond = Some (f, ev) ->
  dataType f = BooleanType ->
  (forall x, exists v, ev 0%nat (g x) = Some v /\ (v = VBool true <-> P x)) ->
  DF.filter cond (mk_frame sch (g <$> l))
  = Some (mk_frame sch (g <$> base.filter P l)).
Proof.
  intros Ha Ht Hr. unfold DF.filter. cbn. rewrite Ha. cbn.
  rewrite decide_True by done. by rewrite (keep_rows_fmap _ g P).
Qed.

Lemma extend_rows_imap_on n sch (ev : Eval) (g : A -> Row)
    (h : nat -> A -> Row) l :
  forall i,
  (forall k x, x ∈ l ->
     exists v, ev k (g x) = Some v /\ DF.put_cell n sch v (g x) = h k x) ->
  DF.extend_rows n sch ev i (g <$> l) = Some (imap (fun k => h (i + k)%nat) l).
Proof.
  induction l as [|x l IH]; intros i H; [done|].
  cbn. destruct (H i x) as (v & -> & Hv); [by left|]. cbn.
  rewrite (IH (S i)) by (intros k y Hy; apply H; by right). cbn.
  rewrite Hv, Nat.add_0_r. do 2 f_equal.
  apply imap_ext. intros k y _. cbn. f_equal. lia.
Qed.

Lemma extend_rows_imap n sch (ev : Eval) (g : A -> Row) (h : nat -> A -> Row) l :
  forall i,
  (forall k x, exists v, ev k (g x) = Some v /\ DF.put_cell n sch v (g x) = h k x) ->
  DF.extend_rows n sch ev i (g <$> l) = Some (imap (fun k => h (i + k)%nat) l).
Proof. intros i H. apply extend_rows_imap_on. intros k x _. apply H. Qed.

(** A row on which the expression raises makes the whole column fail. *)
Lemma extend_rows_raises n sch (ev : Eval) (g : A -> Row) l x :
  x ∈ l -> (forall k, ev k (g x) = None) ->
  forall i, DF.extend_rows n sch ev i (g <$> l) = None.
Proof.
  intros Hx Hev. induction l as [|y l IH]; intros i.
  - by apply elem_of_nil in Hx.
  - rewrite fmap_cons. cbn [DF.extend_rows].
    apply elem_of_cons in Hx as [->|Hx].
    + by rewrite Hev.
    + rewrite (IH Hx). by destruct (ev i (g y)).
Qed.

Lemma withColumn_imap n c sch f ev (g : A -> Row) (h : nat -> A -> Row) l :
  analyze sch c = Some (f, ev) ->
  (forall k x, exists v, ev k (g x) = Some v /\ DF.put_cell n sch v (g x) = h k x) ->
  DF.withColumn n c (mk_frame sch (g <$> l))
  = Some (mk_frame (DF.put_column n (mk_field None n (dataType f)) sch)
                   (imap h l)).
Proof.
  intros Ha Hr. unfold DF.withColumn. cbn. rewrite Ha. cbn.
  by rewrite (extend_rows_imap n sch ev g h).
Qed.

Lemma withColumn_fmap_on n c sch f ev (g h : A -> Row) l :
  analyze sch c = Some (f, ev) ->
  (forall k x, x ∈ l ->
     exists v, ev k (g x) = Some v /\ DF.put_cell n sch v (g x) = h x) ->
  DF.withColumn n c (mk_frame sch (g <$> l))
  = Some (mk_frame (DF.put_column n (mk_field None n (dataType f)) sch)
                   (h <$> l)).
Proof.
  intros Ha Hr. unfold DF.withColumn. cbn. rewrite Ha. cbn.
  rewrite (extend_rows_imap_on n sch ev g (fun _ => h)) by done. cbn.
  do 3 f_equal. apply (imap_const h).
Qed.

Lemma withColumn_raises n c sch f ev (g : A -> Row) l x :
  analyze sch c = Some (f, ev) ->
  x ∈ l -> (forall k, ev k (g x) = None) ->
  DF.withColumn n c (mk_frame sch (g <$> l)) = None.
Proof.
  intros Ha Hx Hev. unfold DF.withColumn. cbn. rewrite Ha. cbn.
  by rewrite (extend_rows_raises n sch ev g l x).
Qed.

Lemma withColumn_fmap n c sch f ev (g h : A -> Row) l :
  analyze sch c = Some (f, ev) ->
  (forall k x, exists v, ev k (g x) = Some v /\ DF.put_cell n sch v (g x) = h x) ->
  DF.withColumn n c (mk_frame sch (g <$> l))
  = Some (mk_frame (DF.put_column n (mk_field None n (dataType f)) sch)
                   (h <$> l)).
Proof.
  intros Ha Hr. rewrite (withColumn_imap n c sch f ev g (fun _ => h)); [|done..].
  do 2 f_equal. apply (imap_const h).
Qed.

End FrameOps.

Section Join.
Context {A B : Type}.

Lemma matches_fmap (ev : Row -> option value) (l : Row) (h : B -> Row)
    (P : B -> Prop) `{!forall y, Decision (P y)} rs :
  (forall y, exists v, ev (l ++ h y) = Some v /\ (v = VBool true <-> P y)) ->
  DF.matches ev l (h <$> rs) = Some ((fun y => l ++ h y) <$> base.filter P rs).
Proof.
  intros Hev. induction rs as [|y rs IH]; [done|].
  rewrite filter_cons, fmap_cons. cbn [DF.matches].
  destruct (Hev y) as (v & -> & Hv). rewrite IH. cbn [mbind option_bind].
  destruct (decide (v = VBool true)) as [Ht|Hf].
  - rewrite decide_True by (by apply Hv). done.
  - rewrite decide_False by (by rewrite <- Hv). done.
Qed.

Lemma inner_join_rows_fmap (ev : Row -> option value) w (g : A -> Row)
    (h : B -> Row) (P : A -> B -> Prop) `{!forall x y, Decision (P x y)} ls rs :
  (forall x y, exists v, ev (g x ++ h y) = Some v /\ (v = VBool true <-> P x y)) ->
  DF.join_rows DF.Inner ev w (g <$> ls) (h <$> rs)
  = Some ((fun p : A * B => g p.1 ++ h p.2)
            <$> (x ← ls; (fun y => (x, y)) <$> base.filter (P x) rs)).
Proof.
  intros Hev. induction ls as [|x ls IH]; [done|].
  cbn. rewrite (matches_fmap ev (g x) h (P x)) by done. cbn.
  rewrite IH. cbn. rewrite fmap_app. f_equal. f_equal.
  by rewrite <- list_fmap_compose.
Qed.

End Join.

Section Reorder.
Context {A : Type}.

Lemma arranges_Permutation n o : DF.arranges n o = true -> o ≡ₚ seq 0 n.
Proof.
  unfold DF.arranges. rewrite !andb_true_iff, !bool_decide_eq_true.
  intros [[Hnd Hlen] Hlt].
  apply submseteq_length_Permutation; [|by rewrite length_seq, Hlen].
  apply NoDup_submseteq; [done|]. intros i Hi.
  apply elem_of_seq. split; [lia|].
  rewrite forallb_forall in Hlt.
  apply list_elem_of_In, Hlt, bool_decide_eq_true in Hi. lia.
Qed.

Lemma omap_lookup_seq (k l : list A) :
  omap (fun i => (k ++ l) !! i) (seq (length k) (length l)) = l.
Proof.
  revert k. induction l as [|x l IH]; intros k; [done|].
  cbn [length seq omap list_omap]. rewrite list_lookup_middle by done.
  f_equal. specialize (IH (k ++ [x])).
  rewrite <- (assoc_L (++)), length_app in IH. cbn [length app] in IH.
  by rewrite Nat.add_1_r in IH.
Qed.

Lemma reorder_Permutation order (l : list A) : DF.reorder order l ≡ₚ l.
Proof.
  unfold DF.reorder. destruct (DF.arranges _ _) eqn:Ha; [|done].
  rewrite (arranges_Permutation _ _ Ha).
  pose proof (omap_lookup_seq [] l) as H. cbn [app length] in H.
  by rewrite H.
Qed.

Lemma elem_of_reorder order (l : list A) x : x ∈ DF.reorder order l <-> x ∈ l.
Proof. by rewrite reorder_Permutation. Qed.

Lemma length_reorder order (l : list A) :
  length (DF.reorder order l) = length l.
Proof. by rewrite reorder_Permutation. Qed.

Lemma reorder_fmap {B} order (f : A -> B) (l : list A) :
  DF.reorder order (f <$> l) = f <$> DF.reorder order l.
Proof.
  unfold DF.reorder. rewrite length_fmap.
  destruct (DF.arranges _ _); [|done].
  induction (order (length l)) as [|i o IH]; [done|].
  cbn [omap list_omap]. rewrite list_lookup_fmap, IH.
  by destruct (l !! i).
Qed.

End Reorder.

(* ===================================================================== *)
(** * The frames of the script, row by row *)
(* ===================================================================== *)


(** Analysis of the expressions of the script is a computation on the
    schema; evaluation on a row built from a record is a computation once
    the record is taken apart. *)
Ltac analysed :=
  cbv -[get_timestamp_lambda get_datetime_lambda on_timestamp on_date
        week_of_year day_of_week Py.dt_hour cell inferred row_id];
  reflexivity.
Ltac on_record := intros; repeat match goal with x : CatalogRecord |- _ => destruct x
                                         | x : ActivityRecord |- _ => destruct x
                                         | x : (_ * _)%type |- _ => destruct x end.

Ltac by_select out :=
  etrans;
  [ eapply select_fmap with (h := out); [analysed | on_record; reflexivity]
  | reflexivity ].

Lemma sql_eq_str a b : sql_eq (VStr a) (VStr b) = VBool true <-> a = b.
Proof.
  unfold sql_eq. split.
  - intros [= H%bool_decide_eq_true]. congruence.
  - intros ->. by rewrite bool_decide_eq_true_2.
Qed.

Lemma SongsDim_rows cs :
  SongsDim cs = Some (mk_frame songs_schema (songs_row <$> cs)).
Proof.
  unfold SongsDim, songs_table, song_frame.
  by_select songs_row.
Qed.

Lemma ArtistsDim_rows cs :
  ArtistsDim cs = Some (mk_frame (artists_schema cs) (artists_row <$> cs)).
Proof.
  unfold ArtistsDim, artists_table, song_frame.
  by_select artists_row.
Qed.

Lemma UsersDim_rows es :
  UsersDim es = Some (mk_frame users_schema (remove_dups (users_row <$> es))).
Proof.
  unfold UsersDim, users_table, log_frame.
  erewrite select_fmap with (h := users_row);
    [|analysed|on_record; reflexivity].
  reflexivity.
Qed.

Lemma actions_df_rows es :
  actions_df (log_frame es)
  = Some (mk_frame (take 8 actions_schema)
                   (events_row <$> base.filter is_song_play es)).
Proof.
  unfold actions_df, log_frame.
  erewrite filter_fmap with (P := is_song_play); [|analysed|reflexivity|].
  { cbn [mbind option_bind]. by_select events_row. }
  intros [? ? ? ? ? ? pg ? ? ? ? ?].
  exists (sql_eq (VStr pg) (VStr "NextSong")). split; [reflexivity|].
  apply sql_eq_str.
Qed.

Lemma option_bind_Some {A B} (f : A -> option B) (x : A) :
  Some x ≫= f = f x.
Proof. reflexivity. Qed.

Lemma get_datetime_lambda_long spark n :
  get_datetime_lambda spark (VLong n)
  = (dt ← Py.fromtimestamp (utcoffset spark) (Py.true_div n 1000);
     Some (VStr (Py.str_datetime dt))).
Proof.
  unfold get_datetime_lambda. change (py_int (VLong n)) with (Some n).
  by rewrite option_bind_Some.
Qed.

Lemma get_datetime_lambda_datable spark e :
  datable spark e ->
  get_datetime_lambda spark (VLong (ts e)) = Some (VStr (datetime_of spark e)).
Proof.
  intros [dt Hdt]. rewrite get_datetime_lambda_long. unfold datetime_of.
  by rewrite Hdt.
Qed.

Lemma get_datetime_lambda_raises spark e :
  ~ datable spark e -> get_datetime_lambda spark (VLong (ts e)) = None.
Proof.
  intros Hn. rewrite get_datetime_lambda_long.
  destruct (Py.fromtimestamp _ _) as [dt|] eqn:E; [|done].
  destruct Hn. by exists dt.
Qed.

Lemma actions_df_song_plays es :
  actions_df (log_frame es)
  = actions_df (log_frame (base.filter is_song_play es)).
Proof.
  rewrite !actions_df_rows. do 3 f_equal.
  symmetry. by apply list_filter_filter_l.
Qed.

(** The frame [actions_df] with its two derived columns exists when every
    song play is datable, and only then. *)
Lemma Actions_rows spark es :
  Forall (datable spark) (base.filter is_song_play es) ->
  Actions spark es
  = Some (mk_frame actions_schema
                   (actions_row spark <$> base.filter is_song_play es)).
Proof.
  intros Hd. unfold Actions. rewrite actions_df_rows. cbn [mbind option_bind].
  unfold actions_df_timed.
  erewrite withColumn_fmap
    with (h := fun e => events_row e ++ [VStr (timestamp_of e)]);
    [|analysed|].
  2:{ intros k [] . eexists. split; reflexivity. }
  cbn [mbind option_bind].
  erewrite withColumn_fmap_on with (h := actions_row spark); [|analysed|].
  2:{ intros k e He. exists (VStr (datetime_of spark e)). split.
      - transitivity (get_datetime_lambda spark (VLong (ts e)));
          [by destruct e|].
        apply get_datetime_lambda_datable.
        by apply (proj1 (Forall_forall _ _) Hd).
      - by destruct e. }
  reflexivity.
Qed.

Lemma Actions_raises spark es :
  ~ Forall (datable spark) (base.filter is_song_play es) ->
  Actions spark es = None.
Proof.
  intros Hn. apply not_Forall_Exists in Hn; [|apply _].
  apply Exists_exists in Hn as (e & He & Hne).
  unfold Actions. rewrite actions_df_rows. cbn [mbind option_bind].
  unfold actions_df_timed.
  erewrite withColumn_fmap
    with (h := fun e => events_row e ++ [VStr (timestamp_of e)]);
    [|analysed|].
  2:{ intros k [] . eexists. split; reflexivity. }
  cbn [mbind option_bind].
  eapply withColumn_raises with (x := e); [analysed|done|].
  intros k.
  transitivity (get_datetime_lambda spark (VLong (ts e))); [by destruct e|].
  by apply get_datetime_lambda_raises.
Qed.

Lemma Actions_song_plays spark es :
  Actions spark es = Actions spark (base.filter is_song_play es).
Proof. unfold Actions. by rewrite actions_df_song_plays. Qed.

Ltac step out :=
  erewrite withColumn_fmap with (h := out);
  [|analysed| intros ? ?; eexists; split; reflexivity];
  cbn [mbind option_bind].

Lemma time_table_rows {A} sch0 (g : A -> Row) (dt : A -> string) l :
  sch0 = actions_schema ->
  (forall x, cell 9 (g x) = VStr (dt x)) ->
  time_table (mk_frame sch0 (g <$> l))
  = Some (mk_frame time_schema (remove_dups (time_row <$> (dt <$> l)))).
Proof.
  intros -> Hdt. unfold time_table.
  erewrite select_fmap with (h := fun x => [VStr (dt x)]); [|analysed|].
  2:{ intros k x. change (Some [cell 9 (g x)] = Some [VStr (dt x)]).
      by rewrite Hdt. }
  cbn [mbind option_bind].
  step (fun x : A => take 2 (time_row (dt x))).
  step (fun x : A => take 3 (time_row (dt x))).
  step (fun x : A => take 4 (time_row (dt x))).
  step (fun x : A => take 5 (time_row (dt x))).
  step (fun x : A => take 6 (time_row (dt x))).
  step (fun x : A => take 7 (time_row (dt x))).
  step (fun x : A => time_row (dt x)).
  rewrite <- list_fmap_compose. reflexivity.
Qed.

Lemma TimeDim_rows spark es :
  Forall (datable spark) (base.filter is_song_play es) ->
  TimeDim spark es
  = Some (mk_frame time_schema
            (remove_dups (time_row <$> (datetime_of spark
                                          <$> base.filter is_song_play es)))).
Proof.
  intros Hd. unfold TimeDim. rewrite Actions_rows by done.
  cbn [mbind option_bind].
  apply time_table_rows; [done|]. by intros [].
Qed.

Lemma TimeDim_raises spark es :
  ~ Forall (datable spark) (base.filter is_song_play es) ->
  TimeDim spark es = None.
Proof. intros Hn. unfold TimeDim. by rewrite Actions_raises. Qed.

Lemma TimeDim_song_plays spark es :
  TimeDim spark es = TimeDim spark (base.filter is_song_play es).
Proof. unfold TimeDim. by rewrite Actions_song_plays. Qed.

Lemma inner_join_fmap {A B} order on schL schR f ev (g : A -> Row)
    (h : B -> Row)
    (P : A -> B -> Prop) `{!forall x y, Decision (P x y)} ls rs :
  analyze (schL ++ schR) on = Some (f, ev) ->
  dataType f = BooleanType ->
  (forall x y, exists v, ev 0%nat (g x ++ h y) = Some v /\ (v = VBool true <-> P x y)) ->
  DF.join order (mk_frame schR (h <$> rs)) on "inner"
          (mk_frame schL (g <$> ls))
  = Some (mk_frame (schL ++ schR)
            ((fun p : A * B => g p.1 ++ h p.2)
               <$> DF.reorder order
                     (x ← ls; (fun y => (x, y)) <$> base.filter (P x) rs))).
Proof.
  intros Ha Ht Hr. unfold DF.join.
  change (DF.join_type "inner") with (Some DF.Inner).
  cbn [mbind option_bind schema rows]. rewrite Ha. cbn [mbind option_bind].
  rewrite decide_True by done.
  rewrite (inner_join_rows_fmap _ _ g h P) by done.
  cbn [mbind option_bind]. by rewrite reorder_fmap.
Qed.

Lemma sql_eq_nullable_str (a : option string) b :
  sql_eq (nullable VStr a) (VStr b) = VBool true <-> a = Some b.
Proof.
  destruct a as [a|]; cbn [nullable from_option].
  - rewrite sql_eq_str. split; congruence.
  - split; discriminate.
Qed.

Lemma SongPlayFact_rows spark es cs :
  Forall (datable spark) (base.filter is_song_play es) ->
  SongPlayFact spark es cs
  = Some (mk_frame songplays_schema
                   (imap (songplays_row spark) (plays_of spark es cs))).
Proof.
  intros Hd. unfold SongPlayFact. rewrite Actions_rows by done.
  cbn [mbind option_bind].
  unfold joined_df, song_frame, DF.alias. cbn [schema rows].
  erewrite inner_join_fmap with (P := same_artist); [|analysed|reflexivity|].
  2:{ intros [] []. eexists. split; [reflexivity|]. apply sql_eq_nullable_str. }
  cbn [mbind option_bind]. unfold songplays_table.
  erewrite select_fmap
    with (h := fun p => take 10 (songplays_row spark 0 p));
    [|analysed|on_record; reflexivity].
  cbn [mbind option_bind].
  erewrite withColumn_imap with (h := songplays_row spark); [|analysed|].
  2:{ intros k [[] []]. eexists. split; reflexivity. }
  reflexivity.
Qed.

Lemma SongPlayFact_raises spark es cs :
  ~ Forall (datable spark) (base.filter is_song_play es) ->
  SongPlayFact spark es cs = None.
Proof. intros Hn. unfold SongPlayFact. by rewrite Actions_raises. Qed.

Lemma SongPlayFact_song_plays spark es cs :
  SongPlayFact spark es cs
  = SongPlayFact spark (base.filter is_song_play es) cs.
Proof. unfold SongPlayFact. by rewrite Actions_song_plays. Qed.

(* ===================================================================== *)
(** * The calendar *)
(* ===================================================================== *)

Lemma days_from_civil_from_days z :
  let '(y, m, d) := Py.civil_from_days z in Py.days_from_civil y m d = z.
Proof.
  unfold Py.civil_from_days, Py.days_from_civil.
  set (z' := z + 719468).
  set (era := z' / 146097).
  set (doe := z' - era * 146097).
  set (yoe := (doe - doe / 1460 + doe / 36524 - doe / 146096) / 365).
  set (doy := doe - (365 * yoe + yoe / 4 - yoe / 100)).
  set (mp := (5 * doy + 2) / 153).
  assert (Hdoe : 0 <= doe < 146097) by (subst doe era; Z.div_mod_to_equations; lia).
  assert (Hy : 0 <= yoe <= 399 /\ 0 <= doy <= 365)
    by (subst doy yoe; Z.div_mod_to_equations; lia).
  assert (Hmp : 0 <= mp <= 11) by (subst mp; Z.div_mod_to_equations; lia).
  destruct (mp <? 10) eqn:E1.
  - apply Z.ltb_lt in E1.
    replace (mp + 3 <=? 2) with false by (symmetry; apply Z.leb_gt; lia).
    replace (2 <? mp + 3) with true by (symmetry; apply Z.ltb_lt; lia).
    replace ((yoe + era * 400) / 400) with era by (Z.div_mod_to_equations; lia).
    replace (mp + 3 - 3) with mp by lia.
    replace (yoe + era * 400 - era * 400) with yoe by lia.
    subst doy doe z'. lia.
  - apply Z.ltb_ge in E1.
    replace (mp - 9 <=? 2) with true by (symmetry; apply Z.leb_le; lia).
    replace (2 <? mp - 9) with false by (symmetry; apply Z.ltb_ge; lia).
    replace (yoe + era * 400 + 1 - 1) with (yoe + era * 400) by lia.
    replace ((yoe + era * 400) / 400) with era by (Z.div_mod_to_equations; lia).
    replace (mp - 9 + 9) with mp by lia.
    replace (yoe + era * 400 - era * 400) with yoe by lia.
    subst doy doe z'. lia.
Qed.

Lemma is_leap_era y k : Py.is_leap (y + k * 400) = Py.is_leap y.
Proof.
  unfold Py.is_leap.
  replace ((y + k * 400) mod 4) with (y mod 4) by (Z.div_mod_to_equations; lia).
  replace ((y + k * 400) mod 100) with (y mod 100) by (Z.div_mod_to_equations; lia).
  replace ((y + k * 400) mod 400) with (y mod 400) by (Z.div_mod_to_equations; lia).
  reflexivity.
Qed.

Lemma civil_from_days_valid z :
  let '(y, m, d) := Py.civil_from_days z in
  1 <= m <= 12 /\ 1 <= d <= Py.days_in_month y m.
Proof.
  unfold Py.civil_from_days.
  set (z' := z + 719468).
  set (era := z' / 146097).
  set (doe := z' - era * 146097).
  set (yoe := (doe - doe / 1460 + doe / 36524 - doe / 146096) / 365).
  set (doy := doe - (365 * yoe + yoe / 4 - yoe / 100)).
  set (mp := (5 * doy + 2) / 153).
  assert (Hdoe : 0 <= doe < 146097) by (subst doe era; Z.div_mod_to_equations; lia).
  assert (Hy : 0 <= yoe <= 399 /\ 0 <= doy <= 365)
    by (subst doy yoe; Z.div_mod_to_equations; lia).
  assert (Hleap : doy <= 364 \/ Py.is_leap (yoe + 1) = true).
  { destruct (Py.is_leap (yoe + 1)) eqn:E; [by right|left].
    unfold Py.is_leap in E.
    apply andb_false_iff in E.
    rewrite orb_false_iff, negb_false_iff, !Z.eqb_neq, Z.eqb_eq in E.
    subst doy yoe. Z.div_mod_to_equations. lia. }
  assert (Hmp : 0 <= mp <= 11) by (subst mp; Z.div_mod_to_equations; lia).
  assert (Emp : mp = (5 * doy + 2) / 153) by reflexivity.
  assert (Hc : mp = 0 \/ mp = 1 \/ mp = 2 \/ mp = 3 \/ mp = 4 \/ mp = 5
               \/ mp = 6 \/ mp = 7 \/ mp = 8 \/ mp = 9 \/ mp = 10 \/ mp = 11)
    by lia.
  clearbody mp doy yoe era.
  replace (yoe + era * 400 + 1) with (yoe + 1 + era * 400) by lia.
  destruct Hc as [->|[->|[->|[->|[->|[->|[->|[->|[->|[->|[->| ->]]]]]]]]]]];
    unfold Py.days_in_month;
    repeat match goal with
      | |- context [?a =? ?b] => destruct (Z.eqb_spec a b); try lia
      | |- context [?a <=? ?b] => destruct (Z.leb_spec a b); try lia
      | |- context [?a <? ?b] => destruct (Z.ltb_spec a b); try lia
      end;
    cbn [orb]; rewrite ?is_leap_era;
    try (destruct Hleap as [?|Hl]; [destruct (Py.is_leap _)|rewrite Hl]);
    Z.div_mod_to_equations; lia.
Qed.

Lemma civil_from_days_year z :
  -719468 <= z < 2786860 ->
  0 <= (Py.civil_from_days z).1.1 <= 9999.
Proof.
  intros Hz. unfold Py.civil_from_days.
  set (z' := z + 719468).
  set (era := z' / 146097).
  set (doe := z' - era * 146097).
  set (yoe := (doe - doe / 1460 + doe / 36524 - doe / 146096) / 365).
  assert (Hera : 0 <= era <= 23) by (subst era z'; Z.div_mod_to_equations; lia).
  assert (Hdoe : 0 <= doe < 146097) by (subst doe era; Z.div_mod_to_equations; lia).
  assert (Hy : 0 <= yoe <= 399) by (subst yoe; Z.div_mod_to_equations; lia).
  cbn [fst]. destruct (_ <=? 2); lia.
Qed.

Lemma civil_from_days_inj z1 z2 :
  Py.civil_from_days z1 = Py.civil_from_days z2 -> z1 = z2.
Proof.
  intros H.
  pose proof (days_from_civil_from_days z1) as H1.
  pose proof (days_from_civil_from_days z2) as H2.
  rewrite H in H1. destruct (Py.civil_from_days z2) as [[y m] d]. congruence.
Qed.

(* ===================================================================== *)
(** * Printing a datetime and reading it back *)
(* ===================================================================== *)

Lemma digit_val_digit n : digit_val (Py.digit n) = Some (n mod 10).
Proof.
  unfold Py.digit.
  assert (H : 0 <= n mod 10 < 10) by (apply Z.mod_pos_bound; lia).
  assert (Hc : n mod 10 = 0 \/ n mod 10 = 1 \/ n mod 10 = 2 \/ n mod 10 = 3
               \/ n mod 10 = 4 \/ n mod 10 = 5 \/ n mod 10 = 6
               \/ n mod 10 = 7 \/ n mod 10 = 8 \/ n mod 10 = 9) by lia.
  destruct Hc as [-> | [-> | [-> | [-> | [-> | [-> | [-> | [-> | [-> | ->]]]]]]]]];
    reflexivity.
Qed.

Lemma digit_not_sep n c :
  c = "-"%char \/ c = " "%char \/ c = ":"%char \/ c = "."%char \/ c = "T"%char ->
  Py.digit n <> c.
Proof.
  intros Hc Hd.
  assert (Hv : digit_val c = Some (n mod 10)) by (rewrite <- Hd; apply digit_val_digit).
  destruct Hc as [-> | [-> | [-> | [-> | ->]]]]; discriminate Hv.
Qed.

Lemma number_2 n : 0 <= n < 100 ->
  number [Py.digit (n / 10); Py.digit n] = Some n.
Proof.
  intros H. unfold number. cbn [digits_val].
  rewrite !digit_val_digit. cbn [mbind option_bind].
  f_equal. Z.div_mod_to_equations. lia.
Qed.

Lemma number_4 n : 0 <= n < 10000 ->
  number [Py.digit (n / 10 / 10 / 10); Py.digit (n / 10 / 10);
          Py.digit (n / 10); Py.digit n] = Some n.
Proof.
  intros H. unfold number. cbn [digits_val].
  rewrite !digit_val_digit. cbn [mbind option_bind].
  f_equal. Z.div_mod_to_equations. lia.
Qed.

Lemma number_6 n : 0 <= n < 1000000 ->
  number [Py.digit (n / 10 / 10 / 10 / 10 / 10); Py.digit (n / 10 / 10 / 10 / 10);
          Py.digit (n / 10 / 10 / 10); Py.digit (n / 10 / 10);
          Py.digit (n / 10); Py.digit n] = Some n.
Proof.
  intros H. unfold number. cbn [digits_val].
  rewrite !digit_val_digit. cbn [mbind option_bind].
  f_equal. Z.div_mod_to_equations. lia.
Qed.


Lemma valid_date_bounds y m d :
  valid_date y m d = true -> 1 <= m <= 12 /\ 1 <= d <= 31.
Proof.
  unfold valid_date, Py.days_in_month.
  rewrite !andb_true_iff, !Z.leb_le. intros [[[? ?] ?] Hd].
  repeat match type of Hd with
         | context [if ?b then _ else _] => destruct b
         end; lia.
Qed.

Lemma valid_time_bounds h mi s :
  valid_time h mi s = true -> h < 24 /\ mi < 60 /\ s < 60.
Proof.
  unfold valid_time. rewrite !andb_true_iff, !Z.ltb_lt. tauto.
Qed.

Ltac read_str :=
  unfold Py.str_datetime;
  cbn [Py.zero_padded Py.dt_year Py.dt_month Py.dt_day Py.dt_hour
       Py.dt_minute Py.dt_second Py.dt_microsecond
       String.list_ascii_of_string].

Lemma string_to_date_str dt :
  printable dt ->
  string_to_date (Py.str_datetime dt)
  = Some (Py.dt_year dt, Py.dt_month dt, Py.dt_day dt).
Proof.
  destruct dt as [y m d h mi s us].
  intros (Hy & Hd & _). cbn in Hy, Hd.
  destruct (valid_date_bounds _ _ _ Hd) as [Hm Hdd].
  unfold string_to_date. read_str.
  rewrite number_4, !number_2 by lia. cbn [mbind option_bind].
  rewrite Hd. reflexivity.
Qed.

Lemma string_to_timestamp_str dt :
  printable dt -> string_to_timestamp (Py.str_datetime dt) = Some dt.
Proof.
  destruct dt as [y m d h mi s us].
  intros (Hy & Hd & Hh & Hmi & Hs & Ht & Hus). cbn in Hy, Hd, Hh, Hmi, Hs, Ht, Hus.
  destruct (valid_date_bounds _ _ _ Hd) as [Hm Hdd].
  destruct (valid_time_bounds _ _ _ Ht) as (? & ? & ?).
  unfold string_to_timestamp. read_str.
  rewrite number_4, !number_2 by lia. cbn [mbind option_bind].
  destruct (us =? 0) eqn:E.
  - apply Z.eqb_eq in E. subst us.
    cbn [String.list_ascii_of_string fraction_micros mbind option_bind].
    rewrite Hd, Ht. reflexivity.
  - apply Z.eqb_neq in E.
    cbn [Py.zero_padded String.list_ascii_of_string].
    unfold fraction_micros.
    change (bool_decide ("."%char = "."%char)) with true.
    cbn [length andb Nat.leb].
    rewrite number_6 by lia. cbn [mbind option_bind].
    rewrite Hd, Ht. cbn [andb bool_decide]. 
    replace (us * 10 ^ Z.of_nat (6 - 6)) with us by (cbn; lia).
    reflexivity.
Qed.

Lemma round_half_even_bound n (d : positive) :
  2 * Z.abs (Py.round_half_even (n # d) * Zpos d - n) <= Zpos d.
Proof.
  unfold Py.round_half_even. cbn [Qnum Qden].
  pose proof (Z.div_mod n (Zpos d) ltac:(lia)) as Hn.
  pose proof (Z.mod_pos_bound n (Zpos d) ltac:(lia)) as Hr.
  set (q := n / Zpos d) in *. set (r := n mod Zpos d) in *.
  clearbody q r.
  destruct (Z.ltb_spec (2 * r) (Zpos d)); [lia|].
  destruct (Z.ltb_spec (Zpos d) (2 * r)); [lia|].
  destruct (Z.even q); lia.
Qed.

Lemma round_half_even_unique n (d : positive) z :
  2 * Z.abs (n - z * Zpos d) < Zpos d -> Py.round_half_even (n # d) = z.
Proof.
  intros Hz. unfold Py.round_half_even. cbn [Qnum Qden].
  pose proof (Z.div_mod n (Zpos d) ltac:(lia)) as Hn.
  pose proof (Z.mod_pos_bound n (Zpos d) ltac:(lia)) as Hr.
  set (q := n / Zpos d) in *. set (r := n mod Zpos d) in *.
  clearbody q r.
  assert (Hq : z = q \/ z = q + 1) by nia.
  destruct (Z.ltb_spec (2 * r) (Zpos d)); [nia|].
  destruct (Z.ltb_spec (Zpos d) (2 * r)); [nia|]. nia.
Qed.

Lemma floor_log2_lt n d k :
  0 < n -> 0 < d -> 0 <= k -> n < d * 2 ^ k -> Py.floor_log2 n d < k.
Proof.
  intros Hn Hd Hk Hlt. unfold Py.floor_log2.
  set (e := Z.log2 n - Z.log2 d).
  assert (He : e <= k).
  { subst e. pose proof (Z.log2_le_mono n (d * 2 ^ k) ltac:(lia)) as Hl.
    rewrite Z.log2_mul_pow2 in Hl by lia. lia. }
  destruct (Z.leb_spec (d * 2 ^ Z.max 0 e) (n * 2 ^ Z.max 0 (- e))) as [Hc|Hc];
    [|lia].
  destruct (Z.eq_dec e k) as [->|Hne]; [|lia].
  rewrite Z.max_r, Z.max_l in Hc by lia. change (2 ^ 0) with 1 in Hc. lia.
Qed.

(** The float nearest to a positive rational below [2^k]: a multiple of
    [2^-s] with [s >= 53 - k], at most half of [2^-s] away. *)
Lemma binary64_pos n (d : positive) k :
  0 < n -> 0 <= k <= 52 -> n < Zpos d * 2 ^ k ->
  exists s m,
    53 - k <= s
    /\ Py.binary64 (n # d) = (m # Z.to_pos (2 ^ s))
    /\ 2 * Z.abs (m * Zpos d - n * 2 ^ s) <= Zpos d.
Proof.
  intros Hn Hk Hlt. unfold Py.binary64. cbn [Qnum Qden].
  rewrite Z.abs_eq by lia.
  destruct (Z.eqb_spec n 0) as [?|_]; [lia|].
  pose proof (floor_log2_lt n (Zpos d) k Hn ltac:(lia) ltac:(lia) Hlt) as He.
  set (e := Py.floor_log2 n (Zpos d)) in *. clearbody e.
  rewrite (Z.max_r 0 (52 - e)), (Z.max_l 0 (e - 52)) by lia.
  change (2 ^ 0) with 1. rewrite !Z.mul_1_r, Pos2Z.id.
  exists (52 - e), (Py.round_half_even (n * 2 ^ (52 - e) # d)).
  split; [lia|]. split.
  - rewrite Z.sgn_pos by lia. by rewrite Z.mul_1_l.
  - apply round_half_even_bound.
Qed.

Lemma true_div_millis x :
  0 < x < 4294967296000 ->
  exists s m,
    21 <= s /\ Py.true_div x 1000 = (m # Z.to_pos (2 ^ s))
    /\ 2 * Z.abs (m * 1000 - x * 2 ^ s) <= 1000.
Proof.
  intros Hx. unfold Py.true_div.
  change (inject_Z x / inject_Z 1000)%Q with (x * 1 # 1000).
  rewrite Z.mul_1_r.
  destruct (binary64_pos x 1000 32) as (s & m & Hs & Hb & Hm);
    [lia|lia|change (2 ^ 32) with 4294967296; lia|].
  exists s, m. split; [lia|]. split; [exact Hb|exact Hm].
Qed.

Lemma millis_quotient x s m :
  0 <= x -> 21 <= s -> 2 * Z.abs (m * 1000 - x * 2 ^ s) <= 1000 ->
  let P := 2 ^ s in
  2097152 <= P
  /\ x / 1000 * P <= m < (x / 1000 + 1) * P
  /\ -500 <= 1000 * (m - x / 1000 * P) - x mod 1000 * P <= 500.
Proof.
  intros Hx Hs Hm P. subst P.
  assert (HP : 2097152 <= 2 ^ s).
  { change 2097152 with (2 ^ 21). apply Z.pow_le_mono_r; lia. }
  set (P := 2 ^ s) in *. clearbody P.
  pose proof (Z.div_mod x 1000 ltac:(lia)) as Hdm.
  pose proof (Z.mod_pos_bound x 1000 ltac:(lia)) as Hr.
  set (k := x / 1000) in *. set (r := x mod 1000) in *. clearbody k r.
  assert (Hrp : 0 <= r * P <= 999 * P) by nia.
  assert (Hxp : x * P = 1000 * (k * P) + r * P) by (subst x; ring).
  assert (Hone : r = 0 \/ P <= r * P) by nia.
  split; [exact HP|]. split; lia.
Qed.

(** Inside the window the rounding of the quotient does not show: [int] of
    the quotient is the whole second, and [fromtimestamp] reads the wall
    clock of the whole second with the milliseconds as its fraction. *)
Lemma int_of_float_millis x :
  0 <= x < 4294967296000 ->
  Py.int_of_float (Py.true_div x 1000) = x / 1000.
Proof.
  intros Hx. destruct (Z.eq_dec x 0) as [->|Hne]; [reflexivity|].
  destruct (true_div_millis x) as (s & m & Hs & -> & Hm); [lia|].
  destruct (millis_quotient x s m) as (HP & Hk & _); [lia|lia|exact Hm|].
  unfold Py.int_of_float. cbn [Qnum Qden]. rewrite Z2Pos.id by lia.
  set (P := 2 ^ s) in *. clearbody P.
  rewrite Z.quot_div_nonneg by nia.
  symmetry. apply (Z.div_unique m P (x / 1000) (m - x / 1000 * P)); lia.
Qed.

Lemma to_timeval_millis x :
  0 <= x < 4294967296000 ->
  Py.to_timeval (Py.true_div x 1000) = (x / 1000, x mod 1000 * 1000).
Proof.
  intros Hx. destruct (Z.eq_dec x 0) as [->|Hne]; [reflexivity|].
  destruct (true_div_millis x) as (s & m & Hs & -> & Hm); [lia|].
  destruct (millis_quotient x s m) as (HP & Hk & Hf); [lia|lia|exact Hm|].
  pose proof (Z.mod_pos_bound x 1000 ltac:(lia)) as Hr.
  pose proof (Z.div_pos x 1000 ltac:(lia) ltac:(lia)) as Hk0.
  unfold Py.to_timeval. cbn [Qnum Qden]. rewrite Z2Pos.id by lia.
  set (P := 2 ^ s) in *. clearbody P.
  set (k := x / 1000) in *. set (r := x mod 1000) in *. clearbody k r.
  assert (Hq : m / P = k)
    by (symmetry; apply (Z.div_unique m P k (m - k * P)); lia).
  assert (Hmod : m mod P = m - k * P)
    by (symmetry; apply (Z.mod_unique m P k (m - k * P)); lia).
  rewrite Z.quot_div_nonneg, Z.rem_mod_nonneg, Hq, Hmod by nia.
  set (f := m - k * P) in *.
  assert (Hus : Py.round_half_even
                  (Py.binary64 ((f # Z.to_pos P) * inject_Z 1000000))
                = r * 1000).
  { unfold Qmult, inject_Z. cbn [Qnum Qden]. rewrite Pos.mul_1_r.
    destruct (Z.eq_dec f 0) as [Hz|Hnz].
    - rewrite Hz. assert (r = 0) as -> by nia. reflexivity.
    - destruct (binary64_pos (f * 1000000) (Z.to_pos P) 20)
        as (s' & m' & Hs' & -> & Hm'); [lia|lia| |].
      { rewrite Z2Pos.id by lia. change (2 ^ 20) with 1048576. nia. }
      rewrite Z2Pos.id in Hm' by lia.
      assert (HP' : 8589934592 <= 2 ^ s').
      { change 8589934592 with (2 ^ 33). apply Z.pow_le_mono_r; lia. }
      set (P' := 2 ^ s') in *. clearbody P'.
      apply round_half_even_unique. rewrite Z2Pos.id by lia.
      set (a := 1000 * f - r * P) in *.
      set (b := m' * P - f * 1000000 * P') in *.
      set (c := m' - r * 1000 * P').
      assert (Hc : P * c = b + 1000 * P' * a) by (subst a b c; ring).
      assert (Hb : - P <= 2 * b <= P) by lia.
      assert (Hlo : P' * -500 <= P' * a)
        by (apply Z.mul_le_mono_nonneg_l; lia).
      assert (Hhi : P' * a <= P' * 500)
        by (apply Z.mul_le_mono_nonneg_l; lia).
      pose proof (Z.mul_nonneg_nonneg (P - 1000001) (P' - 2)
                    ltac:(lia) ltac:(lia)) as Hbig.
      assert (Hpc : P * - P' < P * (2 * c) < P * P') by lia.
      destruct Hpc as [Hc1 Hc2].
      apply Z.mul_lt_mono_pos_l in Hc1, Hc2; lia. }
  rewrite Hus.
  destruct (Z.leb_spec 1000000 (r * 1000)); [lia|].
  destruct (Z.ltb_spec (r * 1000) 0); [lia|]. reflexivity.
Qed.

Lemma fromtimestamp_millis zone x :
  0 <= x < 4294967296000 ->
  Py.fromtimestamp zone (Py.true_div x 1000)
  = let dt := wall_clock (zone (x / 1000)) (x / 1000) (x mod 1000 * 1000) in
    if (1 <=? Py.dt_year dt) && (Py.dt_year dt <=? 9999) then Some dt
    else None.
Proof.
  intros Hx. unfold Py.fromtimestamp, wall_clock.
  rewrite to_timeval_millis by done.
  by destruct (Py.civil_from_days _) as [[y m] d].
Qed.

(** Outside the window it does: the float nearest to 12621641590.315 is
    above it by more than half a microsecond. *)
Lemma fromtimestamp_rounded_quotient :
  Py.fromtimestamp (fun _ => 0) (Py.true_div 12621641590315 1000)
  = Some (Py.mk_datetime 2369 12 18 19 33 10 315001).
Proof. by vm_compute. Qed.

(* ===================================================================== *)
(** * Timestamps of events *)
(* ===================================================================== *)

Lemma civil_from_days_year_window z :
  -2 <= z <= 49712 -> 1969 <= (Py.civil_from_days z).1.1 <= 2106.
Proof.
  intros Hz. unfold Py.civil_from_days.
  set (z' := z + 719468).
  set (era := z' / 146097).
  set (doe := z' - era * 146097).
  set (yoe := (doe - doe / 1460 + doe / 36524 - doe / 146096) / 365).
  assert (Hera : (era = 4 /\ 135078 <= doe <= 146096)
                 \/ (era = 5 /\ 0 <= doe <= 38695))
    by (subst doe era z'; Z.div_mod_to_equations; lia).
  assert (Hy : (era = 4 /\ 369 <= yoe <= 399) \/ (era = 5 /\ 0 <= yoe <= 105)).
  { clearbody doe era. clear z'.
    destruct Hera as [[-> Hdoe]|[-> Hdoe]]; [left|right];
      (split; [done|]); subst yoe; Z.div_mod_to_equations; lia. }
  cbn [fst]. destruct (_ <=? 2); lia.
Qed.

Lemma wall_clock_printable tz secs us :
  -719468 * 86400 <= secs + tz < 2786860 * 86400 ->
  0 <= us < 1000000 ->
  printable (wall_clock tz secs us).
Proof.
  intros Hs Hus. unfold wall_clock, printable.
  set (local := secs + tz).
  assert (Hd : -719468 <= local / 86400 < 2786860)
    by (subst local; Z.div_mod_to_equations; lia).
  pose proof (civil_from_days_year _ Hd) as Hy.
  pose proof (civil_from_days_valid (local / 86400)) as Hv.
  destruct (Py.civil_from_days (local / 86400)) as [[y m] d].
  cbn [fst] in Hy.
  cbn [Py.dt_year Py.dt_month Py.dt_day Py.dt_hour Py.dt_minute Py.dt_second
       Py.dt_microsecond].
  assert (Hsod : 0 <= local mod 86400 < 86400) by (apply Z.mod_pos_bound; lia).
  repeat split; try lia; try (Z.div_mod_to_equations; lia).
  - unfold valid_date. rewrite !andb_true_iff, !Z.leb_le. lia.
  - unfold valid_time. rewrite !andb_true_iff, !Z.ltb_lt.
    Z.div_mod_to_equations. lia.
Qed.

(** Two readings of the wall clock agree only for the same local time: the
    same instant when the offsets are the same. *)
Lemma wall_clock_inj_local tz1 s1 u1 tz2 s2 u2 :
  wall_clock tz1 s1 u1 = wall_clock tz2 s2 u2 ->
  s1 + tz1 = s2 + tz2 /\ u1 = u2.
Proof.
  unfold wall_clock.
  destruct (Py.civil_from_days ((s1 + tz1) / 86400)) as [[y1 m1] d1] eqn:E1.
  destruct (Py.civil_from_days ((s2 + tz2) / 86400)) as [[y2 m2] d2] eqn:E2.
  intros [= -> -> -> Hh Hm Hs ->]. split; [|done].
  assert (Hd : (s1 + tz1) / 86400 = (s2 + tz2) / 86400)
    by (apply civil_from_days_inj; congruence).
  clear E1 E2. Z.div_mod_to_equations. lia.
Qed.

Lemma wall_clock_local tz1 s1 tz2 s2 us :
  s1 + tz1 = s2 + tz2 -> wall_clock tz1 s1 us = wall_clock tz2 s2 us.
Proof. unfold wall_clock. by intros ->. Qed.

Lemma wall_clock_inj tz s1 u1 s2 u2 :
  wall_clock tz s1 u1 = wall_clock tz s2 u2 -> s1 = s2 /\ u1 = u2.
Proof.
  intros [Hs Hu]%wall_clock_inj_local. split; [lia|done].
Qed.

Lemma in_window_year spark e :
  in_window spark e -> 1969 <= Py.dt_year (event_clock spark e) <= 2106.
Proof.
  intros [Hts Htz]. unfold event_clock, wall_clock.
  set (days := (ts e / 1000 + utcoffset spark (ts e / 1000)) / 86400).
  assert (Hd : -2 <= days <= 49712)
    by (subst days; Z.div_mod_to_equations; lia).
  pose proof (civil_from_days_year_window _ Hd) as Hy.
  by destruct (Py.civil_from_days days) as [[y m] d].
Qed.

Lemma in_window_fromtimestamp spark e :
  in_window spark e ->
  Py.fromtimestamp (utcoffset spark) (Py.true_div (ts e) 1000)
  = Some (event_clock spark e).
Proof.
  intros Hw. pose proof (in_window_year _ _ Hw) as Hy.
  rewrite fromtimestamp_millis by apply Hw. cbv zeta. fold (event_clock spark e).
  destruct (Z.leb_spec 1 (Py.dt_year (event_clock spark e))); [|lia].
  destruct (Z.leb_spec (Py.dt_year (event_clock spark e)) 9999); [done|lia].
Qed.

Lemma in_window_datable spark e : in_window spark e -> datable spark e.
Proof.
  intros Hw. unfold datable. rewrite in_window_fromtimestamp by done.
  by eexists.
Qed.

Lemma window_datable spark es :
  window spark es -> Forall (datable spark) (base.filter is_song_play es).
Proof.
  intros Hw. apply Forall_forall. intros e [Hp He]%list_elem_of_filter.
  by apply in_window_datable, Hw.
Qed.

Lemma datetime_of_wall_clock spark e :
  in_window spark e ->
  datetime_of spark e = Py.str_datetime (event_clock spark e).
Proof.
  intros Hw. unfold datetime_of. by rewrite in_window_fromtimestamp.
Qed.

Lemma in_window_printable spark e :
  in_window spark e -> printable (event_clock spark e).
Proof.
  intros [Hts Htz]. apply wall_clock_printable; Z.div_mod_to_equations; lia.
Qed.

(** Events of the window with the same [datetime] string have the same
    local time; they are the same instant when their offsets agree. *)
Lemma datetime_of_local spark e1 e2 :
  in_window spark e1 -> in_window spark e2 ->
  datetime_of spark e1 = datetime_of spark e2 <->
  ts e1 + 1000 * utcoffset spark (ts e1 / 1000)
  = ts e2 + 1000 * utcoffset spark (ts e2 / 1000).
Proof.
  intros H1 H2. rewrite !datetime_of_wall_clock by done. split.
  - intros Heq. apply (f_equal string_to_timestamp) in Heq.
    rewrite !string_to_timestamp_str in Heq by by apply in_window_printable.
    apply (inj Some) in Heq. unfold event_clock in Heq.
    apply wall_clock_inj_local in Heq as [Hs Hu].
    Z.div_mod_to_equations. lia.
  - intros Heq. f_equal. unfold event_clock.
    replace (ts e2 mod 1000 * 1000) with (ts e1 mod 1000 * 1000)
      by (Z.div_mod_to_equations; lia).
    apply wall_clock_local. Z.div_mod_to_equations. lia.
Qed.

Lemma datetime_of_inj spark e1 e2 :
  in_window spark e1 -> in_window spark e2 ->
  utcoffset spark (ts e1 / 1000) = utcoffset spark (ts e2 / 1000) ->
  datetime_of spark e1 = datetime_of spark e2 -> ts e1 = ts e2.
Proof.
  intros H1 H2 Htz Heq. apply datetime_of_local in Heq; [|done..]. lia.
Qed.

(* ===================================================================== *)
(** * Runs of the job *)
(* ===================================================================== *)

Lemma bind_lift_Some {A B} (o : option A) (x : A) (f : A -> M B) w :
  o = Some x -> (lift o ≫= f) w = f x w.
Proof. by intros ->. Qed.

Lemma bind_lift_None {A B} (o : option A) (f : A -> M B) w :
  o = None -> (lift o ≫= f) w = (None, w).
Proof. by intros ->. Qed.

Lemma bind_overwrite {B} pb path df (f : () -> M B) w :
  writable pb df = true ->
  (write_parquet pb path "overwrite" df ≫= f) w
  = f () (mk_world (<[path := mk_parquet pb df]> (files w)) (views w)).
Proof.
  intros Hw. unfold mbind, M_bind, write_parquet.
  change (save_mode "overwrite") with (Some Overwrite). by rewrite Hw.
Qed.

Lemma bind_view {B} n df (f : () -> M B) w :
  (createOrReplaceTempView n df ≫= f) w
  = f () (mk_world (files w) (<[n := df]> (views w))).
Proof. reflexivity. Qed.


Lemma read_json_songs spark :
  bucket spark = input_data -> song_json spark <> [] ->
  read_json spark "s3a://udacity-dend/song_data/*/*/*/*.json"
  = Some (song_frame (song_json spark)).
Proof.
  intros Hb Hs. unfold read_json. rewrite Hb.
  change (Py.os_path_join input_data "song_data/*/*/*/*.json")
    with "s3a://udacity-dend/song_data/*/*/*/*.json".
  rewrite decide_True by done. by destruct (song_json spark).
Qed.

Lemma read_json_logs spark :
  bucket spark = input_data -> log_json spark <> [] ->
  read_json spark "s3a://udacity-dend/log_data/*.json"
  = Some (log_frame (log_json spark)).
Proof.
  intros Hb Hs. unfold read_json. rewrite Hb.
  change (Py.os_path_join input_data "song_data/*/*/*/*.json")
    with "s3a://udacity-dend/song_data/*/*/*/*.json".
  change (Py.os_path_join input_data "log_data/*.json")
    with "s3a://udacity-dend/log_data/*.json".
  rewrite decide_False by discriminate.
  rewrite decide_True by done. by destruct (log_json spark).
Qed.


Lemma process_song_data_run spark w :
  bucket spark = input_data -> song_json spark <> [] ->
  process_song_data spark "s3a://udacity-dend/" "./output_data/" w
  = (Some (),
     mk_world
       (<["./output_data/artists.parquet" :=
            mk_parquet [] (mk_frame (artists_schema (song_json spark))
                                    (artists_row <$> song_json spark))]>
        (<["./output_data/songs.parquet" :=
            mk_parquet ["year"; "artist_id"]
              (mk_frame songs_schema (songs_row <$> song_json spark))]>
           (files w)))
       (views w)).
Proof.
  intros Hb Hs. unfold process_song_data.
  change (Py.os_path_join "s3a://udacity-dend/" "song_data/*/*/*/*.json")
    with "s3a://udacity-dend/song_data/*/*/*/*.json".
  erewrite bind_lift_Some by by apply read_json_songs.
  erewrite bind_lift_Some by apply SongsDim_rows.
  rewrite bind_overwrite by reflexivity.
  erewrite bind_lift_Some by apply ArtistsDim_rows.
  unfold write_parquet.
  change (save_mode "overwrite") with (Some Overwrite).
  reflexivity.
Qed.

Lemma process_log_data_run spark w :
  bucket spark = input_data -> song_json spark <> [] -> log_json spark <> [] ->
  Forall (datable spark) (base.filter is_song_play (log_json spark)) ->
  let cs := song_json spark in
  let es := log_json spark in
  let users := mk_frame users_schema (remove_dups (users_row <$> es)) in
  let time :=
    mk_frame time_schema
      (remove_dups (time_row <$> (datetime_of spark
                                    <$> base.filter is_song_play es))) in
  let plays := mk_frame songplays_schema
                        (imap (songplays_row spark) (plays_of spark es cs)) in
  process_log_data spark "s3a://udacity-dend/" "./output_data/" w
  = (Some (),
     mk_world
       (<["./output_data/songplays/songplays.parquet" :=
            mk_parquet ["year"; "month"] plays]>
        (<["./output_data/time/time.parquet" :=
            mk_parquet ["year"; "month"] time]>
         (<["./output_data/users/users.parquet" := mk_parquet [] users]>
            (files w))))
       (<["songplays" := plays]> (<["users" := users]> (views w)))).
Proof.
  intros Hb Hs Hl Hd cs es users time plays. unfold process_log_data.
  change (Py.os_path_join "s3a://udacity-dend/" "song_data/*/*/*/*.json")
    with "s3a://udacity-dend/song_data/*/*/*/*.json".
  change (Py.os_path_join "s3a://udacity-dend/" "log_data/*.json")
    with "s3a://udacity-dend/log_data/*.json".
  erewrite bind_lift_Some by by apply read_json_logs.
  erewrite bind_lift_Some by apply actions_df_rows.
  erewrite bind_lift_Some by apply UsersDim_rows.
  rewrite bind_view, bind_overwrite by reflexivity.
  pose proof (Actions_rows spark (log_json spark) Hd) as Ha.
  unfold Actions in Ha. rewrite actions_df_rows in Ha.
  cbn [mbind option_bind] in Ha.
  erewrite bind_lift_Some by exact Ha.
  pose proof (TimeDim_rows spark (log_json spark) Hd) as Ht.
  unfold TimeDim in Ht. rewrite Actions_rows in Ht by done.
  cbn [mbind option_bind] in Ht.
  erewrite bind_lift_Some by exact Ht.
  rewrite bind_overwrite by reflexivity.
  erewrite bind_lift_Some by by apply read_json_songs.
  pose proof (SongPlayFact_rows spark (log_json spark) (song_json spark) Hd)
    as Hp.
  unfold SongPlayFact in Hp. rewrite Actions_rows in Hp by done.
  cbn [mbind option_bind] in Hp.
  destruct (joined_df _ _) as [j|] eqn:Ej; [|discriminate Hp].
  cbn [mbind option_bind] in Hp.
  erewrite bind_lift_Some by reflexivity.
  erewrite bind_lift_Some by exact Hp.
  rewrite bind_view.
  unfold write_parquet. change (save_mode "overwrite") with (Some Overwrite).
  reflexivity.
Qed.

Lemma main_run spark w :
  bucket spark = input_data -> song_json spark <> [] -> log_json spark <> [] ->
  Forall (datable spark) (base.filter is_song_play (log_json spark)) ->
  main spark w
  = (Some (),
     mk_world (written spark (files w))
       (<["songplays" :=
            mk_frame songplays_schema
              (imap (songplays_row spark)
                    (plays_of spark (log_json spark) (song_json spark)))]>
        (<["users" :=
             mk_frame users_schema
               (remove_dups (users_row <$> log_json spark))]> (views w)))).
Proof.
  intros Hb Hs Hl Hd. unfold main, mbind, M_bind.
  rewrite process_song_data_run by done.
  rewrite process_log_data_run by done. reflexivity.
Qed.

(* ===================================================================== *)
(** * Properties of the tables *)
(* ===================================================================== *)



Section Keys.
Context {A B K : Type} `{EqDecision K} (k : A -> K).
Context (P : B -> Prop) `{!forall r, Decision (P r)}.

Lemma filter_imap_none (f : nat -> A -> B) l :
  (forall i y, y ∈ l -> ~ P (f i y)) -> base.filter P (imap f l) = [].
Proof.
  revert f. induction l as [|y l IH]; intros f Hf; [done|].
  cbn [imap]. rewrite filter_cons, decide_False.
  - apply IH. intros i z Hz. apply Hf. by right.
  - apply Hf. by left.
Qed.

Lemma filter_imap_key_unique (f : nat -> A -> B) l x :
  NoDup (k <$> l) -> x ∈ l ->
  (forall i, P (f i x)) ->
  (forall i y, y ∈ l -> P (f i y) -> k y = k x) ->
  exists i, base.filter P (imap f l) = [f i x].
Proof.
  revert f. induction l as [|y l IH]; intros f Hnd Hin Hx HP;
    [by apply elem_of_nil in Hin|].
  rewrite fmap_cons in Hnd. apply NoDup_cons in Hnd as [Hy Hnd].
  cbn [imap]. rewrite filter_cons.
  destruct (decide (k y = k x)) as [Hk|Hk].
  - assert (y = x) as ->.
    { apply elem_of_cons in Hin as [->|Hin]; [done|].
      exfalso. apply Hy. rewrite Hk. by apply list_elem_of_fmap_2. }
    exists 0%nat. rewrite decide_True by apply Hx. f_equal.
    apply filter_imap_none. intros i z Hz HPz. apply Hy.
    rewrite <- (HP (S i) z); [by apply list_elem_of_fmap_2|by right|done].
  - rewrite decide_False.
    2:{ intros HPy. apply Hk, (HP 0%nat); [by left|done]. }
    apply elem_of_cons in Hin as [->|Hin]; [done|].
    destruct (IH (f ∘ S) Hnd Hin) as [i Hi].
    + intros i. apply Hx.
    + intros i z Hz. apply HP. by right.
    + by exists (S i).
Qed.

End Keys.

Lemma filter_fmap_key_unique {A B K} `{EqDecision K} (k : A -> K)
    (P : B -> Prop) `{!forall r, Decision (P r)} (f : A -> B) l x :
  NoDup (k <$> l) -> x ∈ l ->
  (forall y, P (f y) <-> k y = k x) ->
  base.filter P (f <$> l) = [f x].
Proof.
  intros Hnd Hin HP.
  destruct (filter_imap_key_unique k P (fun _ => f) l x Hnd Hin) as [i Hi].
  - intros _. by apply HP.
  - intros _ y _. apply HP.
  - by rewrite (imap_const f) in Hi.
Qed.

(** C6: with distinct song ids in the catalog, SongsDim has exactly one row
    per song id, and that row carries the song's title, artist id, year and
    duration unchanged. *)
Theorem C6_songs_one_row_per_song_id cs :
  NoDup (song_id <$> cs) ->
  exists df,
    SongsDim cs = Some df
    /\ columns df = ["song_id"; "title"; "artist_id"; "year"; "duration"]
    /\ field_of (schema df) "song_id" <$> rows df = (VStr ∘ song_id) <$> cs
    /\ NoDup (field_of (schema df) "song_id" <$> rows df)
    /\ forall c, c ∈ cs ->
         base.filter
           (fun r => field_of (schema df) "song_id" r = VStr (song_id c))
           (rows df)
         = [[VStr (song_id c); VStr (title c); VStr (artist_id c);
             VLong (Json.year c); VDouble (duration c)]].
Proof.
  intros Hnd. eexists. split; [apply SongsDim_rows|].
  cbn [schema rows]. split; [reflexivity|].
  assert (Hcol : field_of songs_schema "song_id" <$> (songs_row <$> cs)
                 = (VStr ∘ song_id) <$> cs).
  { rewrite <- list_fmap_compose. by apply list_fmap_ext. }
  split; [exact Hcol|]. split.
  - rewrite Hcol, list_fmap_compose.
    apply (NoDup_fmap_2 VStr), Hnd.
  - intros c Hc.
    apply (filter_fmap_key_unique song_id _ songs_row cs c Hnd Hc).
    intros y. change (field_of songs_schema "song_id" (songs_row y))
                with (VStr (song_id y)).
    split; congruence.
Qed.


Lemma C6_witness :
  NoDup (song_id <$> Sample.catalog)
  /\ exists df, SongsDim Sample.catalog = Some df /\ length (rows df) = 3%nat.
Proof.
  assert (H : NoDup (song_id <$> Sample.catalog)) by compute_done.
  split; [exact H|].
  destruct (C6_songs_one_row_per_song_id Sample.catalog H)
    as (df & Hdf & _ & Hcol & _).
  exists df. split; [exact Hdf|].
  apply (f_equal length) in Hcol. by rewrite !length_fmap in Hcol.
Defined.

Lemma remove_dups_Permutation {A} `{EqDecision A} (l k : list A) :
  l ≡ₚ k -> remove_dups l ≡ₚ remove_dups k.
Proof.
  intros Hp. apply NoDup_Permutation; [apply NoDup_remove_dups..|].
  intros x. rewrite !elem_of_remove_dups. by rewrite Hp.
Qed.

Lemma remove_dups_idemp {A} `{EqDecision A} (l : list A) :
  remove_dups (remove_dups l) = remove_dups l.
Proof.
  assert (H : forall k : list A, NoDup k -> remove_dups k = k).
  { induction k as [|x k IH]; [done|]. intros [Hx Hk]%NoDup_cons.
    cbn. destruct (decide_rel elem_of x k) as [|_]; [done|]. by rewrite IH. }
  apply H, NoDup_remove_dups.
Qed.

Lemma count_one_of_NoDup {A} `{EqDecision A} (l : list A) x :
  NoDup l -> x ∈ l -> length (base.filter (fun y => y = x) l) = 1%nat.
Proof.
  intros Hnd Hin.
  pose proof (filter_fmap_key_unique id (fun y => y = x) id l x) as H.
  rewrite list_fmap_id in H. by rewrite H.
Qed.

(** C7: the UsersDim derivation gives the same set of rows however the
    input records are ordered (so also when it is run again on the same
    input), its rows are pairwise distinct, every projected tuple of the
    input occurs exactly once, and deduplicating again changes nothing. *)
Theorem C7_users_deterministic_and_deduplicated es es' :
  es ≡ₚ es' ->
  exists df df',
    UsersDim es = Some df /\ UsersDim es' = Some df'
    /\ rows df ≡ₚ rows df'
    /\ NoDup (rows df)
    /\ (forall r, r ∈ rows df <-> exists e, e ∈ es /\ r = users_row e)
    /\ (forall e, e ∈ es ->
          length (base.filter (fun r => r = users_row e) (rows df)) = 1%nat)
    /\ DF.dropDuplicates df = df.
Proof.
  intros Hp. do 2 eexists. split; [apply UsersDim_rows|].
  split; [apply UsersDim_rows|]. cbn [rows].
  split; [by apply remove_dups_Permutation, fmap_Permutation|].
  split; [apply NoDup_remove_dups|].
  assert (Hin : forall r, r ∈ remove_dups (users_row <$> es)
                          <-> exists e, e ∈ es /\ r = users_row e).
  { intros r. rewrite elem_of_remove_dups, list_elem_of_fmap.
    split; intros (e & H1 & H2); eauto. }
  split; [exact Hin|]. split.
  - intros e He. apply count_one_of_NoDup; [apply NoDup_remove_dups|].
    apply Hin. eauto.
  - unfold DF.dropDuplicates. cbn [schema rows]. by rewrite remove_dups_idemp.
Qed.

Lemma C7_witness :
  Sample.log ≡ₚ Sample.log
  /\ exists df, UsersDim Sample.log = Some df /\ length (rows df) = 2%nat.
Proof.
  split; [done|].
  destruct (C7_users_deterministic_and_deduplicated Sample.log Sample.log)
    as (df & df' & Hdf & _); [done|].
  exists df. split; [exact Hdf|].
  rewrite UsersDim_rows in Hdf. injection Hdf as <-. reflexivity.
Defined.

Lemma filter_song_play_middle es1 e es2 :
  ~ is_song_play e ->
  base.filter is_song_play (es1 ++ e :: es2)
  = base.filter is_song_play (es1 ++ es2).
Proof.
  intros He. by rewrite !filter_app, filter_cons, decide_False.
Qed.

Lemma plays_song_plays es cs :
  plays es cs = plays (base.filter is_song_play es) cs.
Proof.
  unfold plays. f_equal. symmetry. apply list_filter_filter_l. done.
Qed.

Lemma plays_of_Permutation spark es cs : plays_of spark es cs ≡ₚ plays es cs.
Proof. apply reorder_Permutation. Qed.

Lemma sample_log_window : window Sample.utc Sample.log.
Proof.
  intros e He _.
  apply elem_of_cons in He as [->|He]; [by vm_compute|].
  apply elem_of_cons in He as [->|He]; [by vm_compute|].
  apply elem_of_cons in He as [->|He]; [by vm_compute|].
  by apply elem_of_nil in He.
Qed.

Lemma sample_play_in_window : in_window Sample.utc Sample.play.
Proof. by vm_compute. Qed.

(** C2, as the code has it: TimeDim is the same table when the records
    whose page is not "NextSong" are left out, and UsersDim is built from
    all records, whatever their page: its rows are the user tuples of the
    records of the log.  When every "NextSong" record of the log is in the
    window (a timestamp from 0 to below 2^32 seconds, in milliseconds, at
    an offset of less than a day), TimeDim is built and its rows are those
    of the [datetime] strings of the "NextSong" records. *)
Theorem C2_time_from_song_plays_users_from_all spark es :
  TimeDim spark es = TimeDim spark (base.filter is_song_play es)
  /\ (exists users,
        UsersDim es = Some users
        /\ forall r, r ∈ rows users <-> exists e, e ∈ es /\ r = users_row e)
  /\ (window spark es ->
      exists time,
        TimeDim spark es = Some time
        /\ forall r, r ∈ rows time <->
             exists e, e ∈ es /\ page e = "NextSong"
                       /\ r = time_row (datetime_of spark e)).
Proof.
  split; [apply TimeDim_song_plays|]. split.
  - eexists. split; [apply UsersDim_rows|]. cbn [rows]. intros r.
    rewrite elem_of_remove_dups, list_elem_of_fmap.
    split; intros (e & H1 & H2); eauto.
  - intros Hw. eexists. split; [by apply TimeDim_rows, window_datable|].
    cbn [rows]. intros r.
    rewrite elem_of_remove_dups, <- list_fmap_compose, list_elem_of_fmap.
    split.
    + intros (e & -> & [He Hin]%list_elem_of_filter). eauto.
    + intros (e & Hin & He & ->). exists e. split; [done|].
      by apply list_elem_of_filter.
Qed.

Lemma C2_witness :
  window Sample.utc Sample.log
  /\ exists time,
       TimeDim Sample.utc Sample.log = Some time
       /\ time_row (datetime_of Sample.utc Sample.play) ∈ rows time.
Proof.
  pose proof sample_log_window as Hw. split; [exact Hw|].
  destruct (C2_time_from_song_plays_users_from_all Sample.utc Sample.log)
    as (_ & _ & Ht).
  destruct (Ht Hw) as (time & Htime & Hrows).
  exists time. split; [exact Htime|]. apply Hrows. exists Sample.play.
  split; [by left|]. split; reflexivity.
Defined.

(** C2 as stated fails: a log with a single "Home" record gives a UsersDim
    row, although no record of the log is a song play. *)
Lemma C2_users_row_from_home_page :
  page Sample.home <> "NextSong"
  /\ UsersDim [Sample.home]
     = Some (mk_frame users_schema
               [[VStr "8"; VStr "Kaylee"; VStr "Summers"; VStr "F";
                 VStr "paid"]])
  /\ ~ (forall es df r,
          UsersDim es = Some df -> r ∈ rows df ->
          exists e, e ∈ es /\ page e = "NextSong" /\ r = users_row e).
Proof.
  split; [discriminate|]. split; [by rewrite UsersDim_rows|].
  intros H.
  destruct (H [Sample.home] _ (users_row Sample.home)
              (UsersDim_rows [Sample.home])) as (e & He & Hp & _).
  - cbn. left.
  - apply list_elem_of_singleton in He as ->. discriminate Hp.
Qed.

(** C4: a record whose page is not "NextSong" changes neither TimeDim nor
    SongPlayFact (the tables are the same with and without it), while its
    user tuple is a row of UsersDim. *)
Theorem C4_other_pages_only_reach_users spark es1 e es2 cs :
  page e <> "NextSong" ->
  TimeDim spark (es1 ++ e :: es2) = TimeDim spark (es1 ++ es2)
  /\ SongPlayFact spark (es1 ++ e :: es2) cs
     = SongPlayFact spark (es1 ++ es2) cs
  /\ exists users,
       UsersDim (es1 ++ e :: es2) = Some users
       /\ [VStr (userId e); VStr (firstName e); VStr (lastName e);
           VStr (gender e); VStr (level e)] ∈ rows users.
Proof.
  intros He. split; [|split].
  - rewrite (TimeDim_song_plays spark (es1 ++ e :: es2)),
      (TimeDim_song_plays spark (es1 ++ es2)).
    by rewrite filter_song_play_middle.
  - rewrite (SongPlayFact_song_plays spark (es1 ++ e :: es2)),
      (SongPlayFact_song_plays spark (es1 ++ es2)).
    by rewrite filter_song_play_middle.
  - eexists. split; [apply UsersDim_rows|]. cbn [rows].
    apply elem_of_remove_dups, (list_elem_of_fmap_2' users_row _ e); [|done].
    apply elem_of_app. right. left.
Qed.

Lemma C4_witness :
  page Sample.home <> "NextSong"
  /\ TimeDim Sample.utc [Sample.play; Sample.home; Sample.play]
     = TimeDim Sample.utc [Sample.play; Sample.play].
Proof.
  split; [discriminate|].
  apply (C4_other_pages_only_reach_users Sample.utc [Sample.play] Sample.home
           [Sample.play] Sample.catalog).
  discriminate.
Defined.

Lemma plays_single e cs :
  page e = "NextSong" ->
  plays [e] cs = (fun c => (e, c)) <$> base.filter (same_artist e) cs.
Proof.
  intros He. unfold plays.
  rewrite filter_cons, decide_True, filter_nil by done.
  cbn. by rewrite app_nil_r.
Qed.

Lemma single_datable spark e :
  in_window spark e -> Forall (datable spark) (base.filter is_song_play [e]).
Proof.
  intros Hw. apply Forall_forall. intros e' [_ He]%list_elem_of_filter.
  apply list_elem_of_singleton in He as ->. by apply in_window_datable.
Qed.

Lemma NoDup_song_id_filter (P : CatalogRecord -> Prop)
    `{!forall c, Decision (P c)} cs :
  NoDup (song_id <$> cs) -> NoDup (song_id <$> base.filter P cs).
Proof.
  intros Hnd. eapply sublist_NoDup; [exact Hnd|].
  apply fmap_sublist, sublist_filter.
Qed.

Lemma carries_songplays_row e c spark i e' c' :
  carries e c (songplays_row spark i (e', c'))
  <-> sessionId e' = sessionId e /\ song_id c' = song_id c
      /\ artist_id c' = artist_id c.
Proof.
  unfold carries.
  change (field_of songplays_schema "session_id" (songplays_row spark i (e', c')))
    with (VLong (sessionId e')).
  change (field_of songplays_schema "song_id" (songplays_row spark i (e', c')))
    with (VStr (song_id c')).
  change (field_of songplays_schema "artist_id" (songplays_row spark i (e', c')))
    with (VStr (artist_id c')).
  split; [intros ([= ?] & [= ?] & [= ?])|intros (-> & -> & ->)]; done.
Qed.

Lemma length_filter_imap {A B} (P : B -> Prop) `{!forall y, Decision (P y)}
    (Q : A -> Prop) `{!forall x, Decision (Q x)} (f : nat -> A -> B) l :
  (forall i x, P (f i x) <-> Q x) ->
  length (base.filter P (imap f l)) = length (base.filter Q l).
Proof.
  revert f. induction l as [|x l IH]; intros f Hpq; [done|].
  cbn [imap]. rewrite !filter_cons.
  destruct (decide (P (f 0%nat x))) as [Hp|Hp], (decide (Q x)) as [Hq|Hq].
  - cbn [length]. f_equal. apply IH. intros i y. apply Hpq.
  - by apply Hpq in Hp.
  - by apply (Hpq 0%nat) in Hq.
  - apply IH. intros i y. apply Hpq.
Qed.

Lemma length_filter_fmap {A B} (P : B -> Prop) `{!forall y, Decision (P y)}
    (Q : A -> Prop) `{!forall x, Decision (Q x)} (f : A -> B) l :
  (forall x, P (f x) <-> Q x) ->
  length (base.filter P (f <$> l)) = length (base.filter Q l).
Proof.
  intros Hpq. rewrite <- (imap_const f). by apply length_filter_imap.
Qed.

(** The fact rows of one song play that carry the ids of a catalog record
    are as many as the records of the catalog with the artist's name and
    these two ids. *)
Lemma length_carrying_rows spark e cs c :
  page e = "NextSong" ->
  length (base.filter (carries e c)
            (imap (songplays_row spark) (plays_of spark [e] cs)))
  = length (base.filter (fun c' => artist e = Some (artist_name c')
                                   /\ song_id c' = song_id c
                                   /\ artist_id c' = artist_id c) cs).
Proof.
  intros He.
  rewrite (length_filter_imap (carries e c)
             (fun p : ActivityRecord * CatalogRecord =>
                sessionId p.1 = sessionId e /\ song_id p.2 = song_id c
                /\ artist_id p.2 = artist_id c)).
  2:{ intros i [e' c']. apply carries_songplays_row. }
  etrans.
  { apply Permutation_length. rewrite plays_of_Permutation. reflexivity. }
  rewrite plays_single by done.
  rewrite (length_filter_fmap _
             (fun c' => sessionId e = sessionId e /\ song_id c' = song_id c
                        /\ artist_id c' = artist_id c)) by done.
  rewrite list_filter_filter. f_equal. apply list_filter_iff.
  intros c'. unfold same_artist. tauto.
Qed.

(** C3: the join is an inner join on exact equality of the artist names.
    For a single "NextSong" event of the window, the fact rows with the
    event's session id and the song id and artist id of a catalog record are
    as many as the catalog records that have the artist's name and these two
    ids: exactly one when the song ids of the catalog are distinct and the
    record's artist name is the event's artist; with no record of that name
    the fact table is empty. *)
Theorem C3_inner_join_on_exact_artist_name spark e cs :
  page e = "NextSong" -> in_window spark e ->
  exists fact,
    SongPlayFact spark [e] cs = Some fact
    /\ (forall c,
          length (base.filter (carries e c) (rows fact))
          = length (base.filter (fun c' => artist e = Some (artist_name c')
                                           /\ song_id c' = song_id c
                                           /\ artist_id c' = artist_id c) cs))
    /\ (NoDup (song_id <$> cs) ->
        forall c, c ∈ cs -> artist e = Some (artist_name c) ->
          length (base.filter (carries e c) (rows fact)) = 1%nat)
    /\ ((forall c, c ∈ cs -> artist e <> Some (artist_name c)) ->
          rows fact = []).
Proof.
  intros He Hw. eexists.
  split; [by apply SongPlayFact_rows, single_datable|]. cbn [rows].
  split; [intros c; by apply length_carrying_rows|]. split.
  - intros Hnd c Hc Ha. rewrite length_carrying_rows by done.
    destruct (filter_imap_key_unique song_id
                (fun c' => artist e = Some (artist_name c')
                           /\ song_id c' = song_id c
                           /\ artist_id c' = artist_id c)
                (fun _ c' => c') cs c Hnd Hc) as [i Hi].
    + done.
    + by intros _ c' _ (_ & Hs & _).
    + rewrite (imap_const id), list_fmap_id in Hi. by rewrite Hi.
  - intros Hno.
    assert (Hnil : plays_of spark [e] cs = []); [|by rewrite Hnil].
    apply Permutation_nil_r. rewrite plays_of_Permutation, plays_single by done.
    replace (base.filter (same_artist e) cs) with (@nil CatalogRecord);
      [done|].
    symmetry. induction cs as [|c cs IH]; [done|].
    rewrite filter_cons, decide_False.
    + apply IH. intros c' Hc'. apply Hno. by right.
    + apply Hno. by left.
Qed.

Lemma C3_witness :
  page Sample.play = "NextSong" /\ in_window Sample.utc Sample.play
  /\ NoDup (song_id <$> Sample.catalog)
  /\ exists fact,
       SongPlayFact Sample.utc [Sample.play] Sample.catalog = Some fact
       /\ length (base.filter (carries Sample.play Sample.one_more_time)
                               (rows fact)) = 1%nat.
Proof.
  assert (Hp : page Sample.play = "NextSong") by reflexivity.
  pose proof sample_play_in_window as Hw.
  assert (Hn : NoDup (song_id <$> Sample.catalog)) by compute_done.
  split; [exact Hp|]. split; [exact Hw|]. split; [exact Hn|].
  destruct (C3_inner_join_on_exact_artist_name Sample.utc Sample.play
              Sample.catalog Hp Hw) as (fact & Hf & _ & Hone & _).
  exists fact. split; [exact Hf|].
  apply Hone; [exact Hn|by left|reflexivity].
Defined.

(** C3 as stated fails when the catalog holds a record twice: the event
    then has two fact rows with its session id and the song id and artist id
    of that record. *)
Lemma C3_two_rows_for_a_repeated_record :
  (exists fact,
     SongPlayFact Sample.utc [Sample.play]
                  [Sample.one_more_time; Sample.one_more_time] = Some fact
     /\ length (base.filter (carries Sample.play Sample.one_more_time)
                             (rows fact)) = 2%nat)
  /\ ~ (forall spark e cs c,
          page e = "NextSong" -> in_window spark e ->
          c ∈ cs -> artist e = Some (artist_name c) ->
          exists fact,
            SongPlayFact spark [e] cs = Some fact
            /\ length (base.filter (carries e c) (rows fact)) = 1%nat).
Proof.
  assert (Hrun : SongPlayFact Sample.utc [Sample.play]
                   [Sample.one_more_time; Sample.one_more_time]
                 = Some (mk_frame songplays_schema
                           (imap (songplays_row Sample.utc)
                              (plays_of Sample.utc [Sample.play]
                                 [Sample.one_more_time;
                                  Sample.one_more_time]))))
    by apply SongPlayFact_rows, single_datable, sample_play_in_window.
  assert (Htwo : length (base.filter
                           (carries Sample.play Sample.one_more_time)
                           (imap (songplays_row Sample.utc)
                              (plays_of Sample.utc [Sample.play]
                                 [Sample.one_more_time;
                                  Sample.one_more_time]))) = 2%nat)
    by (by rewrite length_carrying_rows).
  split.
  - eexists. split; [exact Hrun|]. exact Htwo.
  - intros H.
    destruct (H Sample.utc Sample.play
                [Sample.one_more_time; Sample.one_more_time]
                Sample.one_more_time eq_refl sample_play_in_window)
      as (fact & Hf & Hone); [by left|reflexivity|].
    rewrite Hrun in Hf. apply (inj Some) in Hf. subst fact.
    cbn [rows] in Hone. rewrite Htwo in Hone. discriminate Hone.
Qed.

Lemma length_plays es cs :
  length (plays es cs)
  = sum_list ((fun e => length (base.filter (same_artist e) cs))
                <$> base.filter is_song_play es).
Proof.
  unfold plays. induction (base.filter is_song_play es) as [|e l IH]; [done|].
  rewrite bind_cons, length_app, length_fmap, IH. done.
Qed.

Lemma datetime_of_with_song spark title e :
  datetime_of spark (with_song title e) = datetime_of spark e.
Proof.
  unfold datetime_of. change (ts (with_song title e)) with (ts e).
  reflexivity.
Qed.

Lemma songplays_row_with_song spark i title e c :
  songplays_row spark i (with_song title e, c) = songplays_row spark i (e, c).
Proof. unfold songplays_row. rewrite datetime_of_with_song. reflexivity. Qed.

Lemma length_plays_of spark es cs :
  length (plays_of spark es cs) = length (plays es cs).
Proof. apply length_reorder. Qed.

Lemma songplays_song_id_column spark (l : list (ActivityRecord * CatalogRecord)) :
  field_of songplays_schema "song_id" <$> imap (songplays_row spark) l
  = (VStr ∘ song_id ∘ snd) <$> l.
Proof.
  rewrite fmap_imap.
  rewrite (imap_ext _ (fun _ => VStr ∘ song_id ∘ snd)); [apply imap_const|].
  by intros i [e c] _.
Qed.



(* ===================================================================== *)
(** * The derived time columns *)
(* ===================================================================== *)

Lemma fromtimestamp_seconds zone n :
  Py.fromtimestamp zone (inject_Z n)
  = let dt := wall_clock (zone n) n 0 in
    if (1 <=? Py.dt_year dt) && (Py.dt_year dt <=? 9999) then Some dt
    else None.
Proof.
  unfold Py.fromtimestamp, wall_clock, Py.to_timeval, inject_Z.
  cbn [Qnum Qden]. rewrite Z.quot_1_r, Z.rem_1_r.
  change (Py.round_half_even (Py.binary64 ((0 # 1) * (1000000 # 1))%Q))
    with 0.
  change (1000000 <=? 0) with false. change (0 <? 0) with false.
  cbv iota beta.
  by destruct (Py.civil_from_days _) as [[y m] d].
Qed.

Lemma wall_clock_date tz secs us us' :
  let dt := wall_clock tz secs us in
  let dt' := wall_clock tz secs us' in
  (Py.dt_year dt, Py.dt_month dt, Py.dt_day dt)
  = (Py.dt_year dt', Py.dt_month dt', Py.dt_day dt').
Proof.
  unfold wall_clock.
  by destruct (Py.civil_from_days ((secs + tz) / 86400)) as [[y m] d].
Qed.

Lemma whole_second_datetime_of_wall_clock spark e :
  in_window spark e ->
  whole_second_datetime_of spark e
  = Py.str_datetime
      (wall_clock (utcoffset spark (ts e / 1000)) (ts e / 1000) 0).
Proof.
  intros Hw. unfold whole_second_datetime_of.
  rewrite fromtimestamp_seconds. cbv zeta.
  pose proof (in_window_year _ _ Hw) as Hy. unfold event_clock in Hy.
  pose proof (wall_clock_date (utcoffset spark (ts e / 1000)) (ts e / 1000)
                (ts e mod 1000 * 1000) 0) as Hd.
  cbv zeta in Hd. apply (f_equal (fun p => p.1.1)) in Hd. cbn [fst] in Hd.
  rewrite <- Hd.
  destruct (Z.leb_spec 1 (Py.dt_year
              (wall_clock (utcoffset spark (ts e / 1000)) (ts e / 1000)
                          (ts e mod 1000 * 1000)))); [|lia].
  destruct (Z.leb_spec (Py.dt_year
              (wall_clock (utcoffset spark (ts e / 1000)) (ts e / 1000)
                          (ts e mod 1000 * 1000))) 9999); [done|lia].
Qed.

Lemma in_window_whole_second_printable spark e :
  in_window spark e ->
  printable (wall_clock (utcoffset spark (ts e / 1000)) (ts e / 1000) 0).
Proof.
  intros [Hts Htz]. apply wall_clock_printable; Z.div_mod_to_equations; lia.
Qed.

Lemma actions_time_columns spark e :
  field_of actions_schema "timestamp" (actions_row spark e)
  = VStr (timestamp_of e)
  /\ field_of actions_schema "datetime" (actions_row spark e)
     = VStr (datetime_of spark e).
Proof. by destruct e. Qed.

Lemma elem_of_song_plays (es : list ActivityRecord) (i : nat) e :
  base.filter is_song_play es !! i = Some e -> e ∈ es /\ page e = "NextSong".
Proof.
  intros Hi. apply list_elem_of_lookup_2, list_elem_of_filter in Hi.
  by destruct Hi.
Qed.

(** C1, as the code has it, for a log whose "NextSong" records are all in
    the window (a timestamp from 0 to below 2^32 seconds, in milliseconds,
    at an offset of less than a day): the [datetime] column of every
    retained record is the local wall-clock time of the whole second
    [floor(ts / 1000)] together with the milliseconds of [ts] as its
    fraction; it is the calendar value of the whole second only when [ts] is
    a multiple of 1000.  The whole second itself is the separate [timestamp]
    column, and the calendar date read from [datetime] is that of the whole
    second. *)
Theorem C1_datetime_keeps_the_millisecond_fraction spark es e :
  window spark es -> e ∈ es -> page e = "NextSong" ->
  exists df,
    Actions spark es = Some df
    /\ field_of (schema df) "datetime" <$> rows df
       = (fun e' => VStr (Py.str_datetime (event_clock spark e')))
           <$> base.filter (fun e' => page e' = "NextSong") es
    /\ field_of (schema df) "timestamp" <$> rows df
       = (fun e' => VStr (Py.str_int (ts e' / 1000)))
           <$> base.filter (fun e' => page e' = "NextSong") es
    /\ VStr (datetime_of spark e) ∈ field_of (schema df) "datetime" <$> rows df
    /\ timestamp_of e = Py.str_int (ts e / 1000)
    /\ string_to_timestamp (datetime_of spark e)
       = Some (wall_clock (utcoffset spark (ts e / 1000)) (ts e / 1000)
                          (ts e mod 1000 * 1000))
    /\ string_to_date (datetime_of spark e)
       = string_to_date (whole_second_datetime_of spark e)
    /\ (datetime_of spark e = whole_second_datetime_of spark e
        <-> ts e mod 1000 = 0).
Proof.
  intros Hes Hin Hpage. pose proof (Hes e Hin Hpage) as Hw.
  eexists. split; [by apply Actions_rows, window_datable|].
  cbn [schema rows].
  assert (Hdt : field_of actions_schema "datetime"
                  <$> (actions_row spark <$> base.filter is_song_play es)
                = (fun e' => VStr (datetime_of spark e'))
                    <$> base.filter is_song_play es).
  { rewrite <- list_fmap_compose. apply list_fmap_ext.
    intros i e' _. apply actions_time_columns. }
  pose proof (in_window_printable _ _ Hw) as Hp.
  pose proof (in_window_whole_second_printable _ _ Hw) as Hp0.
  unfold event_clock in Hp.
  split; [|split; [|split; [|split; [|split; [|split]]]]].
  - rewrite Hdt. apply list_fmap_ext. intros i e' [He' Hp']%elem_of_song_plays.
    cbv beta. rewrite datetime_of_wall_clock by by apply Hes. done.
  - rewrite <- list_fmap_compose. apply list_fmap_ext.
    intros i e' [He' Hp']%elem_of_song_plays.
    unfold compose. destruct (actions_time_columns spark e') as [-> _].
    unfold timestamp_of. by rewrite int_of_float_millis by by apply Hes.
  - rewrite Hdt. apply list_elem_of_fmap. exists e. split; [done|].
    by apply list_elem_of_filter.
  - unfold timestamp_of. by rewrite int_of_float_millis by apply Hw.
  - rewrite datetime_of_wall_clock by done. unfold event_clock.
    by apply string_to_timestamp_str.
  - rewrite datetime_of_wall_clock, whole_second_datetime_of_wall_clock
      by done.
    unfold event_clock. rewrite !string_to_date_str by done.
    apply (f_equal Some), wall_clock_date.
  - rewrite datetime_of_wall_clock, whole_second_datetime_of_wall_clock
      by done.
    unfold event_clock. split.
    + intros Heq. apply (f_equal string_to_timestamp) in Heq.
      rewrite !string_to_timestamp_str in Heq by done.
      apply (inj Some) in Heq. apply wall_clock_inj in Heq as [_ Hu]. lia.
    + by intros ->.
Qed.

Lemma C1_witness :
  window Sample.utc Sample.log
  /\ Sample.play ∈ Sample.log /\ page Sample.play = "NextSong"
  /\ timestamp_of Sample.play = "1541990258"
  /\ string_to_date (datetime_of Sample.utc Sample.play)
     = Some (2018, 11, 12).
Proof.
  assert (Hin : Sample.play ∈ Sample.log) by by left.
  pose proof sample_log_window as Hw.
  destruct (C1_datetime_keeps_the_millisecond_fraction Sample.utc Sample.log
              Sample.play Hw Hin eq_refl)
    as (df & _ & _ & _ & _ & Hts & _ & Hd & _).
  split; [exact Hw|]. split; [exact Hin|]. split; [reflexivity|].
  split; [by rewrite Hts|]. by rewrite Hd.
Defined.

(** C1 as stated fails: for [ts = 1541990258796] the [datetime] column holds
    the milliseconds, and differs from the calendar value of the whole
    second 1541990258. *)
Lemma C1_datetime_is_not_of_the_whole_second :
  page Sample.play = "NextSong" /\ ts Sample.play = 1541990258796
  /\ datetime_of Sample.utc Sample.play = "2018-11-12 02:37:38.796000"
  /\ whole_second_datetime_of Sample.utc Sample.play = "2018-11-12 02:37:38"
  /\ ~ (forall spark es df,
          Actions spark es = Some df ->
          field_of (schema df) "datetime" <$> rows df
          = (fun e => VStr (whole_second_datetime_of spark e))
              <$> base.filter (fun e => page e = "NextSong") es).
Proof.
  split; [reflexivity|]. split; [reflexivity|].
  split; [by vm_compute|]. split; [by vm_compute|].
  intros H.
  specialize (H Sample.utc [Sample.play] _
                (Actions_rows _ _ (single_datable _ _ sample_play_in_window))).
  vm_compute in H. discriminate H.
Qed.

(* ===================================================================== *)
(** * The time table *)
(* ===================================================================== *)

Lemma remove_dups_fmap_inj {A B} `{EqDecision A, EqDecision B}
    (f : A -> B) `{!Inj (=) (=) f} (l : list A) :
  remove_dups (f <$> l) = f <$> remove_dups l.
Proof.
  induction l as [|x l IH]; [done|].
  rewrite fmap_cons. cbn [remove_dups].
  destruct (decide_rel elem_of (f x) (f <$> l)) as [Hf|Hf],
           (decide_rel elem_of x l) as [Hx|Hx].
  - exact IH.
  - apply list_elem_of_fmap in Hf as (y & Heq & Hy).
    apply (inj f) in Heq. by subst.
  - destruct Hf. apply list_elem_of_fmap. eauto.
  - by rewrite fmap_cons, IH.
Qed.

Lemma length_remove_dups_fmap_le {A B C} `{EqDecision B, EqDecision C}
    (f : A -> B) (g : A -> C) (l : list A) :
  (forall x y, x ∈ l -> y ∈ l -> g x = g y -> f x = f y) ->
  (length (remove_dups (f <$> l)) <= length (remove_dups (g <$> l)))%nat.
Proof.
  induction l as [|x l IH]; [done|]. intros Hfg.
  assert (IH' : (length (remove_dups (f <$> l))
                 <= length (remove_dups (g <$> l)))%nat).
  { apply IH. intros y z Hy Hz. apply Hfg; by right. }
  rewrite !fmap_cons. cbn [remove_dups].
  destruct (decide_rel elem_of (f x) (f <$> l)) as [Hf|Hf],
           (decide_rel elem_of (g x) (g <$> l)) as [Hg|Hg]; cbn [length].
  - exact IH'.
  - lia.
  - destruct Hf. apply list_elem_of_fmap in Hg as (y & Heq & Hy).
    apply list_elem_of_fmap. exists y. split; [|done].
    apply Hfg; [by left|by right|done].
  - lia.
Qed.

Lemma length_remove_dups_fmap {A B C} `{EqDecision B, EqDecision C}
    (f : A -> B) (g : A -> C) (l : list A) :
  (forall x y, x ∈ l -> y ∈ l -> f x = f y <-> g x = g y) ->
  length (remove_dups (f <$> l)) = length (remove_dups (g <$> l)).
Proof.
  intros Hfg. apply Nat.le_antisymm; apply length_remove_dups_fmap_le;
    intros x y Hx Hy; by apply Hfg.
Qed.

#[export] Instance time_row_inj : Inj (=) (=) time_row.
Proof.
  intros s1 s2 H.
  assert (Hs : VStr s1 = VStr s2) by exact (f_equal (cell 0) H).
  congruence.
Qed.

Lemma datetime_of_ts spark e1 e2 :
  ts e1 = ts e2 -> datetime_of spark e1 = datetime_of spark e2.
Proof. unfold datetime_of. by intros ->. Qed.

Lemma time_row_calendar spark e :
  in_window spark e ->
  let dt := event_clock spark e in
  let y := Py.dt_year dt in
  let m := Py.dt_month dt in
  let d := Py.dt_day dt in
  time_row (datetime_of spark e)
  = [ VStr (Py.str_datetime dt); VStr (Py.str_datetime dt);
      VInt (Py.dt_hour dt); VInt d; VInt (week_of_year y m d); VInt m;
      VInt y; VInt (day_of_week y m d) ].
Proof.
  intros Hw dt y m d. pose proof (in_window_printable _ _ Hw) as Hp.
  unfold time_row, on_timestamp, on_date.
  rewrite datetime_of_wall_clock by done.
  rewrite string_to_timestamp_str, string_to_date_str by done.
  reflexivity.
Qed.

Lemma wall_clock_civil tz secs us :
  let dt := wall_clock tz secs us in
  Py.days_from_civil (Py.dt_year dt) (Py.dt_month dt) (Py.dt_day dt)
  = (secs + tz) / 86400
  /\ 3600 * Py.dt_hour dt + 60 * Py.dt_minute dt + Py.dt_second dt
     = (secs + tz) mod 86400
  /\ 0 <= Py.dt_minute dt < 60 /\ 0 <= Py.dt_second dt < 60.
Proof.
  unfold wall_clock.
  pose proof (days_from_civil_from_days ((secs + tz) / 86400)) as Hd.
  destruct (Py.civil_from_days ((secs + tz) / 86400)) as [[y m] d].
  cbn [Py.dt_year Py.dt_month Py.dt_day Py.dt_hour Py.dt_minute Py.dt_second].
  split; [exact Hd|]. Z.div_mod_to_equations. lia.
Qed.

Lemma time_row_start_time s :
  field_of time_schema "start_time" (time_row s) = VStr s.
Proof. reflexivity. Qed.

Lemma window_song_plays spark es e :
  window spark es -> e ∈ base.filter is_song_play es -> in_window spark e.
Proof. intros Hw [He Hin]%list_elem_of_filter. by apply Hw. Qed.

(** In the window the time table has as many rows as the song plays have
    distinct local times. *)
Lemma length_time_rows spark es :
  window spark es ->
  length (remove_dups (time_row <$> (datetime_of spark
                                       <$> base.filter is_song_play es)))
  = length (remove_dups (local_millis spark <$> base.filter is_song_play es)).
Proof.
  intros Hw. rewrite <- list_fmap_compose. apply length_remove_dups_fmap.
  intros x y Hx Hy. unfold compose, local_millis.
  rewrite <- datetime_of_local by by eapply window_song_plays.
  split; [apply (inj time_row)|by intros ->].
Qed.

(** C5, as the code has it, for a log whose "NextSong" records are all in
    the window (a timestamp from 0 to below 2^32 seconds, in milliseconds,
    at an offset of less than a day): the time table has the eight columns
    [datetime], [start_time], [hour], [day], [week], [month], [year] and
    [weekday]; [datetime] and [start_time] hold the same string (they are
    not timestamp-typed) and the six others are integers, the calendar
    fields of the local time of the event.  No two rows share a
    [start_time], and the table has one row for each distinct local time
    among the "NextSong" events: at most one for each distinct [ts], and
    exactly one when the offset of the zone is the same at all of them. *)
Theorem C5_time_table_columns_and_rows spark es :
  window spark es ->
  exists df,
    TimeDim spark es = Some df
    /\ columns df = ["datetime"; "start_time"; "hour"; "day"; "week";
                     "month"; "year"; "weekday"]
    /\ dataType <$> schema df
       = [StringType; StringType; IntegerType; IntegerType; IntegerType;
          IntegerType; IntegerType; IntegerType]
    /\ NoDup (field_of (schema df) "start_time" <$> rows df)
    /\ length (rows df)
       = length (remove_dups
                   (local_millis spark
                      <$> base.filter (fun e => page e = "NextSong") es))
    /\ (length (rows df)
        <= length (remove_dups
                     (ts <$> base.filter (fun e => page e = "NextSong") es)))%nat
    /\ ((forall e1 e2, e1 ∈ es -> e2 ∈ es ->
           page e1 = "NextSong" -> page e2 = "NextSong" ->
           utcoffset spark (ts e1 / 1000) = utcoffset spark (ts e2 / 1000)) ->
        length (rows df)
        = length (remove_dups
                    (ts <$> base.filter (fun e => page e = "NextSong") es)))
    /\ (forall r, r ∈ rows df <->
          exists e, e ∈ es /\ page e = "NextSong" /\
            let dt := event_clock spark e in
            let y := Py.dt_year dt in
            let m := Py.dt_month dt in
            let d := Py.dt_day dt in
            r = [ VStr (Py.str_datetime dt); VStr (Py.str_datetime dt);
                  VInt (Py.dt_hour dt); VInt d; VInt (week_of_year y m d);
                  VInt m; VInt y; VInt (day_of_week y m d) ])
    /\ forall e,
         let dt := event_clock spark e in
         Py.days_from_civil (Py.dt_year dt) (Py.dt_month dt) (Py.dt_day dt)
         = (ts e / 1000 + utcoffset spark (ts e / 1000)) / 86400
         /\ 3600 * Py.dt_hour dt + 60 * Py.dt_minute dt + Py.dt_second dt
            = (ts e / 1000 + utcoffset spark (ts e / 1000)) mod 86400.
Proof.
  intros Hw. eexists. split; [by apply TimeDim_rows, window_datable|].
  cbn [schema rows].
  split; [reflexivity|]. split; [reflexivity|].
  split; [|split; [|split; [|split; [|split; [intros r; split
                                             |intros e; split]]]]].
  - rewrite remove_dups_fmap_inj by apply _.
    rewrite <- list_fmap_compose.
    rewrite (list_fmap_ext (field_of time_schema "start_time" ∘ time_row) VStr)
      by (intros; apply time_row_start_time).
    apply (NoDup_fmap_2 VStr), NoDup_remove_dups.
  - by apply length_time_rows.
  - rewrite length_time_rows by done. apply length_remove_dups_fmap_le.
    intros x y _ _ Heq. unfold local_millis. by rewrite Heq.
  - intros Htz. rewrite length_time_rows by done.
    apply length_remove_dups_fmap.
    intros x y [Hpx Hx]%list_elem_of_filter [Hpy Hy]%list_elem_of_filter.
    unfold local_millis. pose proof (Htz x y Hx Hy Hpx Hpy) as Ho.
    split; [lia|by intros ->].
  - rewrite elem_of_remove_dups, <- list_fmap_compose, list_elem_of_fmap.
    intros (e & -> & He). pose proof (window_song_plays _ _ _ Hw He) as Hwe.
    apply list_elem_of_filter in He as [He Hin].
    exists e. split; [done|]. split; [done|].
    by apply time_row_calendar.
  - intros (e & Hin & He & ->).
    rewrite elem_of_remove_dups, <- list_fmap_compose, list_elem_of_fmap.
    exists e. split; [|by apply list_elem_of_filter].
    symmetry. apply time_row_calendar. by apply Hw.
  - apply wall_clock_civil.
  - apply wall_clock_civil.
Qed.

Lemma C5_witness :
  window Sample.utc Sample.log
  /\ exists df,
       TimeDim Sample.utc Sample.log = Some df
       /\ length (rows df) = 1%nat.
Proof.
  pose proof sample_log_window as Hw. split; [exact Hw|].
  destruct (C5_time_table_columns_and_rows Sample.utc Sample.log Hw)
    as (df & Hdf & _ & _ & _ & Hlen & _).
  exists df. split; [exact Hdf|]. rewrite Hlen. by vm_compute.
Defined.

Lemma sample_autumn_window : window Sample.new_york Sample.autumn_night.
Proof.
  intros e He _.
  apply elem_of_cons in He as [->|He]; [by vm_compute|].
  apply elem_of_cons in He as [->|He]; [by vm_compute|].
  by apply elem_of_nil in He.
Qed.

(** C5 as stated fails: the time table keeps the [datetime] column beside
    the seven listed ones, its [start_time] is a string column, and it has
    one row for each distinct local time, not for each distinct timestamp:
    in a zone that sets its clocks back, the plays at 05:30 and at 06:30 UTC
    of 4 November 2018 both read 01:30 and share one row. *)
Lemma C5_time_table_has_datetime_and_string_start_time :
  ~ (forall spark es df,
       TimeDim spark es = Some df ->
       columns df = ["start_time"; "hour"; "day"; "week"; "month"; "year";
                     "weekday"])
  /\ ~ (forall spark es df f,
          TimeDim spark es = Some df -> f ∈ schema df ->
          name f = "start_time" -> dataType f = TimestampType)
  /\ datetime_of Sample.new_york Sample.before_the_change
     = "2018-11-04 01:30:00"
  /\ datetime_of Sample.new_york Sample.after_the_change
     = "2018-11-04 01:30:00"
  /\ ~ (forall spark es df,
          window spark es -> TimeDim spark es = Some df ->
          length (rows df)
          = length (remove_dups
                      (ts <$> base.filter (fun e => page e = "NextSong") es))).
Proof.
  pose proof (TimeDim_rows _ _ (window_datable _ _ sample_log_window)) as Hrun.
  split; [|split; [|split; [by vm_compute|split; [by vm_compute|]]]];
    intros H.
  - specialize (H Sample.utc Sample.log _ Hrun). discriminate H.
  - specialize (H Sample.utc Sample.log _
                  (mk_field None "start_time" StringType) Hrun).
    cbn [schema] in H.
    assert (Hin : mk_field None "start_time" StringType ∈ time_schema)
      by (right; left).
    specialize (H Hin eq_refl). discriminate H.
  - specialize (H Sample.new_york Sample.autumn_night _ sample_autumn_window
                  (TimeDim_rows _ _ (window_datable _ _ sample_autumn_window))).
    cbn [rows] in H. rewrite length_time_rows in H
      by apply sample_autumn_window.
    vm_compute in H. discriminate H.
Qed.

(* ===================================================================== *)
(** * Overwriting and the layout of the output *)
(* ===================================================================== *)

Lemma written_destination spark fs fs' path :
  path ∈ destinations -> written spark fs !! path = written spark fs' !! path.
Proof.
  unfold destinations, written. intros Hin.
  repeat (apply elem_of_cons in Hin as [->|Hin]);
    [by simplify_map_eq..|by apply elem_of_nil in Hin].
Qed.

Lemma datetime_of_rerun spark p o e :
  datetime_of (rerun spark p o) e = datetime_of spark e.
Proof.
  unfold datetime_of.
  change (utcoffset (rerun spark p o)) with (utcoffset spark). reflexivity.
Qed.

Lemma window_rerun spark p o es :
  window spark es -> window (rerun spark p o) es.
Proof. intros Hw e He Hp. exact (Hw e He Hp). Qed.

Lemma written_rerun spark p o fs fs' path :
  path ∈ dimension_destinations ->
  written (rerun spark p o) fs' !! path = written spark fs !! path.
Proof.
  unfold dimension_destinations, written. intros Hin.
  change (song_json (rerun spark p o)) with (song_json spark).
  change (log_json (rerun spark p o)) with (log_json spark).
  rewrite (list_fmap_ext (datetime_of (rerun spark p o)) (datetime_of spark)
             (base.filter is_song_play (log_json spark)))
    by (intros; apply datetime_of_rerun).
  cbv zeta.
  apply elem_of_cons in Hin as [->|Hin]; [by simplify_map_eq|].
  apply elem_of_cons in Hin as [->|Hin]; [by simplify_map_eq|].
  apply elem_of_cons in Hin as [->|Hin]; [by simplify_map_eq|].
  apply elem_of_cons in Hin as [->|Hin]; [by simplify_map_eq|].
  by apply elem_of_nil in Hin.
Qed.

Lemma without_songplay_id_row spark i e c :
  without_songplay_id (songplays_row spark i (e, c))
  = [ VStr (datetime_of spark e); VStr (userId e); VStr (level e);
      VStr (song_id c); VStr (artist_id c); VLong (sessionId e);
      VStr (location e); VStr (userAgent e);
      on_date (fun y _ _ => y) (VStr (datetime_of spark e));
      on_date (fun _ m _ => m) (VStr (datetime_of spark e)) ].
Proof. reflexivity. Qed.

Lemma without_songplay_id_rows spark s l :
  (forall e, datetime_of s e = datetime_of spark e) ->
  without_songplay_id <$> imap (songplays_row s) l
  = (fun q => without_songplay_id (songplays_row spark 0 q)) <$> l.
Proof.
  intros Hs. rewrite fmap_imap.
  rewrite (imap_ext _ (fun _ q => without_songplay_id
                                    (songplays_row spark 0 q)));
    [apply imap_const|].
  intros i [e c] _. unfold compose.
  by rewrite !without_songplay_id_row, Hs.
Qed.

Lemma rerun_datable spark p o :
  Forall (datable spark) (base.filter is_song_play (log_json spark)) ->
  Forall (datable (rerun spark p o))
         (base.filter is_song_play (log_json (rerun spark p o))).
Proof.
  change (log_json (rerun spark p o)) with (log_json spark).
  intros Hd. eapply Forall_impl; [exact Hd|]. intros e He. exact He.
Qed.



Lemma scan_partition_spec p dir r :
  r ∈ scan_partition p dir
  <-> r ∈ rows (contents p) /\ partition_of p r = dir.
Proof.
  unfold scan_partition.
  rewrite !list_elem_of_In, List.filter_In, bool_decide_eq_true. done.
Qed.

Lemma scan_songs_rows rs cs y a :
  List.filter
    (fun r => bool_decide
                (partition_of
                   (mk_parquet ["year"; "artist_id"]
                               (mk_frame songs_schema rs)) r
                 = [("year", VLong y); ("artist_id", VStr a)]))
    (songs_row <$> cs)
  = songs_row
      <$> base.filter (fun c => Json.year c = y /\ artist_id c = a) cs.
Proof.
  induction cs as [|c cs IH]; [done|].
  rewrite fmap_cons, filter_cons. cbn [List.filter]. rewrite IH.
  change (partition_of _ (songs_row c))
    with [("year", VLong (Json.year c)); ("artist_id", VStr (artist_id c))].
  destruct (decide (Json.year c = y /\ artist_id c = a)) as [[<- <-]|Hn].
  - by rewrite bool_decide_eq_true_2.
  - rewrite bool_decide_eq_false_2; [done|].
    intros [= <- <-]. by apply Hn.
Qed.

Lemma scan_songs_partition cs y a :
  scan_partition
    (mk_parquet ["year"; "artist_id"]
                (mk_frame songs_schema (songs_row <$> cs)))
    [("year", VLong y); ("artist_id", VStr a)]
  = songs_row
      <$> base.filter (fun c => Json.year c = y /\ artist_id c = a) cs.
Proof. apply scan_songs_rows. Qed.



(* ===================================================================== *)
(** * Further properties of the script *)
(* ===================================================================== *)

Lemma read_json_no_songs spark :
  bucket spark = input_data -> song_json spark = [] ->
  read_json spark "s3a://udacity-dend/song_data/*/*/*/*.json" = None.
Proof.
  intros Hb Hs. unfold read_json. rewrite Hb, Hs.
  change (Py.os_path_join input_data "song_data/*/*/*/*.json")
    with "s3a://udacity-dend/song_data/*/*/*/*.json".
  by rewrite decide_True.
Qed.

Lemma read_json_no_logs spark :
  bucket spark = input_data -> log_json spark = [] ->
  read_json spark "s3a://udacity-dend/log_data/*.json" = None.
Proof.
  intros Hb Hl. unfold read_json. rewrite Hb, Hl.
  change (Py.os_path_join input_data "song_data/*/*/*/*.json")
    with "s3a://udacity-dend/song_data/*/*/*/*.json".
  change (Py.os_path_join input_data "log_data/*.json")
    with "s3a://udacity-dend/log_data/*.json".
  rewrite decide_False by discriminate. by rewrite decide_True.
Qed.

(** X1: the artists table is a projection of the catalog without any
    deduplication: it has one row per catalog record, in catalog order, so
    an artist with several songs has as many rows. *)
Theorem X1_artists_one_row_per_catalog_record cs :
  exists df,
    ArtistsDim cs = Some df
    /\ columns df = ["artist_id"; "artist_name"; "artist_location";
                     "artist_latitude"; "artist_longitude"]
    /\ length (rows df) = length cs
    /\ field_of (schema df) "artist_id" <$> rows df
       = (fun c => VStr (artist_id c)) <$> cs
    /\ forall a,
         length (base.filter
                   (fun r => field_of (schema df) "artist_id" r = VStr a)
                   (rows df))
         = length (base.filter (fun c => artist_id c = a) cs).
Proof.
  eexists. split; [apply ArtistsDim_rows|]. cbn [schema rows].
  split; [reflexivity|]. split; [by rewrite length_fmap|].
  split; [by rewrite <- list_fmap_compose|].
  intros a.
  rewrite (list_filter_iff _ (fun r => cell 0 r = VStr a)) by done.
  induction cs as [|c cs IH]; [done|].
  rewrite fmap_cons, !filter_cons.
  change (cell 0 (artists_row c)) with (VStr (artist_id c)).
  destruct (decide (artist_id c = a)) as [->|Hn].
  - rewrite decide_True by done. cbn [length]. by rewrite IH.
  - rewrite decide_False; [exact IH|]. by intros [= ?].
Qed.

(** X2: without catalog records [main] stops at the first read and writes
    nothing; with catalog records but no log records it stops in
    [process_log_data], after the songs and the artists were written, and
    leaves these two data sets behind without the three others.  Over a log
    whose "NextSong" records are all in the window, [main] completes exactly
    when both inputs hold records. *)
Theorem X2_main_stops_on_missing_input spark w :
  bucket spark = input_data ->
  (song_json spark = [] -> main spark w = (None, w))
  /\ (song_json spark <> [] -> log_json spark = [] ->
      main spark w
      = (None,
         mk_world
           (<["./output_data/artists.parquet" :=
                mk_parquet [] (mk_frame (artists_schema (song_json spark))
                                        (artists_row <$> song_json spark))]>
            (<["./output_data/songs.parquet" :=
                mk_parquet ["year"; "artist_id"]
                  (mk_frame songs_schema (songs_row <$> song_json spark))]>
               (files w)))
           (views w)))
  /\ (window spark (log_json spark) ->
      ((main spark w).1 = Some ()
       <-> song_json spark <> [] /\ log_json spark <> [])).
Proof.
  intros Hb.
  assert (H1 : song_json spark = [] -> main spark w = (None, w)).
  { intros Hs. unfold main, mbind, M_bind, process_song_data.
    change (Py.os_path_join "s3a://udacity-dend/" "song_data/*/*/*/*.json")
      with "s3a://udacity-dend/song_data/*/*/*/*.json".
    by rewrite bind_lift_None by by apply read_json_no_songs. }
  assert (H2 : song_json spark <> [] -> log_json spark = [] ->
               main spark w
               = (None,
                  (process_song_data spark "s3a://udacity-dend/"
                                     "./output_data/" w).2)).
  { intros Hs Hl. unfold main, mbind, M_bind.
    rewrite process_song_data_run by done. cbn [snd].
    unfold process_log_data.
    change (Py.os_path_join "s3a://udacity-dend/" "log_data/*.json")
      with "s3a://udacity-dend/log_data/*.json".
    by rewrite bind_lift_None by by apply read_json_no_logs. }
  split; [exact H1|]. split.
  - intros Hs Hl. rewrite H2 by done.
    by rewrite process_song_data_run by done.
  - intros Hw. split.
    + intros Hrun. split; intros Hnil.
      * rewrite H1 in Hrun by done. discriminate Hrun.
      * destruct (song_json spark) as [|c cs] eqn:Hs.
        -- rewrite H1 in Hrun by done. discriminate Hrun.
        -- rewrite H2 in Hrun; [discriminate Hrun|done|done].
    + intros [Hs Hl]. by rewrite main_run by (done || by apply window_datable).
Qed.

Lemma X2_witness :
  bucket (Sample.session 0 Sample.catalog []) = input_data
  /\ ((main (Sample.session 0 Sample.catalog [])
            empty_world).2).(files) !! "./output_data/users/users.parquet"
     = None
  /\ (main Sample.utc empty_world).1 = Some ().
Proof.
  split; [reflexivity|].
  destruct (X2_main_stops_on_missing_input
              (Sample.session 0 Sample.catalog [])
              empty_world eq_refl) as (_ & H & _).
  destruct (X2_main_stops_on_missing_input Sample.utc empty_world eq_refl)
    as (_ & _ & Hiff).
  split.
  - rewrite H; [reflexivity|discriminate|reflexivity].
  - apply (Hiff sample_log_window). split; discriminate.
Defined.

Lemma elem_of_plays es cs e c :
  (e, c) ∈ plays es cs
  <-> e ∈ es /\ page e = "NextSong" /\ artist e = Some (artist_name c)
      /\ c ∈ cs.
Proof.
  unfold plays. rewrite list_elem_of_bind. split.
  - intros (e' & Hin & [Hp He]%list_elem_of_filter).
    apply list_elem_of_fmap in Hin as (c' & [= -> ->] & [Ha Hc]%list_elem_of_filter).
    done.
  - intros (He & Hp & Ha & Hc). exists e. split.
    + apply list_elem_of_fmap. exists c. split; [done|].
      by apply list_elem_of_filter.
    + by apply list_elem_of_filter.
Qed.

Lemma elem_of_plays_of spark es cs e c :
  (e, c) ∈ plays_of spark es cs
  <-> e ∈ es /\ page e = "NextSong" /\ artist e = Some (artist_name c)
      /\ c ∈ cs.
Proof. unfold plays_of. rewrite elem_of_reorder. apply elem_of_plays. Qed.

Lemma elem_of_songplays_rows spark l r :
  r ∈ imap (songplays_row spark) l
  <-> exists i e c, l !! i = Some (e, c) /\ r = songplays_row spark i (e, c).
Proof.
  rewrite elem_of_lookup_imap. split.
  - intros (i & [e c] & -> & Hl). eauto.
  - intros (i & e & c & Hl & ->). eauto.
Qed.

Lemma plays_without_artist es1 e es2 cs :
  artist e = None -> plays (es1 ++ e :: es2) cs = plays (es1 ++ es2) cs.
Proof.
  intros Ha. unfold plays. rewrite !filter_app, filter_cons, !bind_app.
  destruct (decide (is_song_play e)) as [He|He]; [|done].
  rewrite bind_cons. f_equal.
  replace (base.filter (same_artist e) cs) with (@nil CatalogRecord); [done|].
  symmetry. induction cs as [|c cs IH]; [done|].
  rewrite filter_cons, decide_False; [exact IH|].
  unfold same_artist. by rewrite Ha.
Qed.

Lemma datable_middle spark es1 e es2 :
  (page e = "NextSong" -> datable spark e) ->
  Forall (datable spark) (base.filter is_song_play (es1 ++ e :: es2))
  <-> Forall (datable spark) (base.filter is_song_play (es1 ++ es2)).
Proof.
  intros He. rewrite !filter_app, filter_cons, !Forall_app.
  destruct (decide (is_song_play e)) as [Hp|Hp]; [|done].
  rewrite Forall_cons. specialize (He Hp). tauto.
Qed.

Lemma time_row_fields s :
  field_of time_schema "start_time" (time_row s) = VStr s
  /\ field_of time_schema "year" (time_row s)
     = on_date (fun y _ _ => y) (VStr s)
  /\ field_of time_schema "month" (time_row s)
     = on_date (fun _ m _ => m) (VStr s).
Proof. split; [reflexivity|split; reflexivity]. Qed.

Lemma songplays_row_time_fields spark i e c :
  field_of songplays_schema "start_time" (songplays_row spark i (e, c))
  = VStr (datetime_of spark e)
  /\ field_of songplays_schema "year" (songplays_row spark i (e, c))
     = on_date (fun y _ _ => y) (VStr (datetime_of spark e))
  /\ field_of songplays_schema "month" (songplays_row spark i (e, c))
     = on_date (fun _ m _ => m) (VStr (datetime_of spark e)).
Proof. split; [reflexivity|split; reflexivity]. Qed.

Lemma songplays_row_keys spark i e c :
  field_of songplays_schema "user_id" (songplays_row spark i (e, c))
  = VStr (userId e)
  /\ field_of songplays_schema "level" (songplays_row spark i (e, c))
     = VStr (level e)
  /\ field_of songplays_schema "song_id" (songplays_row spark i (e, c))
     = VStr (song_id c)
  /\ field_of songplays_schema "artist_id" (songplays_row spark i (e, c))
     = VStr (artist_id c).
Proof. split; [reflexivity|split; [reflexivity|split; reflexivity]]. Qed.

(** X3: an event without artist (a null [artist]) is never joined, even
    when its page is "NextSong": the fact table is the same with and without
    it, provided the event, if it is a song play, is in the window (a
    timestamp from 0 to below 2^32 seconds, in milliseconds, at an offset of
    less than a day). *)
Theorem X3_events_without_artist_give_no_fact_row spark es1 e es2 cs :
  artist e = None -> (page e = "NextSong" -> in_window spark e) ->
  SongPlayFact spark (es1 ++ e :: es2) cs = SongPlayFact spark (es1 ++ es2) cs
  /\ SongPlayFact spark [e] cs = Some (mk_frame songplays_schema []).
Proof.
  intros Ha Hw.
  assert (Hd : page e = "NextSong" -> datable spark e)
    by (intros Hp; by apply in_window_datable, Hw).
  split.
  - destruct (decide (Forall (datable spark)
                        (base.filter is_song_play (es1 ++ es2)))) as [Hr|Hr].
    + rewrite !SongPlayFact_rows by by (done || apply datable_middle).
      unfold plays_of. by rewrite plays_without_artist.
    + rewrite !SongPlayFact_raises; [done|done|].
      by rewrite datable_middle.
  - pose proof (datable_middle spark [] e [] Hd) as Hs. cbn [app] in Hs.
    rewrite SongPlayFact_rows by by apply Hs.
    pose proof (plays_without_artist [] e [] cs Ha) as H. cbn [app] in H.
    assert (Hnil : plays_of spark [e] cs = []); [|by rewrite Hnil].
    apply Permutation_nil_r. by rewrite plays_of_Permutation, H.
Qed.

Lemma X3_witness :
  page play_without_artist = "NextSong"
  /\ artist play_without_artist = None
  /\ in_window Sample.utc play_without_artist
  /\ SongPlayFact Sample.utc [play_without_artist] Sample.catalog
     = Some (mk_frame songplays_schema []).
Proof.
  assert (Hw : in_window Sample.utc play_without_artist) by (by vm_compute).
  split; [reflexivity|]. split; [reflexivity|]. split; [exact Hw|].
  apply (X3_events_without_artist_give_no_fact_row Sample.utc []
           play_without_artist [] Sample.catalog eq_refl (fun _ => Hw)).
Defined.

Lemma record_number_le p i : (record_number p i <= i)%nat.
Proof.
  unfold record_number. etrans; [apply length_filter|].
  by rewrite length_seq.
Qed.

Lemma record_number_lt p i j :
  (i < j)%nat -> p i = p j -> (record_number p i < record_number p j)%nat.
Proof.
  intros Hlt Hp. unfold record_number.
  assert (Hj : seq 0 j = seq 0 i ++ i :: seq (S i) (j - S i)).
  { replace j with (i + S (j - S i))%nat at 1 by lia. by rewrite seq_app. }
  rewrite Hj, filter_app, length_app, filter_cons, decide_True by done.
  rewrite Hp. cbn [length]. lia.
Qed.

Lemma row_id_inj p i j :
  Z.of_nat i < 2 ^ 33 -> Z.of_nat j < 2 ^ 33 ->
  Z.of_nat (p i) < 2 ^ 31 -> Z.of_nat (p j) < 2 ^ 31 ->
  row_id p i = row_id p j -> i = j.
Proof.
  intros Hi Hj Hpi Hpj. unfold row_id, to_long.
  pose proof (record_number_le p i) as Hri.
  pose proof (record_number_le p j) as Hrj.
  change (2 ^ 33) with 8589934592 in *.
  change (2 ^ 31) with 2147483648 in *.
  change (2 ^ 63) with 9223372036854775808.
  change (2 ^ 64) with 18446744073709551616.
  intros Heq.
  assert (Hp : p i = p j /\ record_number p i = record_number p j)
    by (Z.div_mod_to_equations; lia).
  destruct Hp as [Hp Hr].
  destruct (Nat.lt_trichotomy i j) as [Hlt|[->|Hlt]]; [|done|].
  - pose proof (record_number_lt p i j Hlt Hp). lia.
  - pose proof (record_number_lt p j i Hlt (eq_sym Hp)). lia.
Qed.

Lemma length_plays_le es cs :
  (length (plays es cs)
   <= length (base.filter is_song_play es) * length cs)%nat.
Proof.
  rewrite length_plays.
  induction (base.filter is_song_play es) as [|e l IH]; [done|].
  rewrite fmap_cons. cbn [sum_list sum_list_with length]. unfold id.
  change (S (length l) * length cs)%nat
    with (length cs + length l * length cs)%nat.
  apply Nat.add_le_mono; [apply length_filter|exact IH].
Qed.

(** X4: the fact table has its eleven columns, the last one the surrogate
    key added by [monotonically_increasing_id]: the row at position [i] has
    the index of its partition in the upper bits and its position inside
    the partition in the lower 33 bits.  Over a log whose "NextSong" records
    are all in the window, with fewer than 2^33 pairs of a log record and a
    catalog record and fewer than 2^31 partitions, the ids are pairwise
    different and so are the rows. *)
Theorem X4_songplay_id_is_a_key spark es cs :
  window spark es ->
  Z.of_nat (length es) * Z.of_nat (length cs) < 2 ^ 33 ->
  (forall i, Z.of_nat (partition spark i) < 2 ^ 31) ->
  exists df,
    SongPlayFact spark es cs = Some df
    /\ columns df = ["start_time"; "user_id"; "level"; "song_id";
                     "artist_id"; "session_id"; "location"; "user_agent";
                     "year"; "month"; "songplay_id"]
    /\ (forall i r, rows df !! i = Some r ->
          field_of (schema df) "songplay_id" r
          = VLong (row_id (partition spark) i))
    /\ NoDup (field_of (schema df) "songplay_id" <$> rows df)
    /\ NoDup (rows df).
Proof.
  intros Hw Hsize Hparts. eexists.
  split; [by apply SongPlayFact_rows, window_datable|]. cbn [schema rows].
  split; [reflexivity|].
  set (l := plays_of spark es cs).
  assert (Hlen : Z.of_nat (length l) < 2 ^ 33).
  { subst l. rewrite length_plays_of.
    pose proof (length_plays_le es cs) as Hle.
    pose proof (length_filter is_song_play es) as Hf.
    eapply Z.le_lt_trans; [|exact Hsize].
    rewrite <- Nat2Z.inj_mul. apply Nat2Z.inj_le.
    etrans; [exact Hle|]. by apply Nat.mul_le_mono_r. }
  assert (Hid : forall i r,
            imap (songplays_row spark) l !! i = Some r ->
            field_of songplays_schema "songplay_id" r
            = VLong (row_id (partition spark) i)).
  { intros i r. rewrite list_lookup_imap.
    destruct (l !! i) as [[e c]|]; [|done].
    cbn [fmap option_fmap option_map].
    intros Heq. apply (inj Some) in Heq. subst r.
    change (cell 10 (songplays_row spark i (e, c))
            = VLong (row_id (partition spark) i)).
    reflexivity. }
  assert (Hnd : NoDup (field_of songplays_schema "songplay_id"
                         <$> imap (songplays_row spark) l)).
  { apply NoDup_alt. intros i j v. rewrite !list_lookup_fmap.
    destruct (imap _ _ !! i) as [ri|] eqn:Hi; [|done].
    destruct (imap _ _ !! j) as [rj|] eqn:Hj; [|done].
    cbn [fmap option_fmap option_map].
    rewrite (Hid _ _ Hi), (Hid _ _ Hj). intros [= <-] [= H].
    apply lookup_lt_Some in Hi, Hj. rewrite length_imap in Hi, Hj.
    apply (row_id_inj (partition spark)); [lia|lia|apply Hparts..|done]. }
  split; [exact Hid|]. split; [exact Hnd|]. by apply NoDup_fmap_1 in Hnd.
Qed.

Lemma X4_witness :
  window Sample.utc Sample.log
  /\ Z.of_nat (length Sample.log) * Z.of_nat (length Sample.catalog) < 2 ^ 33
  /\ (forall i, Z.of_nat (partition Sample.utc i) < 2 ^ 31)
  /\ exists df,
       SongPlayFact Sample.utc Sample.log Sample.catalog = Some df
       /\ NoDup (field_of (schema df) "songplay_id" <$> rows df).
Proof.
  pose proof sample_log_window as Hw.
  assert (Hsize : Z.of_nat (length Sample.log)
                  * Z.of_nat (length Sample.catalog) < 2 ^ 33)
    by (by vm_compute).
  assert (Hparts : forall i, Z.of_nat (partition Sample.utc i) < 2 ^ 31)
    by (intros i; by vm_compute).
  split; [exact Hw|]. split; [exact Hsize|]. split; [exact Hparts|].
  destruct (X4_songplay_id_is_a_key Sample.utc Sample.log Sample.catalog
              Hw Hsize Hparts) as (df & Hdf & _ & _ & Hnd & _).
  exists df. split; [exact Hdf|exact Hnd].
Defined.

(** X5: over a log whose "NextSong" records are all in the window, every
    row of the fact table has its row in the time table: a time row with the
    same [start_time], and with the same [year] and [month], the partition
    columns of both data sets. *)
Theorem X5_fact_rows_have_a_time_row spark es cs :
  window spark es ->
  exists fact time,
    SongPlayFact spark es cs = Some fact /\ TimeDim spark es = Some time
    /\ forall r, r ∈ rows fact ->
         exists t, t ∈ rows time
           /\ field_of (schema time) "start_time" t
              = field_of (schema fact) "start_time" r
           /\ field_of (schema time) "year" t
              = field_of (schema fact) "year" r
           /\ field_of (schema time) "month" t
              = field_of (schema fact) "month" r.
Proof.
  intros Hw. pose proof (window_datable _ _ Hw) as Hd.
  do 2 eexists. split; [by apply SongPlayFact_rows|].
  split; [by apply TimeDim_rows|]. cbn [schema rows].
  intros r (i & e & c & Hl & ->)%elem_of_songplays_rows.
  apply list_elem_of_lookup_2, elem_of_plays_of in Hl as (He & Hp & _).
  exists (time_row (datetime_of spark e)).
  destruct (time_row_fields (datetime_of spark e)) as (-> & -> & ->).
  destruct (songplays_row_time_fields spark i e c) as (-> & -> & ->).
  split; [|done].
  rewrite elem_of_remove_dups, <- list_fmap_compose.
  apply list_elem_of_fmap. exists e. split; [done|].
  by apply list_elem_of_filter.
Qed.

Lemma X5_witness :
  window Sample.utc Sample.log
  /\ exists fact time,
       SongPlayFact Sample.utc Sample.log Sample.catalog = Some fact
       /\ TimeDim Sample.utc Sample.log = Some time
       /\ forall r, r ∈ rows fact ->
            exists t, t ∈ rows time
              /\ field_of (schema time) "start_time" t
                 = field_of (schema fact) "start_time" r.
Proof.
  pose proof sample_log_window as Hw. split; [exact Hw|].
  destruct (X5_fact_rows_have_a_time_row Sample.utc Sample.log
              Sample.catalog Hw) as (fact & time & Hf & Ht & Hrows).
  exists fact, time. split; [exact Hf|]. split; [exact Ht|].
  intros r Hr. destruct (Hrows r Hr) as (t & Hin & Hs & _). eauto.
Defined.

(** X6: over a log whose "NextSong" records are all in the window, every
    row of the fact table names a song of the songs table and an artist of
    the artists table: a songs row with its [song_id] and [artist_id], and
    an artists row with its [artist_id]. *)
Theorem X6_fact_rows_have_a_song_and_an_artist spark es cs :
  window spark es ->
  exists fact songs artists,
    SongPlayFact spark es cs = Some fact /\ SongsDim cs = Some songs
    /\ ArtistsDim cs = Some artists
    /\ forall r, r ∈ rows fact ->
         (exists s, s ∈ rows songs
            /\ field_of (schema songs) "song_id" s
               = field_of (schema fact) "song_id" r
            /\ field_of (schema songs) "artist_id" s
               = field_of (schema fact) "artist_id" r)
         /\ exists a, a ∈ rows artists
              /\ field_of (schema artists) "artist_id" a
                 = field_of (schema fact) "artist_id" r.
Proof.
  intros Hw. do 3 eexists.
  split; [by apply SongPlayFact_rows, window_datable|].
  split; [apply SongsDim_rows|]. split; [apply ArtistsDim_rows|].
  cbn [schema rows].
  intros r (i & e & c & Hl & ->)%elem_of_songplays_rows.
  apply list_elem_of_lookup_2, elem_of_plays_of in Hl as (_ & _ & _ & Hc).
  split.
  - exists (songs_row c).
    destruct (songplays_row_keys spark i e c) as (_ & _ & -> & ->).
    split; [|split; reflexivity].
    apply list_elem_of_fmap. eauto.
  - exists (artists_row c).
    destruct (songplays_row_keys spark i e c) as (_ & _ & _ & ->).
    split; [|reflexivity].
    apply list_elem_of_fmap. eauto.
Qed.

Lemma X6_witness :
  window Sample.utc Sample.log
  /\ exists fact songs,
       SongPlayFact Sample.utc Sample.log Sample.catalog = Some fact
       /\ SongsDim Sample.catalog = Some songs
       /\ forall r, r ∈ rows fact ->
            exists s, s ∈ rows songs
              /\ field_of (schema songs) "song_id" s
                 = field_of (schema fact) "song_id" r.
Proof.
  pose proof sample_log_window as Hw. split; [exact Hw|].
  destruct (X6_fact_rows_have_a_song_and_an_artist Sample.utc Sample.log
              Sample.catalog Hw) as (fact & songs & artists & Hf & Hs & _ & Hrows).
  exists fact, songs. split; [exact Hf|]. split; [exact Hs|].
  intros r Hr. destruct (Hrows r Hr) as ((s & Hin & Hid & _) & _). eauto.
Defined.

(** X7: over a log whose "NextSong" records are all in the window, every
    row of the fact table names a user of the users table: a users row with
    its [user_id] as [userId] and with its [level]. *)
Theorem X7_fact_rows_have_a_user spark es cs :
  window spark es ->
  exists fact users,
    SongPlayFact spark es cs = Some fact /\ UsersDim es = Some users
    /\ forall r, r ∈ rows fact ->
         exists u, u ∈ rows users
           /\ field_of (schema users) "userId" u
              = field_of (schema fact) "user_id" r
           /\ field_of (schema users) "level" u
              = field_of (schema fact) "level" r.
Proof.
  intros Hw. do 2 eexists.
  split; [by apply SongPlayFact_rows, window_datable|].
  split; [apply UsersDim_rows|]. cbn [schema rows].
  intros r (i & e & c & Hl & ->)%elem_of_songplays_rows.
  apply list_elem_of_lookup_2, elem_of_plays_of in Hl as (He & _).
  exists (users_row e).
  destruct (songplays_row_keys spark i e c) as (-> & -> & _).
  split; [|split; reflexivity].
  rewrite elem_of_remove_dups. apply list_elem_of_fmap. eauto.
Qed.

Lemma X7_witness :
  window Sample.utc Sample.log
  /\ exists fact users,
       SongPlayFact Sample.utc Sample.log Sample.catalog = Some fact
       /\ UsersDim Sample.log = Some users
       /\ forall r, r ∈ rows fact ->
            exists u, u ∈ rows users
              /\ field_of (schema users) "userId" u
                 = field_of (schema fact) "user_id" r.
Proof.
  pose proof sample_log_window as Hw. split; [exact Hw|].
  destruct (X7_fact_rows_have_a_user Sample.utc Sample.log Sample.catalog Hw)
    as (fact & users & Hf & Hu & Hrows).
  exists fact, users. split; [exact Hf|]. split; [exact Hu|].
  intros r Hr. destruct (Hrows r Hr) as (u & Hin & Hid & _). eauto.
Defined.

Lemma length_remove_dups_le {A} `{EqDecision A} (l : list A) :
  (length (remove_dups l) <= length l)%nat.
Proof.
  induction l as [|x l IH]; [done|]. cbn [remove_dups length].
  destruct (decide_rel elem_of x l); cbn [length]; lia.
Qed.

(** X8: the two temporary views registered by [process_log_data] hold the
    frames that are written: after a run over a log whose "NextSong" records
    are all in the window, the view [users] is the users table and the view
    [songplays] the fact table, the contents of the two data sets; no other
    view is touched (the alias [timetable] given to the time table at the
    end registers nothing). *)
Theorem X8_views_hold_the_written_tables spark w :
  bucket spark = input_data -> song_json spark <> [] -> log_json spark <> [] ->
  window spark (log_json spark) ->
  let w' := (main spark w).2 in
  exists users songplays,
    UsersDim (log_json spark) = Some users
    /\ SongPlayFact spark (log_json spark) (song_json spark) = Some songplays
    /\ views w' !! "users" = Some users
    /\ views w' !! "songplays" = Some songplays
    /\ contents <$> files w' !! "./output_data/users/users.parquet"
       = Some users
    /\ contents <$> files w' !! "./output_data/songplays/songplays.parquet"
       = Some songplays
    /\ forall n, n <> "users" -> n <> "songplays" ->
         views w' !! n = views w !! n.
Proof.
  intros Hb Hs Hl Hw w'. subst w'. pose proof (window_datable _ _ Hw) as Hd.
  rewrite main_run by done.
  cbn [snd files views]. unfold written.
  do 2 eexists. split; [apply UsersDim_rows|].
  split; [by apply SongPlayFact_rows|].
  split; [by simplify_map_eq|]. split; [by simplify_map_eq|].
  split; [by simplify_map_eq|]. split; [by simplify_map_eq|].
  intros n Hu Hp. by simplify_map_eq.
Qed.

Lemma X8_witness :
  bucket Sample.utc = input_data /\ song_json Sample.utc <> []
  /\ log_json Sample.utc <> [] /\ window Sample.utc (log_json Sample.utc)
  /\ views (main Sample.utc empty_world).2 !! "timetable" = None.
Proof.
  assert (Hs : song_json Sample.utc <> []) by discriminate.
  assert (Hl : log_json Sample.utc <> []) by discriminate.
  pose proof sample_log_window as Hw.
  destruct (X8_views_hold_the_written_tables Sample.utc empty_world
              eq_refl Hs Hl Hw)
    as (users & songplays & _ & _ & _ & _ & _ & _ & H).
  split; [reflexivity|]. split; [exact Hs|]. split; [exact Hl|].
  split; [exact Hw|]. rewrite H by discriminate. reflexivity.
Defined.

(** X9: the users table is not keyed by [userId]: it keeps every distinct
    combination of the five columns, so a user who appears in the log with
    two levels has two rows. *)
Theorem X9_users_keeps_every_level_of_a_user es e1 e2 :
  e1 ∈ es -> e2 ∈ es -> userId e1 = userId e2 -> level e1 <> level e2 ->
  exists df u1 u2,
    UsersDim es = Some df
    /\ u1 ∈ rows df /\ u2 ∈ rows df /\ u1 <> u2
    /\ field_of (schema df) "userId" u1 = VStr (userId e1)
    /\ field_of (schema df) "userId" u2 = VStr (userId e1)
    /\ field_of (schema df) "level" u1 = VStr (level e1)
    /\ field_of (schema df) "level" u2 = VStr (level e2).
Proof.
  intros H1 H2 Hid Hlv.
  exists (mk_frame users_schema (remove_dups (users_row <$> es))),
         (users_row e1), (users_row e2).
  split; [apply UsersDim_rows|]. cbn [schema rows].
  rewrite !elem_of_remove_dups, !list_elem_of_fmap.
  split; [eauto|]. split; [eauto|]. split.
  - intros Heq. apply Hlv.
    assert (Hc : VStr (level e1) = VStr (level e2))
      by exact (f_equal (cell 4) Heq).
    by apply (inj VStr) in Hc.
  - split; [reflexivity|]. split; [|split; reflexivity].
    change (VStr (userId e2) = VStr (userId e1)). by rewrite Hid.
Qed.

Lemma X9_witness :
  exists df,
    UsersDim [Sample.play;
              mk_event 1542000000000 "26" "Ryan" "Smith" "M" "paid" "Home"
                       None None 584 "San Jose-Sunnyvale-Santa Clara, CA"
                       "Mozilla/5.0"] = Some df
    /\ length (rows df) = 2%nat.
Proof.
  set (upgraded := mk_event 1542000000000 "26" "Ryan" "Smith" "M" "paid"
                            "Home" None None 584
                            "San Jose-Sunnyvale-Santa Clara, CA"
                            "Mozilla/5.0").
  destruct (X9_users_keeps_every_level_of_a_user [Sample.play; upgraded]
              Sample.play upgraded) as (df & u1 & u2 & Hdf & _);
    [by left|by right; left|reflexivity|discriminate|].
  exists df. split; [exact Hdf|].
  rewrite UsersDim_rows in Hdf. apply (inj Some) in Hdf. subst df.
  reflexivity.
Defined.

(** X10: the sizes of the five tables, over a log whose "NextSong" records
    are all in the window: the songs and the artists have one row per
    catalog record, the users at most one per log record, the time table at
    most one per "NextSong" record, and the fact table at most one per pair
    of a "NextSong" record and a catalog record. *)
Theorem X10_table_sizes spark es cs :
  window spark es ->
  exists songs artists users time fact,
    SongsDim cs = Some songs /\ ArtistsDim cs = Some artists
    /\ UsersDim es = Some users /\ TimeDim spark es = Some time
    /\ SongPlayFact spark es cs = Some fact
    /\ length (rows songs) = length cs
    /\ length (rows artists) = length cs
    /\ (length (rows users) <= length es)%nat
    /\ (length (rows time)
        <= length (base.filter (fun e => page e = "NextSong") es))%nat
    /\ (length (rows fact)
        <= length (base.filter (fun e => page e = "NextSong") es)
           * length cs)%nat.
Proof.
  intros Hw. pose proof (window_datable _ _ Hw) as Hd.
  do 5 eexists.
  split; [apply SongsDim_rows|]. split; [apply ArtistsDim_rows|].
  split; [apply UsersDim_rows|]. split; [by apply TimeDim_rows|].
  split; [by apply SongPlayFact_rows|]. cbn [rows].
  split; [by rewrite length_fmap|]. split; [by rewrite length_fmap|].
  split; [|split].
  - etrans; [apply length_remove_dups_le|]. by rewrite length_fmap.
  - etrans; [apply length_remove_dups_le|]. by rewrite !length_fmap.
  - rewrite length_imap, length_plays_of. apply length_plays_le.
Qed.

Lemma X10_witness :
  window Sample.utc Sample.log
  /\ exists time fact,
       TimeDim Sample.utc Sample.log = Some time
       /\ SongPlayFact Sample.utc Sample.log Sample.catalog = Some fact
       /\ (length (rows time) <= 2)%nat /\ (length (rows fact) <= 6)%nat.
Proof.
  pose proof sample_log_window as Hw. split; [exact Hw|].
  destruct (X10_table_sizes Sample.utc Sample.log Sample.catalog Hw)
    as (songs & artists & users & time & fact & _ & _ & _ & Ht & Hf & _ & _
        & _ & Hlt & Hlf).
  exists time, fact. split; [exact Ht|]. split; [exact Hf|].
  split; [exact Hlt|exact Hlf].
Defined.

Lemma remove_dups_singleton {A} `{EqDecision A} (x : A) :
  remove_dups [x] = [x].
Proof.
  cbn [remove_dups]. destruct (decide_rel elem_of x []) as [Hx|_]; [|done].
  by apply elem_of_nil in Hx.
Qed.

(** X11: the [datetime] of an event is the wall-clock time of the zone the
    process runs in ([datetime.fromtimestamp] without a zone): two sessions
    in zones of different offsets give different [datetime] strings for the
    same event, and different time tables for the same log. *)
Theorem X11_datetime_depends_on_the_zone s1 s2 e :
  in_window s1 e -> in_window s2 e ->
  utcoffset s1 (ts e / 1000) <> utcoffset s2 (ts e / 1000) ->
  datetime_of s1 e <> datetime_of s2 e
  /\ (page e = "NextSong" -> TimeDim s1 [e] <> TimeDim s2 [e]).
Proof.
  intros H1 H2 Htz.
  assert (Hne : datetime_of s1 e <> datetime_of s2 e).
  { intros Heq. rewrite !datetime_of_wall_clock in Heq by done.
    apply (f_equal string_to_timestamp) in Heq.
    rewrite !string_to_timestamp_str in Heq by by apply in_window_printable.
    apply (inj Some) in Heq. unfold event_clock in Heq.
    apply wall_clock_inj_local in Heq as [Hs _]. lia. }
  split; [exact Hne|]. intros Hp.
  rewrite !TimeDim_rows by by apply single_datable.
  rewrite filter_cons, decide_True, filter_nil by done.
  rewrite !fmap_cons, !fmap_nil, !remove_dups_singleton.
  remember (datetime_of s1 e) as d1 eqn:E1.
  remember (datetime_of s2 e) as d2 eqn:E2.
  intros Heq. apply (inj Some) in Heq. apply (f_equal rows) in Heq.
  cbn [rows] in Heq. apply (inj (fun r => [r])) in Heq.
  by apply (inj time_row) in Heq.
Qed.

Lemma X11_witness :
  in_window Sample.utc Sample.play
  /\ in_window (Sample.session 3600 Sample.catalog Sample.log) Sample.play
  /\ datetime_of Sample.utc Sample.play
     <> datetime_of (Sample.session 3600 Sample.catalog Sample.log)
                    Sample.play.
Proof.
  assert (H1 : in_window Sample.utc Sample.play) by (by vm_compute).
  assert (H2 : in_window (Sample.session 3600 Sample.catalog Sample.log)
                         Sample.play)
    by (by vm_compute).
  split; [exact H1|]. split; [exact H2|].
  apply (X11_datetime_depends_on_the_zone _ _ _ H1 H2). discriminate.
Defined.

Lemma append_assoc (a b c : string) : (a +:+ b) +:+ c = a +:+ (b +:+ c).
Proof.
  induction a as [|x a IH]; [done|].
  change (String x ((a +:+ b) +:+ c) = String x (a +:+ (b +:+ c))).
  by rewrite IH.
Qed.

Lemma ends_with_slash_append a : Py.ends_with_slash (a +:+ "/") = true.
Proof.
  unfold Py.ends_with_slash.
  assert (H : last (String.list_ascii_of_string (a +:+ "/"))
              = Some "/"%char).
  { induction a as [|x a IH]; [done|].
    change (last (x :: String.list_ascii_of_string (a +:+ "/"))
            = Some "/"%char).
    by rewrite last_cons, IH. }
  by rewrite H.
Qed.

Lemma os_path_join_slash a b :
  a <> "" -> Py.ends_with_slash a = false -> Py.starts_with_slash b = false ->
  Py.os_path_join (a +:+ "/") b = Py.os_path_join a b.
Proof.
  intros Ha Hs Hb. unfold Py.os_path_join.
  rewrite Hb, Hs, ends_with_slash_append, orb_true_r.
  rewrite bool_decide_eq_false_2 by done. cbn [orb].
  apply append_assoc.
Qed.

(** X12: the two steps do not depend on whether the output directory is
    given with its final slash: the destinations are built with
    [os.path.join], which inserts the separator when it is missing. *)
Theorem X12_output_directory_with_or_without_slash spark inp out w :
  out <> "" -> Py.ends_with_slash out = false ->
  process_song_data spark inp (out +:+ "/") w
  = process_song_data spark inp out w
  /\ process_log_data spark inp (out +:+ "/") w
     = process_log_data spark inp out w.
Proof.
  intros Ho Hs. unfold process_song_data, process_log_data.
  by rewrite !(os_path_join_slash out) by done.
Qed.

Lemma X12_witness :
  process_song_data Sample.utc "s3a://udacity-dend/" "./output_data/"
                    empty_world
  = process_song_data Sample.utc "s3a://udacity-dend/" "./output_data"
                      empty_world.
Proof.
  apply (X12_output_directory_with_or_without_slash Sample.utc
           "s3a://udacity-dend/" "./output_data" empty_world);
    [discriminate|reflexivity].
Defined.

Lemma length_zero_padded w n acc :
  String.length (Py.zero_padded w n acc) = (w + String.length acc)%nat.
Proof.
  revert n acc. induction w as [|w IH]; intros n acc; [done|].
  cbn [Py.zero_padded]. rewrite IH. cbn [String.length]. lia.
Qed.

Lemma length_str_datetime dt :
  String.length (Py.str_datetime dt)
  = if Py.dt_microsecond dt =? 0 then 19%nat else 26%nat.
Proof.
  unfold Py.str_datetime.
  repeat (rewrite length_zero_padded; cbn [String.length]).
  destruct (Py.dt_microsecond dt =? 0); cbn [String.length];
    rewrite ?length_zero_padded; reflexivity.
Qed.



Lemma day_of_year_bounds z :
  0 <= z - Py.days_from_civil (Py.civil_from_days z).1.1 1 1 <= 365.
Proof.
  unfold Py.civil_from_days, Py.days_from_civil.
  set (z' := z + 719468).
  set (era := z' / 146097).
  set (doe := z' - era * 146097).
  set (yoe := (doe - doe / 1460 + doe / 36524 - doe / 146096) / 365).
  set (doy := doe - (365 * yoe + yoe / 4 - yoe / 100)).
  set (mp := (5 * doy + 2) / 153).
  assert (Hdoe : 0 <= doe < 146097)
    by (subst doe era; Z.div_mod_to_equations; lia).
  assert (Hy : 0 <= yoe <= 399 /\ 0 <= doy <= 365)
    by (subst doy yoe; Z.div_mod_to_equations; lia).
  assert (Hmp : 0 <= mp <= 11 /\ (mp < 10 <-> doy <= 305))
    by (subst mp; Z.div_mod_to_equations; lia).
  assert (Ez : z = era * 146097 + (365 * yoe + yoe / 4 - yoe / 100) + doy
                   - 719468) by (subst doy doe z'; lia).
  clearbody mp doy yoe era. clear Hdoe. subst z. clear z' doe.
  cbn [fst]. change (1 <=? 2) with true. change (2 <? 1) with false.
  cbv iota.
  change ((153 * (1 + 9) + 2) / 5 + 1 - 1) with 306.
  destruct (Z.ltb_spec mp 10) as [Hlt|Hge].
  - destruct (Z.leb_spec (mp + 3) 2) as [?|_]; [lia|].
    destruct (Z.eq_dec yoe 0) as [->|Hyoe].
    + replace ((0 + era * 400 - 1) / 400) with (era - 1)
        by (Z.div_mod_to_equations; lia).
      Z.div_mod_to_equations. lia.
    + replace ((yoe + era * 400 - 1) / 400) with era
        by (Z.div_mod_to_equations; lia).
      Z.div_mod_to_equations. lia.
  - destruct (Z.leb_spec (mp - 9) 2) as [_|?]; [|lia].
    replace ((yoe + era * 400 + 1 - 1) / 400) with era
      by (Z.div_mod_to_equations; lia).
    Z.div_mod_to_equations. lia.
Qed.

Lemma week_of_year_bounds y m d : 1 <= week_of_year y m d <= 53.
Proof.
  unfold week_of_year.
  set (days := Py.days_from_civil y m d).
  set (thursday := days - (days + 3) mod 7 + 3).
  pose proof (day_of_year_bounds thursday) as Hb.
  destruct (Py.civil_from_days thursday) as [[ty tm] td]. cbn [fst] in Hb.
  Z.div_mod_to_equations. lia.
Qed.

Lemma day_of_week_bounds y m d : 1 <= day_of_week y m d <= 7.
Proof. unfold day_of_week. Z.div_mod_to_equations. lia. Qed.

Lemma days_in_month_le y m : Py.days_in_month y m <= 31.
Proof.
  unfold Py.days_in_month.
  destruct (m =? 2); [by destruct (Py.is_leap y)|].
  by destruct ((m =? 4) || (m =? 6) || (m =? 9) || (m =? 11)).
Qed.

Lemma wall_clock_ranges tz secs us :
  let dt := wall_clock tz secs us in
  0 <= Py.dt_hour dt <= 23
  /\ 1 <= Py.dt_day dt <= 31
  /\ 1 <= Py.dt_month dt <= 12.
Proof.
  unfold wall_clock.
  pose proof (civil_from_days_valid ((secs + tz) / 86400)) as Hv.
  destruct (Py.civil_from_days ((secs + tz) / 86400)) as [[y m] d].
  cbn [Py.dt_hour Py.dt_day Py.dt_month].
  pose proof (days_in_month_le y m).
  split; [Z.div_mod_to_equations; lia|lia].
Qed.

(** X14: the calendar columns of the time table are never null and always
    in range, for events of the window: the hour is between 0 and 23, the
    day between 1 and 31, the ISO week between 1 and 53, the month between 1
    and 12, and the weekday between 1 (Sunday) and 7 (Saturday). *)
Theorem X14_time_fields_in_range spark es :
  (forall e, e ∈ es -> page e = "NextSong" -> in_window spark e) ->
  exists df,
    TimeDim spark es = Some df
    /\ forall r, r ∈ rows df ->
         exists h d w m y wd,
           field_of (schema df) "hour" r = VInt h
           /\ field_of (schema df) "day" r = VInt d
           /\ field_of (schema df) "week" r = VInt w
           /\ field_of (schema df) "month" r = VInt m
           /\ field_of (schema df) "year" r = VInt y
           /\ field_of (schema df) "weekday" r = VInt wd
           /\ 0 <= h <= 23 /\ 1 <= d <= 31 /\ 1 <= w <= 53
           /\ 1 <= m <= 12 /\ 0 <= y <= 9999 /\ 1 <= wd <= 7.
Proof.
  intros Hw. eexists.
  split; [by apply TimeDim_rows, window_datable|]. cbn [schema rows].
  intros r. rewrite elem_of_remove_dups, <- list_fmap_compose.
  intros (e & -> & [Hp He]%list_elem_of_filter)%list_elem_of_fmap.
  unfold compose. rewrite time_row_calendar by by apply Hw.
  set (dt := event_clock spark e).
  destruct (wall_clock_ranges (utcoffset spark (ts e / 1000)) (ts e / 1000)
                              (ts e mod 1000 * 1000)) as (Hh & Hd & Hm).
  destruct (in_window_printable spark e (Hw e He Hp)) as (Hy & _).
  fold (event_clock spark e) in Hh, Hd, Hm. fold dt in Hh, Hd, Hm, Hy.
  exists (Py.dt_hour dt), (Py.dt_day dt),
         (week_of_year (Py.dt_year dt) (Py.dt_month dt) (Py.dt_day dt)),
         (Py.dt_month dt), (Py.dt_year dt),
         (day_of_week (Py.dt_year dt) (Py.dt_month dt) (Py.dt_day dt)).
  do 6 (split; [reflexivity|]).
  split; [exact Hh|]. split; [exact Hd|].
  split; [apply week_of_year_bounds|]. split; [exact Hm|].
  split; [exact Hy|]. apply day_of_week_bounds.
Qed.

Lemma X14_witness :
  (forall e, e ∈ [Sample.play] -> page e = "NextSong" ->
             in_window Sample.utc e)
  /\ exists df,
       TimeDim Sample.utc [Sample.play] = Some df
       /\ forall r, r ∈ rows df ->
            exists w, field_of (schema df) "week" r = VInt w /\ 1 <= w <= 53.
Proof.
  assert (Hw : forall e, e ∈ [Sample.play] -> page e = "NextSong" ->
                         in_window Sample.utc e).
  { intros e He _. apply list_elem_of_singleton in He as ->. by vm_compute. }
  split; [exact Hw|].
  destruct (X14_time_fields_in_range Sample.utc [Sample.play] Hw)
    as (df & Hdf & Hr).
  exists df. split; [exact Hdf|]. intros r Hin.
  destruct (Hr r Hin) as (h & d & w & m & y & wd & _ & _ & Hwk & _ & _ & _
                          & _ & _ & Hb & _).
  eauto.
Defined.

(** X15: [process_log_data] takes the songs from the JSON catalog, which it
    reads again, and not from what [process_song_data] wrote: run on its
    own over a log whose "NextSong" records are all in the window, it
    succeeds and writes the same three data sets whatever the world holds,
    also when there is no songs data set at all or another one, and it
    leaves the songs and the artists destinations as they were. *)
Theorem X15_log_step_reads_the_catalog_again spark w w' :
  bucket spark = input_data -> song_json spark <> [] -> log_json spark <> [] ->
  window spark (log_json spark) ->
  let step := process_log_data spark "s3a://udacity-dend/" "./output_data/" in
  (step w).1 = Some ()
  /\ (forall path,
        path ∈ ["./output_data/users/users.parquet";
                "./output_data/time/time.parquet";
                "./output_data/songplays/songplays.parquet"] ->
        files (step w).2 !! path = files (step w').2 !! path)
  /\ files (step w).2 !! "./output_data/songs.parquet"
     = files w !! "./output_data/songs.parquet"
  /\ files (step w).2 !! "./output_data/artists.parquet"
     = files w !! "./output_data/artists.parquet"
  /\ exists fact,
       SongPlayFact spark (log_json spark) (song_json spark) = Some fact
       /\ contents
            <$> files (step w).2 !! "./output_data/songplays/songplays.parquet"
          = Some fact.
Proof.
  intros Hb Hs Hl Hw step. subst step.
  pose proof (window_datable _ _ Hw) as Hd.
  rewrite !process_log_data_run by done.
  cbn [fst snd files].
  split; [reflexivity|]. split.
  - intros path Hin.
    apply elem_of_cons in Hin as [->|Hin]; [by simplify_map_eq|].
    apply elem_of_cons in Hin as [->|Hin]; [by simplify_map_eq|].
    apply elem_of_cons in Hin as [->|Hin]; [by simplify_map_eq|].
    by apply elem_of_nil in Hin.
  - split; [by simplify_map_eq|]. split; [by simplify_map_eq|].
    eexists. split; [by apply SongPlayFact_rows|]. by simplify_map_eq.
Qed.

Lemma X15_witness :
  bucket Sample.utc = input_data /\ song_json Sample.utc <> []
  /\ log_json Sample.utc <> [] /\ window Sample.utc (log_json Sample.utc)
  /\ (process_log_data Sample.utc "s3a://udacity-dend/" "./output_data/"
                       empty_world).1 = Some ()
  /\ files (process_log_data Sample.utc "s3a://udacity-dend/"
                             "./output_data/" empty_world).2
       !! "./output_data/songs.parquet" = None.
Proof.
  assert (Hs : song_json Sample.utc <> []) by discriminate.
  assert (Hl : log_json Sample.utc <> []) by discriminate.
  pose proof sample_log_window as Hw.
  destruct (X15_log_step_reads_the_catalog_again Sample.utc empty_world
              stale_world eq_refl Hs Hl Hw) as (Hrun & _ & Hsongs & _).
  split; [reflexivity|]. split; [exact Hs|]. split; [exact Hl|].
  split; [exact Hw|].
  split; [exact Hrun|]. rewrite Hsongs. reflexivity.
Defined.
